(** * MCP_ChatBot: capability registry and tool-call dispatch loop

    A shallow embedding of [mcp_local_client.py].  The class [MCP_ChatBot]
    connects to several MCP servers, merges the tools, prompts and resource
    URIs they advertise into the dictionary [self.sessions], and drives the
    loop "model speaks, calls tools, tool results feed back" against an
    Ollama model.

    The servers, the model backend and the standard input are external
    collaborators: they are operations on an abstract world [W] (class
    [Collaborators]).  The console is the one of the [rich] library, which
    reads every string it is given as console markup and raises on a closing
    tag that closes nothing; which values it refuses is a parameter
    ([markup_error]).  A method of the chat bot is a computation in the
    monad [M]: it threads the object's fields and the world, it can raise a
    Python exception, and it records every external operation and every
    console line it produces, in order.

    A Python [str] is represented by its UTF-8 encoding. *)

From Stdlib Require Import String Ascii List Bool Arith ZArith Lia DecimalString.
Import ListNotations.
Local Open Scope string_scope.
Local Open Scope list_scope.

(** String concatenation, kept apart from the [++] of lists. *)
Infix "+++" := String.append (right associativity, at level 60).

(** ** Python values used by the client *)

(** A Python exception, as far as the client tells exceptions apart:
    whether [except Exception] catches it ([KeyboardInterrupt], [SystemExit]
    and [asyncio.CancelledError] are not instances of [Exception]), and
    [str(e)], which is all a handler of the file uses of it. *)
Record exn := { is_Exception : bool; exn_str : string }.

(** An instance of [Exception] ([TypeError], [AttributeError],
    [MarkupError], [EOFError], ...) with the message [msg]. *)
Definition Exception (msg : string) : exn :=
  {| is_Exception := true; exn_str := msg |}.

(** The identity of a [ClientSession] object.  Such an object is always
    truthy, so [if not session] only tests for [None]. *)
Definition ClientSession := nat.

(** A loosely typed JSON document (tool schemas, call arguments, server
    parameters). *)
#[local] Unset Elimination Schemes.
Inductive json : Type :=
| JNull
| JBool (b : bool)
| JNum (z : Z)
| JStr (s : string)
| JArr (items : list json)
| JObj (fields : list (string * json)).
#[local] Set Elimination Schemes.

Definition arguments := list (string * json).
Definition server_config := list (string * json).

Inductive result (A : Type) : Type :=
| Ok (a : A)
| Err (e : exn).
Arguments Ok {A} a.
Arguments Err {A} e.

(** *** Insertion-ordered dictionaries

    A Python [dict] keeps its keys in insertion order, and assigning to a key
    that is already present keeps the key where it is.  [get_resource]
    iterates over [self.sessions.items()], so the order is part of the
    model. *)
Module Dict.

Definition t (V : Type) := list (string * V).

Definition empty {V : Type} : t V := [].

(** [d.get(k)] *)
Fixpoint get {V : Type} (d : t V) (k : string) : option V :=
  match d with
  | [] => None
  | (k', v) :: d' => if String.eqb k' k then Some v else get d' k
  end.

(** [d[k] = v] *)
Fixpoint set {V : Type} (d : t V) (k : string) (v : V) : t V :=
  match d with
  | [] => [(k, v)]
  | (k', v') :: d' =>
      if String.eqb k' k then (k', v) :: d' else (k', v') :: set d' k v
  end.

(** [d.items()] *)
Definition items {V : Type} (d : t V) : list (string * V) := d.

Definition keys {V : Type} (d : t V) : list string := map fst d.

End Dict.

(** *** What a server advertises *)

(** [mcp.types.Tool]: [inputSchema] is a JSON object. *)
Record Tool := {
  tool_name : string;
  tool_description : option string;
  inputSchema : list (string * json)
}.

Record PromptArgument := { arg_name : string }.

Record Prompt := {
  prompt_name : string;
  prompt_description : option string;
  prompt_arguments : option (list PromptArgument)
}.

(** [str(resource.uri)] is all the client reads of a resource. *)
Record Resource := { uri : string }.

(** An item of [result.content] or [result.contents]: the client reads its
    [text] attribute, which a non-text item (an image, a blob) lacks. *)
Inductive content_item : Type :=
| TextItem (text : string)
| OtherItem (class_name : string).

(** The content of a prompt message: a plain string, one object with a
    [text] attribute, or a sequence of items. *)
Inductive prompt_item : Type :=
| ItemText (text : string)
| ItemOther (str_repr : string).

Inductive prompt_content : Type :=
| ContentStr (s : string)
| ContentText (text : string)
| ContentSeq (items : list prompt_item).

Record PromptMessage := { pm_role : string; pm_content : prompt_content }.

(** *** What the model backend exchanges *)

(** An entry of [self.available_tools]. *)
Record parameters_schema := {
  ps_type : option json;
  ps_required : option json
}.

Record function_schema := {
  fs_name : string;
  fs_description : option string;
  fs_parameters : parameters_schema;
  fs_properties : option json
}.

Record tool_schema := {
  ts_type : string;
  ts_function : function_schema
}.

(** An entry of [self.available_prompts]. *)
Record prompt_entry := {
  pe_name : string;
  pe_description : option string;
  pe_arguments : option (list PromptArgument)
}.

(** A turn of the conversation transcript. *)
Record turn := { role : string; content : string }.

(** [tool.function] of a requested call. *)
Record tool_function := { name : string; fn_arguments : arguments }.
Record tool_call := { function : tool_function }.

(** [response.message]: both fields are optional in the Ollama client. *)
Record message := {
  msg_content : option string;
  tool_calls : option (list tool_call)
}.

Record ChatResponse := { response_message : message }.

(** ** The object's fields *)

Record MCP_ChatBot := {
  available_tools : list tool_schema;
  available_prompts : list prompt_entry;
  sessions : Dict.t ClientSession
}.

(** [MCP_ChatBot.__init__] *)
Definition init : MCP_ChatBot :=
  {| available_tools := []; available_prompts := []; sessions := Dict.empty |}.

(** ** Observable events *)

(** What [self.console.print] is given. *)
Inductive printed : Type :=
| PStr (s : string)                      (* a formatted string *)
| PContent (c : option string)           (* [response.message.content] *)
| PToolCall (f : tool_function)          (* "Tool Call:" and [tool.function] *)
| PToolOutput (out : list string)        (* "Tool Output:" and [tool_output] *)
| PPanel (s : string).                   (* [Panel.fit(s)] *)

Inductive event : Type :=
| EvLoadConfig
| EvOpenSession (server_name : string) (cfg : server_config)
| EvListTools (s : ClientSession)
| EvListPrompts (s : ClientSession)
| EvListResources (s : ClientSession)
| EvCallTool (s : ClientSession) (tool : string) (args : arguments)
| EvReadResource (s : ClientSession) (resource_uri : string)
| EvGetPrompt (s : ClientSession) (prompt : string) (args : arguments)
| EvChat (tools : list tool_schema) (messages : list turn)
| EvInput (prompt : string)
| EvPrint (p : printed).

(** ** The external collaborators

    Every operation takes the world and returns the next one, together with
    a value or the exception it raised. *)
Class Collaborators (W : Type) := {
  (** [json.load] of the configuration file and its ["mcpServers"] field *)
  load_config : W -> result (list (string * server_config)) * W;
  (** [StdioServerParameters], [stdio_client], [ClientSession] and
      [session.initialize()], all under the same handler *)
  open_session : string -> server_config -> W -> result ClientSession * W;
  session_list_tools : ClientSession -> W -> result (list Tool) * W;
  (** [None] is a falsy response *)
  session_list_prompts : ClientSession -> W -> result (option (list Prompt)) * W;
  session_list_resources : ClientSession -> W -> result (option (list Resource)) * W;
  session_call_tool :
    ClientSession -> string -> arguments -> W -> result (list content_item) * W;
  session_read_resource :
    ClientSession -> string -> W -> result (option (list content_item)) * W;
  session_get_prompt :
    ClientSession -> string -> arguments -> W ->
    result (option (list PromptMessage)) * W;
  (** [ollama.chat(model, tools, messages)] *)
  ollama_chat : list tool_schema -> list turn -> W -> result ChatResponse * W;
  (** [input(prompt)] *)
  input : string -> W -> result string * W;
  (** [self.console.print(x)] for a value [x] that holds a string: [rich]
      reads the string as console markup and raises [MarkupError] on a
      closing tag that matches no open tag, before anything is written.
      [markup_error x] is the message of that error, [None] when [x] is
      printed. *)
  markup_error : printed -> option string
}.

(** ** The monad of the methods *)

Inductive outcome (A : Type) : Type :=
| Return (a : A)      (* the method returned *)
| Raised (e : exn)    (* an exception left the method *)
| Diverged.           (* a [while True] loop was still running *)
Arguments Return {A} a.
Arguments Raised {A} e.
Arguments Diverged {A}.

Section Monad.

Context {W : Type}.

Record state := { self : MCP_ChatBot; world : W }.

Definition M (A : Type) : Type := state -> outcome A * state * list event.

Definition ret {A : Type} (a : A) : M A := fun s => (Return a, s, []).

Definition bind {A B : Type} (m : M A) (f : A -> M B) : M B :=
  fun s =>
    match m s with
    | (Return a, s1, t1) =>
        match f a s1 with
        | (r, s2, t2) => (r, s2, t1 ++ t2)
        end
    | (Raised e, s1, t1) => (Raised e, s1, t1)
    | (Diverged, s1, t1) => (Diverged, s1, t1)
    end.

Definition raise {A : Type} (e : exn) : M A := fun s => (Raised e, s, []).

Definition diverge {A : Type} : M A := fun s => (Diverged, s, []).

(** [try: m  except Exception as e: handler e].  What [m] did before it
    raised stays done; an exception that is not an instance of [Exception]
    is not caught. *)
Definition try_except {A : Type} (m : M A) (handler : exn -> M A) : M A :=
  fun s =>
    match m s with
    | (Raised e, s1, t1) =>
        if is_Exception e then
          match handler e s1 with
          | (r, s2, t2) => (r, s2, t1 ++ t2)
          end
        else (Raised e, s1, t1)
    | other => other
    end.

Definition emit (ev : event) : M unit := fun s => (Return tt, s, [ev]).

(** An awaited call of a collaborator, recorded as [ev]. *)
Definition call {A : Type} (ev : event) (op : W -> result A * W) : M A :=
  fun s =>
    match op (world s) with
    | (Ok a, w) => (Return a, {| self := self s; world := w |}, [ev])
    | (Err e, w) => (Raised e, {| self := self s; world := w |}, [ev])
    end.

Definition lift_result {A : Type} (r : result A) : M A :=
  match r with
  | Ok a => ret a
  | Err e => raise e
  end.

Definition get_self : M MCP_ChatBot := fun s => (Return (self s), s, []).

Definition modify_self (f : MCP_ChatBot -> MCP_ChatBot) : M unit :=
  fun s => (Return tt, {| self := f (self s); world := world s |}, []).

End Monad.

Arguments state W : clear implicits.
Arguments M W A : clear implicits.

Declare Scope client_scope.
Delimit Scope client_scope with client.
Notation "x <- m ;; k" := (bind m (fun x => k))
  (at level 100, m at next level, right associativity) : client_scope.
Notation "m ;; k" := (bind m (fun _ => k))
  (at level 100, right associativity) : client_scope.
Local Open Scope client_scope.

(** ** Python string helpers *)

Definition newline : string := String (ascii_of_nat 10) EmptyString.

(** [s.startswith(p)] *)
Definition startswith (s p : string) : bool := String.prefix p s.

(** [str.isspace] on the UTF-8 encoding of a character: the white space
    of one byte (U+0009 to U+000D, U+001C to U+0020), of two bytes (U+0085,
    U+00A0) and of three bytes (U+1680, U+2000 to U+200A, U+2028, U+2029,
    U+202F, U+205F, U+3000). *)
Definition isspace1 (a : ascii) : bool :=
  let a := nat_of_ascii a in
  (((9 <=? a) && (a <=? 13)) || ((28 <=? a) && (a <=? 32)))%nat.

Definition isspace2 (a b : ascii) : bool :=
  let a := nat_of_ascii a in
  let b := nat_of_ascii b in
  ((a =? 194) && ((b =? 133) || (b =? 160)))%nat.

Definition isspace3 (a b c : ascii) : bool :=
  let a := nat_of_ascii a in
  let b := nat_of_ascii b in
  let c := nat_of_ascii c in
  (((a =? 225) && (b =? 154) && (c =? 128))
   || ((a =? 226) && (b =? 128)
       && (((128 <=? c) && (c <=? 138)) || (c =? 168) || (c =? 169) || (c =? 175)))
   || ((a =? 226) && (b =? 129) && (c =? 159))
   || ((a =? 227) && (b =? 128) && (c =? 128)))%nat.

(** [s.lstrip()], on the bytes of [s] *)
Fixpoint lstrip_bytes (s : list ascii) : list ascii :=
  match s with
  | [] => []
  | a :: s1 =>
      if isspace1 a then lstrip_bytes s1
      else
        match s1 with
        | b :: s2 =>
            if isspace2 a b then lstrip_bytes s2
            else
              match s2 with
              | c :: s3 => if isspace3 a b c then lstrip_bytes s3 else s
              | [] => s
              end
        | [] => s
        end
  end.

(** [s.rstrip()], on the bytes of [s] in reverse order *)
Fixpoint rstrip_reversed (s : list ascii) : list ascii :=
  match s with
  | [] => []
  | c :: s1 =>
      if isspace1 c then rstrip_reversed s1
      else
        match s1 with
        | b :: s2 =>
            if isspace2 b c then rstrip_reversed s2
            else
              match s2 with
              | a :: s3 => if isspace3 a b c then rstrip_reversed s3 else s
              | [] => s
              end
        | [] => s
        end
  end.

(** [s.strip()] *)
Definition strip (s : string) : string :=
  string_of_list_ascii
    (rev (rstrip_reversed (rev (lstrip_bytes (list_ascii_of_string s))))).

Definition lower_ascii (c : ascii) : ascii :=
  let n := nat_of_ascii c in
  if ((65 <=? n) && (n <=? 90))%nat then ascii_of_nat (n + 32) else c.

(** [s.lower()] on the letters A to Z; the other bytes are kept.  The
    client only compares the result with ['quit'], and no character outside
    A to Z has a lower case made of the letters of that word, so the
    comparison is the one of Python. *)
Fixpoint lower (s : string) : string :=
  match s with
  | EmptyString => EmptyString
  | String c s' => String (lower_ascii c) (lower s')
  end.

(** The [TypeError] of [sep.join(l)] when item [i] of [l] is [None]. *)
Definition join_type_error (i : nat) : exn :=
  Exception
    ("sequence item " +++ NilEmpty.string_of_uint (Nat.to_uint i)
     +++ ": expected str instance, NoneType found").

Fixpoint join_items (i : nat) (l : list (option string)) : result (list string) :=
  match l with
  | [] => Ok []
  | Some s :: l' =>
      match join_items (S i) l' with
      | Ok r => Ok (s :: r)
      | Err e => Err e
      end
  | None :: _ => Err (join_type_error i)
  end.

(** [sep.join(l)] where the items of [l] may be [None] *)
Definition str_join (sep : string) (l : list (option string)) : result string :=
  match join_items 0 l with
  | Ok r => Ok (String.concat sep r)
  | Err e => Err e
  end.

(** [item.text]: an [AttributeError] on an item without the attribute *)
Definition text_of (c : content_item) : result string :=
  match c with
  | TextItem t => Ok t
  | OtherItem cls =>
      Err (Exception ("'" +++ cls +++ "' object has no attribute 'text'"))
  end.

(** [for content in result.content: tool_output.append(content.text)] *)
Fixpoint collect_text (contents : list content_item) (tool_output : list string)
  : result (list string) :=
  match contents with
  | [] => Ok tool_output
  | c :: rest =>
      match text_of c with
      | Ok t => collect_text rest (tool_output ++ [t])
      | Err e => Err e
      end
  end.

(** ** The methods of [MCP_ChatBot] *)

Section Client.

Context {W : Type} {collab : Collaborators W}.

(** [self.console.print(x)].  A string is read as markup and may be
    refused with a [MarkupError], in which case nothing is written; [None]
    (a content that is absent) is not a string and is printed as it is. *)
Definition console_error (p : printed) : option string :=
  match p with
  | PContent None => None
  | _ => markup_error p
  end.

Definition console_print (p : printed) : M W unit :=
  match console_error p with
  | Some msg => raise (Exception msg)
  | None => emit (EvPrint p)
  end.

(** *** Registration: [connect_to_server] *)

(** The dictionary literal appended to [self.available_tools]. *)
Definition adapt_tool (tool : Tool) : tool_schema :=
  {| ts_type := "function";
     ts_function :=
       {| fs_name := tool_name tool;
          fs_description := tool_description tool;
          fs_parameters :=
            {| ps_type := Dict.get (inputSchema tool) "type";
               ps_required := Dict.get (inputSchema tool) "required" |};
          fs_properties := Dict.get (inputSchema tool) "properties" |} |}.

(** One iteration of [for tool in response.tools]. *)
Definition add_tool (session : ClientSession) (bot : MCP_ChatBot) (tool : Tool)
  : MCP_ChatBot :=
  {| available_tools := available_tools bot ++ [adapt_tool tool];
     available_prompts := available_prompts bot;
     sessions := Dict.set (sessions bot) (tool_name tool) session |}.

(** One iteration of [for prompt in prompts_response.prompts]. *)
Definition add_prompt (session : ClientSession) (bot : MCP_ChatBot) (prompt : Prompt)
  : MCP_ChatBot :=
  {| available_tools := available_tools bot;
     available_prompts :=
       available_prompts bot ++
       [{| pe_name := prompt_name prompt;
           pe_description := prompt_description prompt;
           pe_arguments := prompt_arguments prompt |}];
     sessions := Dict.set (sessions bot) (prompt_name prompt) session |}.

(** One iteration of [for resource in resources_response.resources]. *)
Definition add_resource (session : ClientSession) (bot : MCP_ChatBot) (resource : Resource)
  : MCP_ChatBot :=
  {| available_tools := available_tools bot;
     available_prompts := available_prompts bot;
     sessions := Dict.set (sessions bot) (uri resource) session |}.

(** [if response and response.items: for item in response.items: ...] *)
Definition for_each_if_any {A : Type}
    (body : MCP_ChatBot -> A -> MCP_ChatBot) (response : option (list A))
  : M W unit :=
  match response with
  | Some (x :: xs) => modify_self (fun bot => fold_left body (x :: xs) bot)
  | Some [] | None => ret tt
  end.

(** The inner [try] block: the three capability classes, one after the
    other, under one handler. *)
Definition discover (session : ClientSession) : M W unit :=
  response <- call (EvListTools session) (session_list_tools session) ;;
  modify_self (fun bot => fold_left (add_tool session) response bot) ;;
  prompts_response <- call (EvListPrompts session) (session_list_prompts session) ;;
  for_each_if_any (add_prompt session) prompts_response ;;
  resources_response <-
    call (EvListResources session) (session_list_resources session) ;;
  for_each_if_any (add_resource session) resources_response.

Definition connect_to_server (server_name : string) (cfg : server_config)
  : M W unit :=
  try_except
    (session <- call (EvOpenSession server_name cfg) (open_session server_name cfg) ;;
     try_except
       (discover session)
       (fun e => console_print (PStr ("Error " +++ exn_str e))))
    (fun e =>
       console_print
         (PStr ("Error connecting to " +++ server_name +++ ": " +++ exn_str e))).

(** [for server_name, server_config in servers.items()] *)
Fixpoint for_servers (servers : list (string * server_config)) : M W unit :=
  match servers with
  | [] => ret tt
  | (server_name, cfg) :: rest =>
      connect_to_server server_name cfg ;; for_servers rest
  end.

Definition connect_to_servers : M W unit :=
  try_except
    (servers <- call EvLoadConfig load_config ;; for_servers servers)
    (fun e =>
       console_print (PStr ("Error loading server config: " +++ exn_str e)) ;;
       raise e).

(** *** The dispatch loop: [process_query] *)

(** The body of [for tool in response.message.tool_calls or []] for the
    call [tool].  The result is the transcript and whether the loop goes on
    ([false] is [break]). *)
Definition process_tool_call (tool : tool_call)
    (assistant_content : list (option string)) (messages : list turn)
  : M W (list turn * bool) :=
  joined <- lift_result (str_join "" assistant_content) ;;
  let messages := messages ++ [{| role := "assistant"; content := joined |}] in
  console_print (PToolCall (function tool)) ;;
  bot <- get_self ;;
  match Dict.get (sessions bot) (name (function tool)) with
  | None =>
      console_print
        (PStr ("Tool '" +++ name (function tool) +++ "' not found.")) ;;
      ret (messages, false)
  | Some session =>
      result <-
        call (EvCallTool session (name (function tool))
                (fn_arguments (function tool)))
             (session_call_tool session (name (function tool))
                (fn_arguments (function tool))) ;;
      tool_output <- lift_result (collect_text result []) ;;
      console_print (PToolOutput tool_output) ;;
      ret (messages ++
           [{| role := "tool"; content := String.concat "" tool_output |}],
           true)
  end.

(** [for tool in response.message.tool_calls or []], from the call [tool]
    on.  The result is the transcript and [has_tool_use] when the loop is
    left, by exhaustion or by [break]; [has_tool_use] is set at the start
    of every iteration. *)
Fixpoint for_tool_calls (calls : list tool_call)
    (assistant_content : list (option string))
    (messages : list turn) (has_tool_use : bool) : M W (list turn * bool) :=
  match calls with
  | [] => ret (messages, has_tool_use)
  | tool :: rest =>
      r <- process_tool_call tool assistant_content messages ;;
      let '(messages, continue) := r in
      if continue then for_tool_calls rest assistant_content messages true
      else ret (messages, true)
  end.

(** [x or []] *)
Definition or_empty {A : Type} (x : option (list A)) : list A :=
  match x with
  | Some l => l
  | None => []
  end.

(** One iteration of [while True]: a model turn and its tool calls. *)
Definition model_turn (messages : list turn) : M W (list turn * bool) :=
  bot <- get_self ;;
  response <-
    call (EvChat (available_tools bot) messages)
         (ollama_chat (available_tools bot) messages) ;;
  let assistant_content := [] in
  let has_tool_use := false in
  console_print (PContent (msg_content (response_message response))) ;;
  let assistant_content :=
    assistant_content ++ [msg_content (response_message response)] in
  for_tool_calls (or_empty (tool_calls (response_message response)))
    assistant_content messages has_tool_use.

(** [while True], with a bound on the number of model turns. *)
Fixpoint dispatch_loop (fuel : nat) (messages : list turn) : M W unit :=
  match fuel with
  | O => diverge
  | S fuel' =>
      r <- model_turn messages ;;
      let '(messages, has_tool_use) := r in
      if negb has_tool_use then ret tt else dispatch_loop fuel' messages
  end.

Definition process_query (fuel : nat) (query : string) : M W unit :=
  dispatch_loop fuel [{| role := "user"; content := query |}].

(** *** The resolver: [get_resource] and [execute_prompt] *)

(** [for uri, sess in self.sessions.items(): if uri.startswith("papers://"):
    session = sess; break] *)
Fixpoint first_papers_session (items : list (string * ClientSession))
    (session : option ClientSession) : option ClientSession :=
  match items with
  | [] => session
  | (uri, sess) :: rest =>
      if startswith uri "papers://" then Some sess
      else first_papers_session rest session
  end.

(** The [try] block of [get_resource]. *)
Definition read_and_render (session : ClientSession) (resource_uri : string)
  : M W unit :=
  try_except
    (result <-
       call (EvReadResource session resource_uri)
            (session_read_resource session resource_uri) ;;
     match result with
     | Some (first :: _) =>
         console_print (PStr (newline +++ "Resource: " +++ resource_uri)) ;;
         console_print (PStr "Content:") ;;
         text <- lift_result (text_of first) ;;
         console_print (PStr text)
     | Some [] | None => console_print (PStr "No content available.")
     end)
    (fun e => console_print (PStr ("Error: " +++ exn_str e))).

Definition get_resource (resource_uri : string) : M W unit :=
  bot <- get_self ;;
  let session := Dict.get (sessions bot) resource_uri in
  let session :=
    match session with
    | None =>
        if startswith resource_uri "papers://"
        then first_papers_session (Dict.items (sessions bot)) session
        else session
    | Some _ => session
    end in
  match session with
  | None =>
      console_print (PStr ("Resource '" +++ resource_uri +++ "' not found."))
  | Some session => read_and_render session resource_uri
  end.

(** [item.text if hasattr(item, 'text') else str(item)] *)
Definition item_text (item : prompt_item) : string :=
  match item with
  | ItemText text => text
  | ItemOther str_repr => str_repr
  end.

(** The three content shapes of a prompt message. *)
Definition extract_text (prompt_content : prompt_content) : string :=
  match prompt_content with
  | ContentStr s => s
  | ContentText text => text
  | ContentSeq items => String.concat " " (map item_text items)
  end.

Definition execute_prompt (fuel : nat) (prompt_name : string) (args : arguments)
  : M W unit :=
  bot <- get_self ;;
  match Dict.get (sessions bot) prompt_name with
  | None => console_print (PStr ("Prompt '" +++ prompt_name +++ "' not found."))
  | Some session =>
      try_except
        (result <-
           call (EvGetPrompt session prompt_name args)
                (session_get_prompt session prompt_name args) ;;
         match result with
         | Some (first :: _) =>
             let text := extract_text (pm_content first) in
             console_print
               (PStr (newline +++ "Executing prompt '" +++ prompt_name +++ "'...")) ;;
             process_query fuel text
         | Some [] | None => ret tt
         end)
        (fun e => console_print (PStr ("Error: " +++ exn_str e)))
  end.

(** *** The interactive loop: [chat_loop] *)

(** One iteration of the outer [while True]; [false] is [break]. *)
Definition chat_round (fuel : nat) : M W bool :=
  try_except
    (line <- call (EvInput (newline +++ "Query: ")) (input (newline +++ "Query: ")) ;;
     let query := strip line in
     if String.eqb query "" then ret true
     else if String.eqb (lower query) "quit" then ret false
     else (process_query fuel query ;; ret true))
    (fun e =>
       console_print (PStr (newline +++ "Error: " +++ exn_str e)) ;; ret true).

(** The outer [while True], with a bound [rounds] on its iterations;
    [fuel] bounds the model turns of each query. *)
Fixpoint chat_rounds (rounds fuel : nat) : M W unit :=
  match rounds with
  | O => diverge
  | S rounds' =>
      continue <- chat_round fuel ;;
      if continue then chat_rounds rounds' fuel else ret tt
  end.

Definition chat_loop (rounds fuel : nat) : M W unit :=
  console_print (PPanel "Local MCP Client Started!") ;;
  console_print (PStr "Type your queries or 'quit' to exit.") ;;
  chat_rounds rounds fuel.

End Client.

(** ** The remaining methods: [list_prompts], [cleanup] and [main] *)

(** [f"{x}"] of an optional string: [None] is printed as "None". *)
Definition format_optional (x : option string) : string :=
  match x with
  | Some str => str
  | None => "None"
  end.

(** [self.exit_stack.aclose()]: the sessions and transports entered by
    [connect_to_server] are released. *)
Class ExitStack (W : Type) := {
  aclose : W -> result unit * W
}.

Section Lifecycle.

Context {W : Type} {collab : Collaborators W} {stack : ExitStack W}.

(** [for arg in prompt['arguments']].  The arguments are
    [PromptArgument] objects, so [arg.name] is read. *)
Fixpoint for_arguments (args : list PromptArgument) : M W unit :=
  match args with
  | [] => ret tt
  | arg :: rest =>
      console_print (PStr ("    - " +++ arg_name arg)) ;;
      for_arguments rest
  end.

(** [for prompt in self.available_prompts] *)
Fixpoint for_prompts (prompts : list prompt_entry) : M W unit :=
  match prompts with
  | [] => ret tt
  | prompt :: rest =>
      console_print
        (PStr ("- " +++ pe_name prompt +++ ": "
               +++ format_optional (pe_description prompt))) ;;
      match pe_arguments prompt with
      | Some (arg :: args) =>
          console_print (PStr "  Arguments:") ;;
          for_arguments (arg :: args)
      | Some [] | None => ret tt
      end ;;
      for_prompts rest
  end.

Definition list_prompts : M W unit :=
  bot <- get_self ;;
  match available_prompts bot with
  | [] => console_print (PStr "No prompts available.")
  | prompt :: rest =>
      console_print (PStr (newline +++ "Available prompts:")) ;;
      for_prompts (prompt :: rest)
  end.

(** [try: m  finally: final].  The [finally] block runs when [m] returns
    and when it raises; an exception of the block replaces the outcome of
    [m].  A [m] that never finishes never reaches the block. *)
Definition try_finally {A : Type} (m : M W A) (final : M W unit) : M W A :=
  fun s =>
    match m s with
    | (Diverged, s1, t1) => (Diverged, s1, t1)
    | (r, s1, t1) =>
        match final s1 with
        | (Return _, s2, t2) => (r, s2, t1 ++ t2)
        | (Raised e, s2, t2) => (Raised e, s2, t1 ++ t2)
        | (Diverged, s2, t2) => (Diverged, s2, t1 ++ t2)
        end
    end.

Definition cleanup : M W unit :=
  fun s =>
    match aclose (world s) with
    | (Ok _, w) => (Return tt, {| self := self s; world := w |}, [])
    | (Err e, w) => (Raised e, {| self := self s; world := w |}, [])
    end.

(** [main], run on the object [MCP_ChatBot()] it creates. *)
Definition main (rounds fuel : nat) : M W unit :=
  try_finally
    (connect_to_servers ;; chat_loop rounds fuel)
    cleanup.

Definition run_main (rounds fuel : nat) (w : W)
  : outcome unit * state W * list event :=
  main rounds fuel {| self := init; world := w |}.

End Lifecycle.

(** ** Reading runs *)

Definition outcome_of {W A : Type} (run : outcome A * state W * list event)
  : outcome A := fst (fst run).
Definition state_of {W A : Type} (run : outcome A * state W * list event)
  : state W := snd (fst run).
Definition events_of {W A : Type} (run : outcome A * state W * list event)
  : list event := snd run.

(** The turns of a transcript with a given role. *)
Definition with_role (r : string) (messages : list turn) : list turn :=
  filter (fun t => String.eqb (role t) r) messages.

(** The tool invocations of a run, in order. *)
Fixpoint tool_invocations (evs : list event)
  : list (ClientSession * string * arguments) :=
  match evs with
  | [] => []
  | EvCallTool s tool args :: rest => (s, tool, args) :: tool_invocations rest
  | _ :: rest => tool_invocations rest
  end.

(** The transcripts the model backend was invoked with, in order. *)
Fixpoint model_invocations (evs : list event) : list (list turn) :=
  match evs with
  | [] => []
  | EvChat _ messages :: rest => messages :: model_invocations rest
  | _ :: rest => model_invocations rest
  end.

(** The session operations of a run (discovery, invocation, reads). *)
Definition is_session_operation (ev : event) : bool :=
  match ev with
  | EvListTools _ | EvListPrompts _ | EvListResources _
  | EvCallTool _ _ _ | EvReadResource _ _ | EvGetPrompt _ _ _ => true
  | _ => false
  end.

(** The servers a run tried to connect to, in order. *)
Fixpoint opened_servers (evs : list event) : list string :=
  match evs with
  | [] => []
  | EvOpenSession server_name _ :: rest => server_name :: opened_servers rest
  | _ :: rest => opened_servers rest
  end.

(** The tool lists the model backend was offered, in order. *)
Fixpoint offered_tools (evs : list event) : list (list tool_schema) :=
  match evs with
  | [] => []
  | EvChat tools _ :: rest => tools :: offered_tools rest
  | _ :: rest => offered_tools rest
  end.

(** The console lines of a run. *)
Fixpoint printed_lines (evs : list event) : list printed :=
  match evs with
  | [] => []
  | EvPrint p :: rest => p :: printed_lines rest
  | _ :: rest => printed_lines rest
  end.

(** ** Vocabulary of the statements *)

Definition assistant_turn (c : string) : turn :=
  {| role := "assistant"; content := c |}.
Definition tool_turn (c : string) : turn :=
  {| role := "tool"; content := c |}.
Definition user_turn (c : string) : turn :=
  {| role := "user"; content := c |}.

(** *** The lines the client prints *)

Definition tool_not_found (tool : tool_call) : printed :=
  PStr ("Tool '" +++ name (function tool) +++ "' not found.").
Definition resource_not_found_text (resource_uri : string) : printed :=
  PStr ("Resource '" +++ resource_uri +++ "' not found.").
Definition resource_header (resource_uri : string) : printed :=
  PStr (newline +++ "Resource: " +++ resource_uri).
Definition prompt_not_found_text (prompt_name : string) : printed :=
  PStr ("Prompt '" +++ prompt_name +++ "' not found.").
Definition executing_text (prompt_name : string) : printed :=
  PStr (newline +++ "Executing prompt '" +++ prompt_name +++ "'...").
(** the handlers of [get_resource] and [execute_prompt] *)
Definition error_text (e : exn) : printed := PStr ("Error: " +++ exn_str e).
(** the handler of [chat_loop] *)
Definition round_error_text (e : exn) : printed :=
  PStr (newline +++ "Error: " +++ exn_str e).
(** the two handlers of [connect_to_server] *)
Definition discovery_error_text (e : exn) : printed :=
  PStr ("Error " +++ exn_str e).
Definition connection_error_text (server_name : string) (e : exn) : printed :=
  PStr ("Error connecting to " +++ server_name +++ ": " +++ exn_str e).
(** the handler of [connect_to_servers] *)
Definition config_error_text (e : exn) : printed :=
  PStr ("Error loading server config: " +++ exn_str e).
Definition banner : printed := PPanel "Local MCP Client Started!".
Definition quit_hint : printed := PStr "Type your queries or 'quit' to exit.".

Definition not_found_line (tool : tool_call) : event :=
  EvPrint (tool_not_found tool).
Definition resource_not_found (resource_uri : string) : event :=
  EvPrint (resource_not_found_text resource_uri).
Definition prompt_not_found (prompt_name : string) : event :=
  EvPrint (prompt_not_found_text prompt_name).
Definition executing_line (prompt_name : string) : event :=
  EvPrint (executing_text prompt_name).
Definition error_line (e : exn) : event := EvPrint (error_text e).

Definition invocation (session : ClientSession) (tool : tool_call) : event :=
  EvCallTool session (name (function tool)) (fn_arguments (function tool)).

(** The prompt of [input] in the chat loop. *)
Definition query_prompt : string := newline +++ "Query: ".

(** *** Tool calls and the registry *)

(** The calls of a batch that the loop reaches: all of them up to and
    including the first whose name is not in the registry. *)
Fixpoint reached (d : Dict.t ClientSession) (calls : list tool_call)
  : list tool_call :=
  match calls with
  | [] => []
  | tool :: rest =>
      match Dict.get d (name (function tool)) with
      | None => [tool]
      | Some _ => tool :: reached d rest
      end
  end.

(** The calls of a batch that the loop invokes: those before the first
    whose name is not in the registry. *)
Fixpoint resolved_prefix (d : Dict.t ClientSession) (calls : list tool_call)
  : list tool_call :=
  match calls with
  | [] => []
  | tool :: rest =>
      match Dict.get d (name (function tool)) with
      | None => []
      | Some _ => tool :: resolved_prefix d rest
      end
  end.

(** Where the registry sends the calls of a batch, up to the first call
    whose name it does not hold. *)
Fixpoint routed (d : Dict.t ClientSession) (calls : list tool_call)
  : list (ClientSession * string * arguments) :=
  match calls with
  | [] => []
  | tool :: rest =>
      match Dict.get d (name (function tool)) with
      | None => []
      | Some session =>
          (session, name (function tool), fn_arguments (function tool))
          :: routed d rest
      end
  end.

(** Every tool offered to the model has an entry in the registry. *)
Definition tools_routable (bot : MCP_ChatBot) : Prop :=
  forall schema,
    In schema (available_tools bot) ->
    Dict.get (sessions bot) (fs_name (ts_function schema)) <> None.

(** *** Registration *)

(** The keys one session puts in the registry, in registration order. *)
Definition exposed_keys (tools : list Tool) (prompts : option (list Prompt))
    (resources : option (list Resource)) : list string :=
  map tool_name tools ++ map prompt_name (or_empty prompts)
  ++ map uri (or_empty resources).

(** The fields after one session has registered the three classes. *)
Definition registered (session : ClientSession) (tools : list Tool)
    (prompts : option (list Prompt)) (resources : option (list Resource))
    (bot : MCP_ChatBot) : MCP_ChatBot :=
  fold_left (add_resource session) (or_empty resources)
    (fold_left (add_prompt session) (or_empty prompts)
       (fold_left (add_tool session) tools bot)).

Definition assign_all (session : ClientSession) (keys : list string)
    (d : Dict.t ClientSession) : Dict.t ClientSession :=
  fold_left (fun d k => Dict.set d k session) keys d.

(** The descriptor stored for a prompt. *)
Definition entry_of (prompt : Prompt) : prompt_entry :=
  {| pe_name := prompt_name prompt;
     pe_description := prompt_description prompt;
     pe_arguments := prompt_arguments prompt |}.

(** *** What [list_prompts] prints *)

Definition argument_lines (args : list PromptArgument) : list printed :=
  map (fun arg => PStr ("    - " +++ arg_name arg)) args.

Definition prompt_lines (prompt : prompt_entry) : list printed :=
  PStr ("- " +++ pe_name prompt +++ ": "
        +++ format_optional (pe_description prompt))
  :: match pe_arguments prompt with
     | Some (arg :: args) => PStr "  Arguments:" :: argument_lines (arg :: args)
     | Some [] | None => []
     end.

Definition prompts_listing (bot : MCP_ChatBot) : list printed :=
  match available_prompts bot with
  | [] => [PStr "No prompts available."]
  | prompts =>
      PStr (newline +++ "Available prompts:") :: flat_map prompt_lines prompts
  end.

Section Vocabulary.

Context {W : Type} {collab : Collaborators W}.

(** The console prints every value of the list. *)
Definition all_printed (lines : list printed) : Prop :=
  Forall (fun p => console_error p = None) lines.

(** The exception is a [MarkupError] of the console on the value [p]. *)
Definition raised_by_console (e : exn) : Prop :=
  exists p msg, console_error p = Some msg /\ e = Exception msg.

(** The turns a batch of tool calls appends to the transcript when it is
    left normally, read off the answers of the sessions from the world [w]
    on: for each call reached, an assistant turn holding the content [c];
    for each call invoked, the tool turn of its result. *)
Fixpoint batch_turns (d : Dict.t ClientSession) (c : string)
    (calls : list tool_call) (w : W) : list turn :=
  match calls with
  | [] => []
  | tool :: rest =>
      assistant_turn c
      :: match Dict.get d (name (function tool)) with
         | None => []
         | Some session =>
             match
               session_call_tool session (name (function tool))
                 (fn_arguments (function tool)) w
             with
             | (Ok contents, w') =>
                 match collect_text contents [] with
                 | Ok out =>
                     tool_turn (String.concat "" out) :: batch_turns d c rest w'
                 | Err _ => []
                 end
             | (Err _, _) => []
             end
         end
  end.

(** [k] model turns in a row, each of which used a tool and was left
    normally, lead from the transcript [messages] to [messages']. *)
Inductive tool_turns
  : nat -> list turn -> state W -> list event -> list turn -> state W -> Prop :=
| tool_turns_O messages s : tool_turns 0 messages s [] messages s
| tool_turns_S k messages s messages1 s1 evs1 evs messages' s' :
    model_turn messages s = (Return (messages1, true), s1, evs1) ->
    tool_turns k messages1 s1 evs messages' s' ->
    tool_turns (S k) messages s (evs1 ++ evs) messages' s'.

(** How far the discovery of a session gets from the world [w] on: the
    answers of the classes before the first one that fails, in the order
    of the source (tools, prompts, resources). *)
Definition discovery_answers (session : ClientSession) (w : W)
  : list Tool * option (list Prompt) * option (list Resource) :=
  match session_list_tools session w with
  | (Err _, _) => ([], None, None)
  | (Ok tools, w1) =>
      match session_list_prompts session w1 with
      | (Err _, _) => (tools, None, None)
      | (Ok prompts, w2) =>
          match session_list_resources session w2 with
          | (Err _, _) => (tools, prompts, None)
          | (Ok resources, _) => (tools, prompts, resources)
          end
      end
  end.

(** The keys the discovery of a session reaches. *)
Definition discovered (session : ClientSession) (w : W) : list string :=
  match discovery_answers session w with
  | (tools, prompts, resources) => exposed_keys tools prompts resources
  end.

(** What printing the values [lines] one after the other gives: the
    lines are written in order up to the first one the console refuses,
    whose [MarkupError] is raised. *)
Fixpoint printing (lines : list printed) : outcome unit * list event :=
  match lines with
  | [] => (Return tt, [])
  | p :: rest =>
      match console_error p with
      | Some msg => (Raised (Exception msg), [])
      | None =>
          match printing rest with
          | (r, evs) => (r, EvPrint p :: evs)
          end
      end
  end.

End Vocabulary.

(** ** A scripted world

    Servers and model backend answer from fixed tables; the standard input
    is a list of lines, consumed one per [input]; the console refuses the
    lines of a fixed table, with the message [rich] gives for them, and
    prints every other value.  It instantiates the collaborators for
    concrete runs. *)
Module Scripted.

Definition EOFError : exn := Exception "EOF when reading a line".

(** Ctrl-C: not an instance of [Exception]. *)
Definition KeyboardInterrupt : exn := {| is_Exception := false; exn_str := "" |}.

Record script := {
  config : result (list (string * server_config));
  servers : string -> result ClientSession;
  tools_of : ClientSession -> result (list Tool);
  prompts_of : ClientSession -> result (option (list Prompt));
  resources_of : ClientSession -> result (option (list Resource));
  tool_results : ClientSession -> string -> result (list content_item);
  resource_contents : ClientSession -> string -> result (option (list content_item));
  prompt_messages : ClientSession -> string -> result (option (list PromptMessage));
  model : list turn -> result ChatResponse;
  stdin : list string;
  at_end : exn
}.

(** [input] returns the next line of [stdin]; once the lines are used up
    it raises [at_end]: an [EOFError] at the end of the standard input, a
    [KeyboardInterrupt] when the user presses Ctrl-C. *)
Definition read_line (w : script) : result string * script :=
  match stdin w with
  | [] => (Err (at_end w), w)
  | line :: rest =>
      (Ok line,
       {| config := config w; servers := servers w; tools_of := tools_of w;
          prompts_of := prompts_of w; resources_of := resources_of w;
          tool_results := tool_results w;
          resource_contents := resource_contents w;
          prompt_messages := prompt_messages w;
          model := model w; stdin := rest; at_end := at_end w |})
  end.

(** The console of the scripted worlds: the strings of their runs that
    hold a closing tag which closes nothing, each with the message of its
    [MarkupError]; every other string of these runs is printed.  The tool
    calls and the tool outputs of the scripted worlds hold no tag. *)
Definition no_open_tag (tag : string) (position : nat) : string :=
  "closing tag '" +++ tag +++ "' at position "
  +++ NilEmpty.string_of_uint (Nat.to_uint position)
  +++ " doesn't match any open tag".

Definition refused_strings : Dict.t string :=
  [("Resource 'notes://[/x]' not found.", no_open_tag "[/x]" 18);
   ("Resource 'papers://[/x]' not found.", no_open_tag "[/x]" 19);
   ("Prompt 'a[/b]' not found.", no_open_tag "[/b]" 9);
   ("- brief[/b]: None", no_open_tag "[/b]" 7);
   (newline +++ "Executing prompt 'brief[/b]'...", no_open_tag "[/b]" 24);
   ("Error: " +++ no_open_tag "[/b]" 24, no_open_tag "[/b]" 20);
   ("see [/usr/bin]", no_open_tag "[/usr/bin]" 4);
   ("Error: " +++ no_open_tag "[/usr/bin]" 4, no_open_tag "[/usr/bin]" 20);
   (newline +++ "Error: " +++ no_open_tag "[/usr/bin]" 4,
    no_open_tag "[/usr/bin]" 21);
   ("Error bad reply [/tools]", no_open_tag "[/tools]" 16);
   ("Error connecting to flaky: " +++ no_open_tag "[/tools]" 16,
    no_open_tag "[/tools]" 40);
   ("Error loading server config: " +++ no_open_tag "[/tools]" 40,
    no_open_tag "[/tools]" 42)].

Definition scripted_console (p : printed) : option string :=
  match p with
  | PStr s | PPanel s | PContent (Some s) => Dict.get refused_strings s
  | PContent None | PToolCall _ | PToolOutput _ => None
  end.

#[export] Instance collaborators : Collaborators script := {|
  load_config := fun w => (config w, w);
  open_session := fun server_name _ w => (servers w server_name, w);
  session_list_tools := fun s w => (tools_of w s, w);
  session_list_prompts := fun s w => (prompts_of w s, w);
  session_list_resources := fun s w => (resources_of w s, w);
  session_call_tool := fun s tool _ w => (tool_results w s tool, w);
  session_read_resource := fun s u w => (resource_contents w s u, w);
  session_get_prompt := fun s p _ w => (prompt_messages w s p, w);
  ollama_chat := fun _ messages w => (model w messages, w);
  input := fun _ w => read_line w;
  markup_error := scripted_console
|}.

(** Closing the exit stack of a scripted world succeeds and changes
    nothing. *)
#[export] Instance exit_stack : ExitStack script := {|
  aclose := fun w => (Ok tt, w)
|}.

(** A world in which nothing is connected and the model only talks. *)
Definition quiet : script := {|
  config := Ok [];
  servers := fun _ => Err (Exception "no such server");
  tools_of := fun _ => Ok [];
  prompts_of := fun _ => Ok None;
  resources_of := fun _ => Ok None;
  tool_results := fun _ _ => Err (Exception "unknown tool");
  resource_contents := fun _ _ => Ok None;
  prompt_messages := fun _ _ => Ok None;
  model := fun _ =>
    Ok {| response_message := {| msg_content := Some "ok"; tool_calls := None |} |};
  stdin := [];
  at_end := EOFError
|}.

End Scripted.
(** ** Concrete worlds *)

Module Scenario.

Import Scripted.

Definition call_of (tool : string) (args : arguments) : tool_call :=
  {| function := {| name := tool; fn_arguments := args |} |}.

Definition add_call : tool_call := call_of "add" [("a", JNum 2); ("b", JNum 3)].

Definition missing_call : tool_call := call_of "subtract" [].

Definition later_call : tool_call := call_of "add" [("a", JNum 1); ("b", JNum 1)].

Definition add_tool_descriptor : Tool :=
  {| tool_name := "add";
     tool_description := Some "Add two integers";
     inputSchema :=
       [("type", JStr "object");
        ("required", JArr [JStr "a"; JStr "b"]);
        ("properties",
         JObj [("a", JObj [("type", JStr "integer")]);
               ("b", JObj [("type", JStr "integer")])])] |}.

Definition summarize_prompt : Prompt :=
  {| prompt_name := "summarize";
     prompt_description := Some "Summarize a topic";
     prompt_arguments := Some [{| arg_name := "topic" |}] |}.

Definition reply (c : option string) (calls : option (list tool_call))
  : result ChatResponse :=
  Ok {| response_message := {| msg_content := c; tool_calls := calls |} |}.

(** Session 1 is a calculator with the tool "add" and the prompt
    "summarize", session 2 serves the resource "papers://456".  On the
    first turn of a query the model asks for [first_calls]; afterwards it
    only talks. *)
Definition lab (first_calls : option (list tool_call))
    (add_result : result (list content_item)) (lines : list string) : script :=
  {| config := Ok [("calculator", []); ("papers", [])];
     servers := fun server_name =>
       if String.eqb server_name "calculator" then Ok 1
       else if String.eqb server_name "papers" then Ok 2
       else Err (Exception "no such server");
     tools_of := fun s => if Nat.eqb s 1 then Ok [add_tool_descriptor] else Ok [];
     prompts_of := fun s =>
       if Nat.eqb s 1 then Ok (Some [summarize_prompt]) else Ok None;
     resources_of := fun s =>
       if Nat.eqb s 2 then Ok (Some [{| uri := "papers://456" |}]) else Ok None;
     tool_results := fun s tool =>
       if String.eqb tool "add" then add_result else Err (Exception "unknown tool");
     resource_contents := fun _ _ => Ok (Some [TextItem "A paper."]);
     prompt_messages := fun _ prompt =>
       if String.eqb prompt "summarize"
       then Ok (Some [{| pm_role := "user"; pm_content := ContentStr "Summarize X" |}])
       else Ok None;
     model := fun messages =>
       match messages with
       | [_] => reply (Some "") first_calls
       | _ => reply (Some "Done.") None
       end;
     stdin := lines; at_end := EOFError |}.

(** The fields once both servers of [lab] are connected. *)
Definition connected : MCP_ChatBot :=
  {| available_tools := [adapt_tool add_tool_descriptor];
     available_prompts :=
       [{| pe_name := "summarize";
           pe_description := Some "Summarize a topic";
           pe_arguments := Some [{| arg_name := "topic" |}] |}];
     sessions := [("add", 1); ("summarize", 1); ("papers://456", 2)] |}.

Definition batch_world : script :=
  lab (Some [add_call; missing_call; later_call]) (Ok [TextItem "5"]) [].

Definition batch_state : state script :=
  {| self := connected; world := batch_world |}.

Definition quiet_state : state script := {| self := init; world := quiet |}.

Definition twin_world : script :=
  {| config := Ok [("first", []); ("second", [])];
     servers := fun server_name =>
       if String.eqb server_name "first" then Ok 1 else Ok 2;
     tools_of := fun s => if Nat.eqb s 1 then Ok [add_tool_descriptor] else Ok [];
     prompts_of := fun _ => Ok None;
     resources_of := fun s =>
       if Nat.eqb s 2 then Ok (Some [{| uri := "add" |}]) else Ok None;
     tool_results := fun _ _ => Ok [];
     resource_contents := fun _ _ => Ok None;
     prompt_messages := fun _ _ => Ok None;
     model := fun _ => reply None None;
     stdin := []; at_end := EOFError |}.

Definition twin_state : state script := {| self := init; world := twin_world |}.

Definition flaky_world : script :=
  {| config := Ok [("flaky", [])];
     servers := fun _ => Ok 7;
     tools_of := fun _ => Err (Exception "tools unavailable");
     prompts_of := fun _ => Ok (Some [summarize_prompt]);
     resources_of := fun _ => Ok (Some [{| uri := "papers://456" |}]);
     tool_results := fun _ _ => Ok [];
     resource_contents := fun _ _ => Ok None;
     prompt_messages := fun _ _ => Ok None;
     model := fun _ => reply None None;
     stdin := []; at_end := EOFError |}.

Definition flaky_state : state script := {| self := init; world := flaky_world |}.

(** The reading "exactly one assistant turn is appended per model turn". *)
Definition appends_assistant_once (messages : list turn) (s : state script)
  : Prop :=
  forall messages' h,
    outcome_of (model_turn messages s) = Return (messages', h) ->
    length (with_role "assistant" messages') =
    S (length (with_role "assistant" messages)).

Definition two_calls_state : state script :=
  {| self := connected;
     world := lab (Some [add_call; later_call]) (Ok [TextItem "5"]) [] |}.

Definition failing_world (lines : list string) : script :=
  lab (Some [add_call; later_call]) (Err (Exception "connection lost")) lines.

Definition failing_state (lines : list string) : state script :=
  {| self := connected; world := failing_world lines |}.

Definition connected_state : state script :=
  {| self := connected; world := lab None (Ok []) [] |}.

(** The prompt "summarize" is registered, but its server has no message
    for it. *)
Definition silent_state : state script :=
  {| self := connected;
     world :=
       {| config := Ok [];
          servers := fun _ => Err (Exception "no such server");
          tools_of := fun _ => Ok [];
          prompts_of := fun _ => Ok None;
          resources_of := fun _ => Ok None;
          tool_results := fun _ _ => Err (Exception "unknown tool");
          resource_contents := fun _ _ => Ok None;
          prompt_messages := fun _ _ => Ok (Some []);
          model := fun _ => reply (Some "ok") None;
          stdin := []; at_end := EOFError |} |}.

End Scenario.

(** ** More concrete worlds *)

Module Worlds.

Import Scripted Scenario.

Definition with_model (model : list turn -> result ChatResponse) : script :=
  {| config := Ok [("calculator", []); ("papers", [])];
     servers := fun server_name =>
       if String.eqb server_name "calculator" then Ok 1 else Ok 2;
     tools_of := fun s => if Nat.eqb s 1 then Ok [add_tool_descriptor] else Ok [];
     prompts_of := fun s =>
       if Nat.eqb s 1 then Ok (Some [summarize_prompt]) else Ok None;
     resources_of := fun s =>
       if Nat.eqb s 2 then Ok (Some [{| uri := "papers://456" |}]) else Ok None;
     tool_results := fun _ tool =>
       if String.eqb tool "add" then Ok [TextItem "5"] else Err (Exception "unknown tool");
     resource_contents := fun _ _ => Err (Exception "read timed out");
     prompt_messages := fun _ _ => Err (Exception "prompt unavailable");
     model := model;
     stdin := []; at_end := EOFError |}.

(** The configuration file cannot be read. *)
Definition unconfigured : script :=
  {| config := Err (Exception "No such file or directory");
     servers := fun _ => Ok 1;
     tools_of := fun _ => Ok [add_tool_descriptor];
     prompts_of := fun _ => Ok None;
     resources_of := fun _ => Ok None;
     tool_results := fun _ _ => Ok [];
     resource_contents := fun _ _ => Ok None;
     prompt_messages := fun _ _ => Ok None;
     model := fun _ => reply (Some "ok") None;
     stdin := ["add 2 and 3"]; at_end := EOFError |}.

(** The model backend is down. *)
Definition offline : script := with_model (fun _ => Err (Exception "model offline")).

(** The model answers without content and asks for "add". *)
Definition contentless : script :=
  with_model (fun _ => reply None (Some [add_call])).

(** The model asks at every turn for a tool nobody registered. *)
Definition stubborn : script :=
  with_model (fun _ => reply (Some "") (Some [missing_call])).

Definition on (w : script) : state script := {| self := connected; world := w |}.

(** The model asks for "summarize" as a tool: the name is in the registry
    (it is a prompt of session 1), and the server refuses the call. *)
Definition summarize_call : tool_call := call_of "summarize" [].

(** The first turn asks for "add" and then for "summarize". *)
Definition second_call_fails : script :=
  lab (Some [add_call; summarize_call]) (Ok [TextItem "5"]) [].

(** The first turn asks for "add"; the second one for "add" and then for
    "summarize"; afterwards the model only talks. *)
Definition second_turn_fails (lines : list string) : script :=
  {| config := Ok [("calculator", []); ("papers", [])];
     servers := fun server_name =>
       if String.eqb server_name "calculator" then Ok 1 else Ok 2;
     tools_of := fun s => if Nat.eqb s 1 then Ok [add_tool_descriptor] else Ok [];
     prompts_of := fun s =>
       if Nat.eqb s 1 then Ok (Some [summarize_prompt]) else Ok None;
     resources_of := fun s =>
       if Nat.eqb s 2 then Ok (Some [{| uri := "papers://456" |}]) else Ok None;
     tool_results := fun _ tool =>
       if String.eqb tool "add" then Ok [TextItem "5"]
       else Err (Exception "unknown tool");
     resource_contents := fun _ _ => Ok None;
     prompt_messages := fun _ _ => Ok None;
     model := fun messages =>
       match messages with
       | [_] => reply (Some "") (Some [add_call])
       | [_; _; _] => reply (Some "") (Some [add_call; summarize_call])
       | _ => reply (Some "Done.") None
       end;
     stdin := lines; at_end := EOFError |}.

(** Two servers that both expose the resource "notes://shared"; the
    second one has no prompts and its [list_prompts] raises. *)
Definition tools_only_second : script :=
  {| config := Ok [("first", []); ("second", [])];
     servers := fun server_name =>
       if String.eqb server_name "first" then Ok 1 else Ok 2;
     tools_of := fun _ => Ok [];
     prompts_of := fun s =>
       if Nat.eqb s 1 then Ok None else Err (Exception "Method not found");
     resources_of := fun _ => Ok (Some [{| uri := "notes://shared" |}]);
     tool_results := fun _ _ => Ok [];
     resource_contents := fun _ _ => Ok None;
     prompt_messages := fun _ _ => Ok None;
     model := fun _ => reply None None;
     stdin := []; at_end := EOFError |}.

(** A registry with a prompt whose name holds a closing tag. *)
Definition tagged_prompt : MCP_ChatBot :=
  {| available_tools := [];
     available_prompts :=
       [{| pe_name := "brief[/b]"; pe_description := None; pe_arguments := None |}];
     sessions := [("brief[/b]", 1)] |}.

Definition tagged_prompt_state : state script :=
  {| self := tagged_prompt;
     world :=
       {| config := Ok [];
          servers := fun _ => Err (Exception "no such server");
          tools_of := fun _ => Ok [];
          prompts_of := fun _ => Ok None;
          resources_of := fun _ => Ok None;
          tool_results := fun _ _ => Err (Exception "unknown tool");
          resource_contents := fun _ _ => Ok None;
          prompt_messages := fun _ _ =>
            Ok (Some [{| pm_role := "user"; pm_content := ContentStr "Be brief" |}]);
          model := fun _ => reply (Some "ok") None;
          stdin := []; at_end := EOFError |} |}.

(** The model answers with a content that holds a closing tag. *)
Definition tagged_content : script :=
  with_model (fun _ => reply (Some "see [/usr/bin]") None).

(** The model answers without content and asks for "add" and then for a
    tool nobody registered. *)
Definition contentless_batch : script :=
  with_model (fun _ => reply None (Some [add_call; missing_call])).

(** The world [w] with the lines [lines] at the prompt, after which
    [input] raises [e]. *)
Definition at_prompt (lines : list string) (e : exn) (w : script) : script :=
  {| config := config w; servers := servers w; tools_of := tools_of w;
     prompts_of := prompts_of w; resources_of := resources_of w;
     tool_results := tool_results w;
     resource_contents := resource_contents w;
     prompt_messages := prompt_messages w;
     model := model w; stdin := lines; at_end := e |}.

(** Two configured servers; the [list_tools] of the first one raises an
    error whose text holds a closing tag. *)
Definition tagged_reply : script :=
  {| config := Ok [("flaky", []); ("calculator", [])];
     servers := fun server_name =>
       if String.eqb server_name "flaky" then Ok 7 else Ok 1;
     tools_of := fun s =>
       if Nat.eqb s 7 then Err (Exception "bad reply [/tools]")
       else Ok [add_tool_descriptor];
     prompts_of := fun _ => Ok None;
     resources_of := fun _ => Ok None;
     tool_results := fun _ _ => Ok [];
     resource_contents := fun _ _ => Ok None;
     prompt_messages := fun _ _ => Ok None;
     model := fun _ => reply (Some "ok") None;
     stdin := []; at_end := EOFError |}.

(** The registered resource reads as [contents]. *)
Definition with_resource (contents : result (option (list content_item)))
  : script :=
  {| config := Ok [];
     servers := fun _ => Err (Exception "no such server");
     tools_of := fun _ => Ok [];
     prompts_of := fun _ => Ok None;
     resources_of := fun _ => Ok None;
     tool_results := fun _ _ => Err (Exception "unknown tool");
     resource_contents := fun _ _ => contents;
     prompt_messages := fun _ _ => Ok None;
     model := fun _ => reply (Some "ok") None;
     stdin := []; at_end := EOFError |}.

(** U+00A0 (no-break space) and U+2003 (em space), in UTF-8. *)
Definition nbsp : string :=
  String (ascii_of_nat 194) (String (ascii_of_nat 160) EmptyString).
Definition emsp : string :=
  String (ascii_of_nat 226)
    (String (ascii_of_nat 128) (String (ascii_of_nat 131) EmptyString)).

End Worlds.

(** ** Facts about dictionaries *)

Lemma dict_get_set_eq {V : Type} (d : Dict.t V) k v :
  Dict.get (Dict.set d k v) k = Some v.
Proof.
  induction d as [|[k' v'] d IH]; simpl.
  - now rewrite String.eqb_refl.
  - destruct (String.eqb k' k) eqn:E; simpl; rewrite E; auto.
Qed.

Lemma dict_get_set_ne {V : Type} (d : Dict.t V) k k' v :
  k <> k' -> Dict.get (Dict.set d k v) k' = Dict.get d k'.
Proof.
  intros Hne. induction d as [|[k0 v0] d IH]; simpl.
  - destruct (String.eqb_spec k k'); congruence.
  - destruct (String.eqb_spec k0 k) as [->|Hk]; simpl.
    + destruct (String.eqb_spec k k'); congruence.
    + destruct (String.eqb_spec k0 k'); auto.
Qed.

Lemma dict_get_set {V : Type} (d : Dict.t V) k k' v :
  Dict.get (Dict.set d k v) k' =
  if String.eqb k k' then Some v else Dict.get d k'.
Proof.
  destruct (String.eqb_spec k k') as [->|Hne].
  - apply dict_get_set_eq.
  - now apply dict_get_set_ne.
Qed.

(** Assigning never changes the relative order of the keys already there:
    a new key goes last, a key already present stays where it is. *)
Lemma dict_keys_set {V : Type} (d : Dict.t V) k v :
  Dict.keys (Dict.set d k v) =
  match Dict.get d k with
  | Some _ => Dict.keys d
  | None => Dict.keys d ++ [k]
  end.
Proof.
  unfold Dict.keys. induction d as [|[k' v'] d IH]; simpl; auto.
  destruct (String.eqb k' k) eqn:E; simpl; auto.
  rewrite IH. now destruct (Dict.get d k).
Qed.

(** ** Facts about the console and the observers *)

Tactic Notation "unfold_monad" :=
  unfold bind, ret, raise, diverge, try_except, call, emit,
    lift_result, get_self, modify_self.
Tactic Notation "unfold_monad" "in" hyp(H) :=
  unfold bind, ret, raise, diverge, try_except, call, emit,
    lift_result, get_self, modify_self in H.

Section Console.

Context {W : Type} {collab : Collaborators W}.

Lemma console_print_ok p (s : state W) :
  console_error p = None -> console_print p s = (Return tt, s, [EvPrint p]).
Proof. intros Hp. unfold console_print. now rewrite Hp. Qed.

Lemma console_print_refused p msg (s : state W) :
  console_error p = Some msg ->
  console_print p s = (Raised (Exception msg), s, []).
Proof. intros Hp. unfold console_print. now rewrite Hp. Qed.

(** A print writes its line and returns, or raises a [MarkupError] and
    writes nothing; it changes nothing else. *)
Lemma console_print_cases p (s : state W) :
  (console_error p = None /\ console_print p s = (Return tt, s, [EvPrint p]))
  \/ (exists msg,
        console_error p = Some msg
        /\ console_print p s = (Raised (Exception msg), s, [])).
Proof.
  unfold console_print. destruct (console_error p) as [msg|].
  - right. now exists msg.
  - now left.
Qed.

Lemma tool_invocations_app evs1 evs2 :
  tool_invocations (evs1 ++ evs2) = tool_invocations evs1 ++ tool_invocations evs2.
Proof.
  induction evs1 as [|ev evs1 IH]; simpl; [reflexivity|].
  destruct ev; simpl; now rewrite ?IH.
Qed.

Lemma model_invocations_app evs1 evs2 :
  model_invocations (evs1 ++ evs2) =
  model_invocations evs1 ++ model_invocations evs2.
Proof.
  induction evs1 as [|ev evs1 IH]; simpl; [reflexivity|].
  destruct ev; simpl; now rewrite ?IH.
Qed.

Lemma offered_tools_app evs1 evs2 :
  offered_tools (evs1 ++ evs2) = offered_tools evs1 ++ offered_tools evs2.
Proof.
  induction evs1 as [|ev evs1 IH]; simpl; [reflexivity|].
  destruct ev; simpl; now rewrite ?IH.
Qed.

Lemma opened_servers_app evs1 evs2 :
  opened_servers (evs1 ++ evs2) = opened_servers evs1 ++ opened_servers evs2.
Proof.
  induction evs1 as [|ev evs1 IH]; simpl; [reflexivity|].
  destruct ev; simpl; now rewrite ?IH.
Qed.

Lemma printed_lines_app evs1 evs2 :
  printed_lines (evs1 ++ evs2) = printed_lines evs1 ++ printed_lines evs2.
Proof.
  induction evs1 as [|ev evs1 IH]; simpl; [reflexivity|].
  destruct ev; simpl; now rewrite ?IH.
Qed.

Lemma session_operations_app evs1 evs2 :
  filter is_session_operation (evs1 ++ evs2) =
  filter is_session_operation evs1 ++ filter is_session_operation evs2.
Proof. apply filter_app. Qed.

(** A [try] whose handler only prints: an exception that leaves it is not
    an [Exception], or is the [MarkupError] of the handler's print. *)
Lemma caught_escapes {A : Type} (m : M W A) (line : exn -> printed)
    (after : M W A) (s : state W) e :
  (forall s1 e1, outcome_of (after s1) <> Raised e1) ->
  outcome_of (try_except m (fun e => console_print (line e) ;; after) s) = Raised e ->
  is_Exception e = false \/ raised_by_console e.
Proof.
  intros Hafter. unfold try_except.
  destruct (m s) as [[[a|e0|] s1] t1]; cbn.
  - discriminate.
  - destruct (is_Exception e0) eqn:Hkind.
    + unfold bind.
      destruct (console_print_cases (line e0) s1) as [[_ ->]|(msg & Hmsg & ->)].
      * specialize (Hafter s1 e).
        destruct (after s1) as [[r2 s2] t2]. cbn in *. intros Hr. contradiction.
      * cbn. intros [= <-]. right. now exists (line e0), msg.
    + cbn. intros [= <-]. now left.
  - discriminate.
Qed.

(** A [try] whose handler prints one line: what becomes of the outcome
    of the body. *)
Lemma reported_unfold (m : M W unit) (line : exn -> printed) (s : state W) :
  try_except m (fun e => console_print (line e)) s =
    match m s with
    | (Raised e, s1, evs1) =>
        if is_Exception e then
          match console_error (line e) with
          | None => (Return tt, s1, evs1 ++ [EvPrint (line e)])
          | Some msg => (Raised (Exception msg), s1, evs1)
          end
        else (Raised e, s1, evs1)
    | other => other
    end.
Proof.
  unfold try_except. destruct (m s) as [[[[]|e|] s1] evs1]; try reflexivity.
  destruct (is_Exception e); [|reflexivity].
  destruct (console_print_cases (line e) s1) as [[-> ->]|(msg & -> & ->)].
  - reflexivity.
  - now rewrite app_nil_r.
Qed.


End Console.

(** ** Facts about a batch of tool calls *)

Section Batch.

Context {W : Type} {collab : Collaborators W}.

(** A call whose name is not in the registry: the assistant turn is
    appended, "not found" is printed, and the loop is left. *)
Lemma process_tool_call_unresolved (B : tool_call) c messages (s : state W) :
  Dict.get (sessions (self s)) (name (function B)) = None ->
  console_error (PToolCall (function B)) = None ->
  console_error (tool_not_found B) = None ->
  process_tool_call B [Some c] messages s =
    (Return (messages ++ [assistant_turn c], false), s,
     [EvPrint (PToolCall (function B)); not_found_line B]).
Proof.
  intros HB Hcall Hline. unfold process_tool_call, bind, lift_result, get_self.
  cbn [str_join join_items ret]. rewrite (console_print_ok _ _ Hcall), HB.
  fold (tool_not_found B). rewrite (console_print_ok _ _ Hline). reflexivity.
Qed.

(** A call that resolves, returns text items and whose lines the console
    prints: the assistant turn and the tool turn are appended. *)
Lemma process_tool_call_resolved (A : tool_call) c messages (s : state W)
    session contents w out :
  Dict.get (sessions (self s)) (name (function A)) = Some session ->
  console_error (PToolCall (function A)) = None ->
  session_call_tool session (name (function A)) (fn_arguments (function A))
    (world s) = (Ok contents, w) ->
  collect_text contents [] = Ok out ->
  console_error (PToolOutput out) = None ->
  process_tool_call A [Some c] messages s =
    (Return (messages ++ [assistant_turn c; tool_turn (String.concat "" out)],
             true),
     {| self := self s; world := w |},
     [EvPrint (PToolCall (function A)); invocation session A;
      EvPrint (PToolOutput out)]).
Proof.
  intros HA Hline Hcall Hout Hprint.
  unfold process_tool_call, bind, lift_result, get_self, call.
  cbn [str_join join_items ret]. rewrite (console_print_ok _ _ Hline), HA, Hcall.
  rewrite Hout. cbn [ret]. rewrite (console_print_ok _ _ Hprint).
  cbn. now rewrite <- app_assoc.
Qed.

(** An invocation that raises ends the call with that exception. *)
Lemma process_tool_call_raises (A : tool_call) c messages (s : state W)
    session e w :
  Dict.get (sessions (self s)) (name (function A)) = Some session ->
  console_error (PToolCall (function A)) = None ->
  session_call_tool session (name (function A)) (fn_arguments (function A))
    (world s) = (Err e, w) ->
  process_tool_call A [Some c] messages s =
    (Raised e, {| self := self s; world := w |},
     [EvPrint (PToolCall (function A)); invocation session A]).
Proof.
  intros HA Hline Hcall.
  unfold process_tool_call, bind, lift_result, get_self, call.
  cbn [str_join join_items ret]. rewrite (console_print_ok _ _ Hline), HA, Hcall.
  reflexivity.
Qed.

(** What one iteration of the loop can do, whatever its outcome. *)
Lemma process_tool_call_spec tool ac messages (s : state W) r s' evs :
  process_tool_call tool ac messages s = (r, s', evs) ->
  self s' = self s
  /\ model_invocations evs = []
  /\ offered_tools evs = []
  /\ match Dict.get (sessions (self s)) (name (function tool)) with
     | None =>
         tool_invocations evs = []
         /\ forall messages' continue,
              r = Return (messages', continue) ->
              continue = false /\ s' = s
              /\ exists c, str_join "" ac = Ok c
                           /\ messages' = messages ++ [assistant_turn c]
     | Some session =>
         (tool_invocations evs = [] /\ forall x, r <> Return x)
         \/ (tool_invocations evs =
               [(session, name (function tool), fn_arguments (function tool))]
             /\ forall messages' continue,
                  r = Return (messages', continue) ->
                  continue = true
                  /\ exists c contents out,
                       str_join "" ac = Ok c
                       /\ session_call_tool session (name (function tool))
                            (fn_arguments (function tool)) (world s)
                          = (Ok contents, world s')
                       /\ collect_text contents [] = Ok out
                       /\ messages' =
                            messages ++
                            [assistant_turn c; tool_turn (String.concat "" out)])
     end.
Proof.
  unfold process_tool_call, bind, lift_result, get_self, call.
  destruct (str_join "" ac) as [c|e]; cbn [ret raise].
  2:{ intros [= <- <- <-]. do 3 (split; [reflexivity|]).
      destruct (Dict.get _ _); [left|]; split; auto; discriminate. }
  destruct (console_print_cases (PToolCall (function tool)) s)
    as [[_ ->]|(msg & _ & ->)].
  2:{ intros [= <- <- <-]. do 3 (split; [reflexivity|]).
      destruct (Dict.get _ _); [left|]; split; auto; discriminate. }
  destruct (Dict.get (sessions (self s)) (name (function tool))) as [session|].
  - destruct (session_call_tool _ _ _ _) as [[contents|e] w] eqn:Hcall.
    2:{ intros [= <- <- <-]. do 3 (split; [reflexivity|]).
        right. split; [reflexivity|]. discriminate. }
    destruct (collect_text contents []) as [out|e] eqn:Hout; cbn [ret raise].
    2:{ intros [= <- <- <-]. do 3 (split; [reflexivity|]).
        right. split; [reflexivity|]. discriminate. }
    match goal with
    | |- context [console_print ?p ?st] =>
        destruct (console_print_cases p st) as [[_ ->]|(msg & _ & ->)]
    end.
    + intros [= <- <- <-]. do 3 (split; [reflexivity|]).
      right. split; [reflexivity|].
      intros messages' continue [= <- <-]. split; [reflexivity|].
      exists c, contents, out. cbn [world].
      split; [reflexivity|]. split; [reflexivity|]. split; [exact Hout|].
      now rewrite <- app_assoc.
    + intros [= <- <- <-]. do 3 (split; [reflexivity|]).
      right. split; [reflexivity|]. discriminate.
  - match goal with
    | |- context [console_print ?p ?st] =>
        destruct (console_print_cases p st) as [[_ ->]|(msg & _ & ->)]
    end.
    + intros [= <- <- <-]. do 3 (split; [reflexivity|]).
      split; [reflexivity|].
      intros messages' continue [= <- <-].
      split; [reflexivity|]. split; [reflexivity|]. now exists c.
    + intros [= <- <- <-]. do 3 (split; [reflexivity|]).
      split; [reflexivity|]. discriminate.
Qed.

Lemma for_tool_calls_step tool rest ac messages h (s : state W) :
  for_tool_calls (tool :: rest) ac messages h s =
    match process_tool_call tool ac messages s with
    | (Return (messages1, true), s1, evs1) =>
        match for_tool_calls rest ac messages1 true s1 with
        | (r, s2, evs2) => (r, s2, evs1 ++ evs2)
        end
    | (Return (messages1, false), s1, evs1) => (Return (messages1, true), s1, evs1)
    | (Raised e, s1, evs1) => (Raised e, s1, evs1)
    | (Diverged, s1, evs1) => (Diverged, s1, evs1)
    end.
Proof.
  cbn [for_tool_calls]. unfold bind.
  destruct (process_tool_call tool ac messages s)
    as [[[[messages1 [|]]|e|] s1] evs1]; try reflexivity.
  unfold ret. now rewrite app_nil_r.
Qed.

(** A batch of tool calls, whatever its outcome: the fields are untouched;
    the model backend is not involved; the invocations made are a prefix of
    the routing of the calls, the whole of it when the batch is left
    normally; and a batch that is left normally has appended exactly the
    turns [batch_turns]. *)
Lemma for_tool_calls_spec calls ac :
  forall messages h (s : state W) r s' evs,
    for_tool_calls calls ac messages h s = (r, s', evs) ->
    self s' = self s
    /\ model_invocations evs = []
    /\ offered_tools evs = []
    /\ (exists rest,
          routed (sessions (self s)) calls = tool_invocations evs ++ rest
          /\ (forall x, r = Return x -> rest = []))
    /\ (forall messages' h',
          r = Return (messages', h') ->
          h' = match calls with [] => h | _ :: _ => true end
          /\ (calls <> [] -> exists c, str_join "" ac = Ok c)
          /\ forall c,
               str_join "" ac = Ok c ->
               messages' =
                 messages ++ batch_turns (sessions (self s)) c calls (world s)
               /\ with_role "assistant"
                    (batch_turns (sessions (self s)) c calls (world s)) =
                  repeat (assistant_turn c)
                    (length (reached (sessions (self s)) calls))
               /\ length (with_role "tool"
                            (batch_turns (sessions (self s)) c calls (world s))) =
                  length (resolved_prefix (sessions (self s)) calls)).
Proof.
  induction calls as [|tool rest IH]; intros messages h s r s' evs.
  - cbn. intros [= <- <- <-]. do 3 (split; [reflexivity|]). split.
    + exists []. auto.
    + intros messages' h' [= <- <-]. split; [reflexivity|].
      split; [congruence|]. intros c _. now rewrite app_nil_r.
  - rewrite for_tool_calls_step.
    destruct (process_tool_call tool ac messages s)
      as [[[[messages1 continue]|e|] s1] evs1] eqn:Hstep;
      apply process_tool_call_spec in Hstep;
      destruct Hstep as (Hself & Hmodel & Hoffered & Hcall).
    + destruct continue.
      * (* the call was processed and the loop goes on *)
        destruct (Dict.get (sessions (self s)) (name (function tool)))
          as [session|] eqn:Hget.
        2:{ destruct Hcall as [_ Hret].
            destruct (Hret _ _ eq_refl) as [Hfalse _]. discriminate. }
        destruct Hcall as [[_ Hnever]|[Hinv Hret]];
          [now contradiction (Hnever (messages1, true))|].
        destruct (Hret _ _ eq_refl)
          as (_ & c & contents & out & Hjoin & Hanswer & Hout & ->).
        destruct (for_tool_calls rest ac _ true s1) as [[r2 s2] evs2] eqn:Hrest.
        apply IH in Hrest. rewrite Hself in Hrest.
        destruct Hrest as (Hself2 & Hmodel2 & Hoffered2 & Hrouted2 & Hret2).
        intros [= <- <- <-].
        split; [congruence|].
        split; [now rewrite model_invocations_app, Hmodel, Hmodel2|].
        split; [now rewrite offered_tools_app, Hoffered, Hoffered2|].
        split.
        -- destruct Hrouted2 as (more & Hmore & Hall).
           exists more. cbn [routed]. rewrite Hget, tool_invocations_app, Hinv.
           cbn [app]. now rewrite Hmore.
        -- intros messages' h' ->.
           destruct (Hret2 _ _ eq_refl) as (-> & _ & Hturns).
           split; [now destruct rest|]. split; [now exists c|].
           intros c' Hjoin'. assert (c' = c) as -> by congruence.
           destruct (Hturns c Hjoin) as (-> & Hassistant & Htool).
           cbn [batch_turns reached resolved_prefix]. rewrite Hget, Hanswer, Hout.
           split; [now rewrite <- app_assoc|].
           unfold with_role in *. cbn. rewrite Hassistant, Htool. auto.
      * (* the name is not in the registry: the loop is left *)
        destruct (Dict.get (sessions (self s)) (name (function tool)))
          as [session|] eqn:Hget.
        1:{ destruct Hcall as [[_ Hnever]|[_ Hret]];
              [now contradiction (Hnever (messages1, false))|].
            destruct (Hret _ _ eq_refl) as [Htrue _]. discriminate. }
        destruct Hcall as [Hinv Hret].
        destruct (Hret _ _ eq_refl) as (_ & -> & c & Hjoin & ->).
        intros [= <- <- <-].
        do 3 (split; [assumption || reflexivity|]). split.
        -- exists []. cbn [routed]. rewrite Hget, Hinv. auto.
        -- intros messages' h' [= <- <-]. split; [reflexivity|].
           split; [now exists c|].
           intros c' Hjoin'. assert (c' = c) as -> by congruence.
           cbn [batch_turns reached resolved_prefix]. rewrite Hget. auto.
    + intros [= <- <- <-].
      do 3 (split; [assumption|]). split; [|discriminate].
      cbn [routed].
      destruct (Dict.get (sessions (self s)) (name (function tool)))
        as [session|].
      * destruct Hcall as [[Hinv _]|[Hinv _]]; rewrite Hinv.
        -- eexists. split; [reflexivity | discriminate].
        -- eexists. split; [reflexivity | discriminate].
      * destruct Hcall as [Hinv _]. rewrite Hinv.
        eexists. split; [reflexivity | discriminate].
    + intros [= <- <- <-].
      do 3 (split; [assumption|]). split; [|discriminate].
      cbn [routed].
      destruct (Dict.get (sessions (self s)) (name (function tool)))
        as [session|].
      * destruct Hcall as [[Hinv _]|[Hinv _]]; rewrite Hinv.
        -- eexists. split; [reflexivity | discriminate].
        -- eexists. split; [reflexivity | discriminate].
      * destruct Hcall as [Hinv _]. rewrite Hinv.
        eexists. split; [reflexivity | discriminate].
Qed.

(** The calls after a run of resolved calls that was left normally are
    processed from the transcript and the world that run left. *)
Lemma for_tool_calls_app prefix rest ac :
  forall messages h (s : state W) messages1 h1 s1 evs1,
    resolved_prefix (sessions (self s)) prefix = prefix ->
    for_tool_calls prefix ac messages h s = (Return (messages1, h1), s1, evs1) ->
    for_tool_calls (prefix ++ rest) ac messages h s =
      match for_tool_calls rest ac messages1 h1 s1 with
      | (r, s2, evs2) => (r, s2, evs1 ++ evs2)
      end.
Proof.
  induction prefix as [|tool prefix IH];
    intros messages h s messages1 h1 s1 evs1 Hresolved Hrun.
  - cbn in Hrun. injection Hrun as <- <- <- <-. cbn [app].
    now destruct (for_tool_calls rest ac messages h s) as [[r s2] evs2].
  - cbn [resolved_prefix] in Hresolved.
    destruct (Dict.get (sessions (self s)) (name (function tool)))
      as [session|] eqn:Hget; [|discriminate].
    injection Hresolved as Hresolved.
    cbn [app]. rewrite for_tool_calls_step in *.
    destruct (process_tool_call tool ac messages s)
      as [[[[messages2 [|]]|e|] s2] evs2] eqn:Hstep; try discriminate.
    + pose proof (process_tool_call_spec _ _ _ _ _ _ _ Hstep) as (Hself & _).
      destruct (for_tool_calls prefix ac messages2 true s2)
        as [[r3 s3] evs3] eqn:Hprefix.
      injection Hrun as -> <- <-.
      rewrite <- Hself in Hresolved.
      rewrite (IH _ _ _ _ _ _ _ Hresolved Hprefix).
      destruct (for_tool_calls rest ac messages1 h1 s3) as [[r4 s4] evs4].
      now rewrite app_assoc.
    + apply process_tool_call_spec in Hstep.
      destruct Hstep as (_ & _ & _ & Hcall). rewrite Hget in Hcall.
      destruct Hcall as [[_ Hnever]|[_ Hret]].
      * now contradiction (Hnever (messages2, false)).
      * destruct (Hret _ _ eq_refl) as [Htrue _]. discriminate.
Qed.

End Batch.

(** ** Facts about the model turns *)

Section ModelTurns.

Context {W : Type} {collab : Collaborators W}.

(** A model turn whose backend call returns and whose content is printed
    is that call, the printed content, and the batch of tool calls. *)
Lemma model_turn_unfold messages (s : state W) response w1 :
  ollama_chat (available_tools (self s)) messages (world s) = (Ok response, w1) ->
  console_error (PContent (msg_content (response_message response))) = None ->
  model_turn messages s =
    match
      for_tool_calls (or_empty (tool_calls (response_message response)))
        [msg_content (response_message response)] messages false
        {| self := self s; world := w1 |}
    with
    | (r, s', evs) =>
        (r, s',
         EvChat (available_tools (self s)) messages
         :: EvPrint (PContent (msg_content (response_message response))) :: evs)
    end.
Proof.
  intros Hchat Hprint. unfold model_turn, bind, get_self, call.
  rewrite Hchat. cbn [app]. rewrite (console_print_ok _ _ Hprint).
  destruct (for_tool_calls _ _ _ _ _) as [[[a| |] s'] evs]; reflexivity.
Qed.

(** A content the console refuses ends the turn before the tool calls. *)
Lemma model_turn_refused messages (s : state W) response w1 msg :
  ollama_chat (available_tools (self s)) messages (world s) = (Ok response, w1) ->
  console_error (PContent (msg_content (response_message response))) = Some msg ->
  model_turn messages s =
    (Raised (Exception msg), {| self := self s; world := w1 |},
     [EvChat (available_tools (self s)) messages]).
Proof.
  intros Hchat Hprint. unfold model_turn, bind, get_self, call.
  rewrite Hchat. cbn [app]. now rewrite (console_print_refused _ _ _ Hprint).
Qed.

Lemma model_turn_chat_error messages (s : state W) e w :
  ollama_chat (available_tools (self s)) messages (world s) = (Err e, w) ->
  model_turn messages s =
    (Raised e, {| self := self s; world := w |},
     [EvChat (available_tools (self s)) messages]).
Proof.
  intros Hchat. unfold model_turn, bind, get_self, call. now rewrite Hchat.
Qed.

(** A model turn, whatever its outcome: the fields are untouched, the
    model is invoked once, with the transcript of the turn and the whole
    tool list, and a turn that returns has only extended the transcript. *)
Lemma model_turn_spec messages (s : state W) r s' evs :
  model_turn messages s = (r, s', evs) ->
  self s' = self s
  /\ model_invocations evs = [messages]
  /\ offered_tools evs = [available_tools (self s)]
  /\ (forall messages' h, r = Return (messages', h) ->
        exists added, messages' = messages ++ added).
Proof.
  destruct (ollama_chat (available_tools (self s)) messages (world s))
    as [[response|e] w1] eqn:Hchat.
  - destruct (console_error (PContent (msg_content (response_message response))))
      as [msg|] eqn:Hprint.
    + rewrite (model_turn_refused _ _ _ _ _ Hchat Hprint).
      intros [= <- <- <-]. repeat split. discriminate.
    + rewrite (model_turn_unfold _ _ _ _ Hchat Hprint).
      destruct (for_tool_calls _ _ _ _ _) as [[r1 s1] evs1] eqn:Hbatch.
      pose proof (for_tool_calls_spec _ _ _ _ _ _ _ _ Hbatch) as Hspec.
      cbn [self world] in Hspec.
      destruct Hspec as (Hself & Hmodel & Hoffered & _ & Hret).
      intros [= <- <- <-]. cbn. rewrite Hmodel, Hoffered.
      do 3 (split; [auto|]).
      intros messages' h ->.
      destruct (or_empty (tool_calls (response_message response)))
        as [|tool rest] eqn:Hcalls.
      * cbn in Hbatch. injection Hbatch as <- _ _ _.
        exists []. now rewrite app_nil_r.
      * destruct (Hret _ _ eq_refl) as (_ & Hjoined & Hturns).
        destruct Hjoined as [c Hjoin]; [discriminate|].
        destruct (Hturns c Hjoin) as (-> & _). now eexists.
  - rewrite (model_turn_chat_error _ _ _ _ Hchat).
    intros [= <- <- <-]. repeat split. discriminate.
Qed.

End ModelTurns.

(** ** Facts about the dispatch loop *)

Section DispatchLoop.

Context {W : Type} {collab : Collaborators W}.

Lemma dispatch_loop_step fuel messages (s : state W) :
  dispatch_loop (S fuel) messages s =
    match model_turn messages s with
    | (Return (messages1, true), s1, evs1) =>
        match dispatch_loop fuel messages1 s1 with
        | (r, s2, evs2) => (r, s2, evs1 ++ evs2)
        end
    | (Return (messages1, false), s1, evs1) => (Return tt, s1, evs1)
    | (Raised e, s1, evs1) => (Raised e, s1, evs1)
    | (Diverged, s1, evs1) => (Diverged, s1, evs1)
    end.
Proof.
  cbn [dispatch_loop]. unfold bind.
  destruct (model_turn messages s) as [[[[messages1 [|]]|e|] s1] evs1];
    try reflexivity.
  cbn. unfold ret. now rewrite app_nil_r.
Qed.

(** Every model turn begins by invoking the backend with the transcript
    as it stands. *)
Lemma dispatch_loop_first_event fuel messages (s : state W) :
  exists tail,
    events_of (dispatch_loop (S fuel) messages s) =
    EvChat (available_tools (self s)) messages :: tail.
Proof.
  rewrite dispatch_loop_step.
  assert (Hturn : exists tail,
            events_of (model_turn messages s) =
            EvChat (available_tools (self s)) messages :: tail).
  { unfold model_turn, bind, get_self, call.
    destruct (ollama_chat _ _ _) as [[response|e] w1]; [|cbn; eauto].
    cbn [app].
    destruct (console_print_cases
                (PContent (msg_content (response_message response)))
                {| self := self s; world := w1 |})
      as [[_ ->]|(msg & _ & ->)]; [|cbn; eauto].
    destruct (for_tool_calls _ _ _ _ _) as [[[x| |] s2] evs2]; cbn; eauto. }
  destruct Hturn as [tail Htail].
  destruct (model_turn messages s) as [[[[messages1 [|]]|e|] s1] evs1];
    cbn in Htail; subst evs1; cbn; eauto.
  destruct (dispatch_loop fuel messages1 s1) as [[r s2] evs2]. cbn. eauto.
Qed.

(** The dispatch loop, whatever its outcome and its bound: the fields are
    untouched, the model is offered the whole tool list at every turn, and
    every transcript it is given extends the one the loop started from. *)
Lemma dispatch_loop_trace fuel :
  forall messages (s : state W) r s' evs,
    dispatch_loop fuel messages s = (r, s', evs) ->
    self s' = self s
    /\ Forall (eq (available_tools (self s))) (offered_tools evs)
    /\ Forall (fun transcript => exists added, transcript = messages ++ added)
         (model_invocations evs).
Proof.
  induction fuel as [|fuel IH]; intros messages s r s' evs.
  - cbn. intros [= <- <- <-]. cbn. auto.
  - rewrite dispatch_loop_step.
    destruct (model_turn messages s) as [[r1 s1] evs1] eqn:Hturn.
    apply model_turn_spec in Hturn.
    destruct Hturn as (Hself & Hmodel & Hoffered & Hgrows).
    assert (Hfirst : exists added : list turn, messages = messages ++ added)
      by (exists []; now rewrite app_nil_r).
    destruct r1 as [[messages1 [|]]|e|].
    + destruct (dispatch_loop fuel messages1 s1) as [[r2 s2] evs2] eqn:Hrest.
      apply IH in Hrest. destruct Hrest as (Hself2 & Htools2 & Hprefix2).
      destruct (Hgrows _ _ eq_refl) as [added ->].
      intros [= <- <- <-]. split; [congruence|]. split.
      * rewrite offered_tools_app, Hoffered. cbn.
        constructor; [reflexivity|]. now rewrite <- Hself.
      * rewrite model_invocations_app, Hmodel. cbn.
        constructor; [exact Hfirst|].
        eapply Forall_impl; [|exact Hprefix2].
        intros transcript [more ->]. rewrite <- app_assoc. now eexists.
    + intros [= <- <- <-]. rewrite Hmodel, Hoffered. repeat split; auto.
    + intros [= <- <- <-]. rewrite Hmodel, Hoffered. repeat split; auto.
    + intros [= <- <- <-]. rewrite Hmodel, Hoffered. repeat split; auto.
Qed.

(** After [k] tool-using turns the loop is where a fresh loop on the
    transcript they left would be. *)
Lemma tool_turns_run k messages (s : state W) evs messages' s' :
  tool_turns k messages s evs messages' s' ->
  forall fuel,
    dispatch_loop (k + fuel) messages s =
      match dispatch_loop fuel messages' s' with
      | (r, s2, evs2) => (r, s2, evs ++ evs2)
      end.
Proof.
  induction 1 as [messages s|k messages s messages1 s1 evs1 evs messages' s'
                             Hturn _ IH]; intros fuel.
  - cbn [Nat.add app]. now destruct (dispatch_loop fuel messages s) as [[r s2] evs2].
  - cbn [Nat.add]. rewrite dispatch_loop_step, Hturn, IH.
    destruct (dispatch_loop fuel messages' s') as [[r s2] evs2].
    now rewrite app_assoc.
Qed.

End DispatchLoop.

(** ** The dispatch loop: the claims *)

Section Dispatch.

Context {W : Type} {collab : Collaborators W}.

(** The invocations of a model turn are a prefix of the routing of its
    calls, and the whole of it when the turn returns. *)
Lemma model_turn_routes messages (s : state W) response w1 r s' evs :
  ollama_chat (available_tools (self s)) messages (world s) = (Ok response, w1) ->
  model_turn messages s = (r, s', evs) ->
  exists rest,
    routed (sessions (self s)) (or_empty (tool_calls (response_message response)))
      = tool_invocations evs ++ rest
    /\ (forall m, r = Return m -> rest = []).
Proof.
  intros Hchat.
  destruct (console_error (PContent (msg_content (response_message response))))
    as [msg|] eqn:Hprint.
  - rewrite (model_turn_refused _ _ _ _ _ Hchat Hprint).
    intros [= <- <- <-]. eexists. split; [reflexivity | discriminate].
  - rewrite (model_turn_unfold _ _ _ _ Hchat Hprint).
    destruct (for_tool_calls _ _ _ _ _) as [[r1 s1] evs1] eqn:Hbatch.
    apply for_tool_calls_spec in Hbatch. cbn [self] in Hbatch.
    destruct Hbatch as (_ & _ & _ & (rest & Hrouted & Hall) & _).
    intros [= <- <- <-]. exists rest. split; [exact Hrouted | exact Hall].
Qed.

(** A turn that returns has printed its content and left its batch
    normally. *)
Lemma model_turn_returned messages (s : state W) response w1 messages' h s2 evs :
  ollama_chat (available_tools (self s)) messages (world s) = (Ok response, w1) ->
  model_turn messages s = (Return (messages', h), s2, evs) ->
  exists evs',
    for_tool_calls (or_empty (tool_calls (response_message response)))
      [msg_content (response_message response)] messages false
      {| self := self s; world := w1 |} = (Return (messages', h), s2, evs')
    /\ evs =
         EvChat (available_tools (self s)) messages
         :: EvPrint (PContent (msg_content (response_message response))) :: evs'.
Proof.
  intros Hchat.
  destruct (console_error (PContent (msg_content (response_message response))))
    as [msg|] eqn:Hprint.
  - now rewrite (model_turn_refused _ _ _ _ _ Hchat Hprint).
  - rewrite (model_turn_unfold _ _ _ _ Hchat Hprint).
    destruct (for_tool_calls _ _ _ _ _) as [[r1 s1] evs1].
    intros [= -> -> <-]. now exists evs1.
Qed.

(** C1.  A model turn whose response asks for the calls [A; B; ...], where
    the name of [A] is in the registry and the name of [B] is not.
    Whatever happens in the turn, [B] and the calls after it are never
    invoked: the only invocation the turn can make is the one of [A].
    When the content is a string, the console prints the lines of the turn
    and the invocation of [A] returns text items, [A] is invoked, its
    result is appended as one tool turn and the batch is left at [B].  When
    the content is absent ([None]) the turn raises the [TypeError] of
    [str.join] before [A] is looked up: [A] is not invoked either. *)
Theorem unresolved_tool_aborts_batch
    messages (s : state W) response w1 A B rest sA :
  ollama_chat (available_tools (self s)) messages (world s) = (Ok response, w1) ->
  tool_calls (response_message response) = Some (A :: B :: rest) ->
  Dict.get (sessions (self s)) (name (function A)) = Some sA ->
  Dict.get (sessions (self s)) (name (function B)) = None ->
  let content := msg_content (response_message response) in
  (exists more,
     [(sA, name (function A), fn_arguments (function A))] =
     tool_invocations (events_of (model_turn messages s)) ++ more)
  /\ (content = None ->
      model_turn messages s =
        (Raised (join_type_error 0), {| self := self s; world := w1 |},
         [EvChat (available_tools (self s)) messages; EvPrint (PContent None)]))
  /\ (forall c contents w2 out,
        content = Some c ->
        console_error (PContent (Some c)) = None ->
        console_error (PToolCall (function A)) = None ->
        session_call_tool sA (name (function A)) (fn_arguments (function A)) w1
          = (Ok contents, w2) ->
        collect_text contents [] = Ok out ->
        console_error (PToolOutput out) = None ->
        console_error (PToolCall (function B)) = None ->
        console_error (tool_not_found B) = None ->
        model_turn messages s =
          (Return
             (messages ++
              [assistant_turn c; tool_turn (String.concat "" out);
               assistant_turn c], true),
           {| self := self s; world := w2 |},
           [EvChat (available_tools (self s)) messages;
            EvPrint (PContent (Some c));
            EvPrint (PToolCall (function A));
            invocation sA A;
            EvPrint (PToolOutput out);
            EvPrint (PToolCall (function B));
            not_found_line B])).
Proof.
  intros Hchat Hcalls HA HB content. split; [|split].
  - destruct (model_turn messages s) as [[r s'] evs] eqn:Hturn.
    destruct (model_turn_routes _ _ _ _ _ _ _ Hchat Hturn) as (more & Hrouted & _).
    rewrite Hcalls in Hrouted. cbn [or_empty routed] in Hrouted.
    rewrite HA, HB in Hrouted. now exists more.
  - intros Hnone. unfold content in Hnone.
    rewrite (model_turn_unfold _ _ _ _ Hchat) by now rewrite Hnone.
    rewrite Hnone, Hcalls. reflexivity.
  - intros c contents w2 out Hsome Hcontent HlineA Hcall Hout Hprint HlineB Hmissing.
    unfold content in Hsome.
    rewrite (model_turn_unfold _ _ _ _ Hchat) by now rewrite Hsome.
    rewrite Hsome, Hcalls. cbn [or_empty].
    rewrite for_tool_calls_step.
    rewrite (process_tool_call_resolved A c messages
               {| self := self s; world := w1 |} sA contents w2 out)
      by assumption.
    cbn [self world]. rewrite for_tool_calls_step.
    rewrite (process_tool_call_unresolved B c _ {| self := self s; world := w2 |})
      by assumption.
    cbn. now rewrite <- app_assoc.
Qed.


(** C5 (amended).  In a model turn whose response carries a string as
    content (possibly the empty string) and whose batch is left normally,
    the content is appended as an assistant turn once for each tool call
    the loop reaches, a call whose name is not in the registry included:
    not at all when the response has no tool call, exactly once when it
    has exactly one, and once per reached call when it has several. *)
Theorem assistant_turn_per_reached_call
    messages (s : state W) response w1 c messages' h s2 evs :
  ollama_chat (available_tools (self s)) messages (world s) = (Ok response, w1) ->
  msg_content (response_message response) = Some c ->
  model_turn messages s = (Return (messages', h), s2, evs) ->
  let calls := or_empty (tool_calls (response_message response)) in
  exists added,
    messages' = messages ++ added
    /\ with_role "assistant" added =
         repeat (assistant_turn c) (length (reached (sessions (self s)) calls))
    /\ (calls = [] -> added = [])
    /\ (forall tool, calls = [tool] ->
          with_role "assistant" added = [assistant_turn c]).
Proof.
  intros Hchat Hcontent Hturn calls.
  destruct (model_turn_returned _ _ _ _ _ _ _ _ Hchat Hturn)
    as (evs' & Hbatch & _).
  rewrite Hcontent in Hbatch. fold calls in Hbatch.
  apply for_tool_calls_spec in Hbatch. cbn [self world] in Hbatch.
  destruct Hbatch as (_ & _ & _ & _ & Hret).
  destruct (Hret _ _ eq_refl) as (_ & _ & Hturns).
  destruct (Hturns c eq_refl) as (Hadded & Hassistant & _).
  exists (batch_turns (sessions (self s)) c calls w1).
  split; [exact Hadded|]. split; [exact Hassistant|]. split.
  - intros ->. reflexivity.
  - intros tool Hone. rewrite Hassistant, Hone. cbn.
    now destruct (Dict.get _ _).
Qed.

End Dispatch.

(** ** The dispatch loop: errors and further properties *)

Section Errors.

Context {W : Type} {collab : Collaborators W}.

(** What a round of the chat loop does with a line that is a query. *)
Lemma chat_round_query fuel (s : state W) line w0 :
  input query_prompt (world s) = (Ok line, w0) ->
  String.eqb (strip line) "" = false ->
  String.eqb (lower (strip line)) "quit" = false ->
  chat_round fuel s =
    match process_query fuel (strip line) {| self := self s; world := w0 |} with
    | (Return _, s1, evs) => (Return true, s1, EvInput query_prompt :: evs)
    | (Raised e, s1, evs) =>
        if is_Exception e then
          match console_print (round_error_text e) s1 with
          | (Return _, s2, evs2) =>
              (Return true, s2, EvInput query_prompt :: evs ++ evs2)
          | (Raised e2, s2, evs2) =>
              (Raised e2, s2, EvInput query_prompt :: evs ++ evs2)
          | (Diverged, s2, evs2) =>
              (Diverged, s2, EvInput query_prompt :: evs ++ evs2)
          end
        else (Raised e, s1, EvInput query_prompt :: evs)
    | (Diverged, s1, evs) => (Diverged, s1, EvInput query_prompt :: evs)
    end.
Proof.
  intros Hinput Hnonempty Hnotquit.
  unfold chat_round, try_except, bind at 1, call. fold query_prompt.
  rewrite Hinput, Hnonempty, Hnotquit. unfold bind at 1.
  destruct (process_query fuel (strip line) _) as [[[[]|e|] s1] evs].
  - cbn. now rewrite app_nil_r.
  - destruct (is_Exception e); [|reflexivity].
    unfold bind. fold (round_error_text e).
    destruct (console_print (round_error_text e) s1) as [[[[]|e2|] s2] evs2];
      cbn; try reflexivity.
    now rewrite app_nil_r.
  - reflexivity.
Qed.

(** C6 (amended).  An error raised by the invocation of a resolved tool
    is not handled inside [process_query], at whatever call of whatever
    turn it occurs: it ends the batch, the turn and the dispatch loop, so
    that the query ends there with no tool turn for the call, no further
    tool call and no further model turn.  The caller [chat_loop] catches
    it when it is an [Exception], prints it as an "Error: ..." line when
    the console accepts the line, and goes on to the next query.  A call
    whose name is not in the registry is another path: it raises nothing,
    the batch returns with [has_tool_use] set, and the loop goes on. *)
Theorem tool_error_leaves_dispatch_loop :
  (* the error of any call of a batch ends the batch *)
  (forall prefix A rest c messages h (s : state W) messages1 h1 s1 evs1 sA e w2,
     resolved_prefix (sessions (self s)) prefix = prefix ->
     for_tool_calls prefix [Some c] messages h s
       = (Return (messages1, h1), s1, evs1) ->
     Dict.get (sessions (self s)) (name (function A)) = Some sA ->
     console_error (PToolCall (function A)) = None ->
     session_call_tool sA (name (function A)) (fn_arguments (function A))
       (world s1) = (Err e, w2) ->
     for_tool_calls (prefix ++ A :: rest) [Some c] messages h s =
       (Raised e, {| self := self s; world := w2 |},
        evs1 ++ [EvPrint (PToolCall (function A)); invocation sA A]))
  (* the exception of a batch is the exception of its turn *)
  /\ (forall messages (s : state W) response w1 e s2 evs,
        ollama_chat (available_tools (self s)) messages (world s)
          = (Ok response, w1) ->
        console_error (PContent (msg_content (response_message response))) = None ->
        for_tool_calls (or_empty (tool_calls (response_message response)))
          [msg_content (response_message response)] messages false
          {| self := self s; world := w1 |} = (Raised e, s2, evs) ->
        model_turn messages s =
          (Raised e, s2,
           EvChat (available_tools (self s)) messages
           :: EvPrint (PContent (msg_content (response_message response)))
           :: evs))
  (* the exception of any turn is the exception of the loop *)
  /\ (forall k fuel messages (s : state W) evs messages' s' e s2 evs',
        tool_turns k messages s evs messages' s' ->
        model_turn messages' s' = (Raised e, s2, evs') ->
        dispatch_loop (k + S fuel) messages s = (Raised e, s2, evs ++ evs'))
  (* the chat loop catches what left the query *)
  /\ (forall fuel (s : state W) line w0 e s1 evs,
        input query_prompt (world s) = (Ok line, w0) ->
        String.eqb (strip line) "" = false ->
        String.eqb (lower (strip line)) "quit" = false ->
        process_query fuel (strip line) {| self := self s; world := w0 |}
          = (Raised e, s1, evs) ->
        is_Exception e = true ->
        console_error (round_error_text e) = None ->
        chat_round fuel s =
          (Return true, s1,
           EvInput query_prompt :: evs ++ [EvPrint (round_error_text e)]))
  (* the missing tool raises nothing *)
  /\ (forall B rest c messages h (s : state W),
        Dict.get (sessions (self s)) (name (function B)) = None ->
        console_error (PToolCall (function B)) = None ->
        console_error (tool_not_found B) = None ->
        for_tool_calls (B :: rest) [Some c] messages h s =
          (Return (messages ++ [assistant_turn c], true), s,
           [EvPrint (PToolCall (function B)); not_found_line B])).
Proof.
  split; [|split; [|split; [|split]]].
  - intros prefix A rest c messages h s messages1 h1 s1 evs1 sA e w2
           Hresolved Hprefix HA Hline Hcall.
    pose proof (for_tool_calls_spec _ _ _ _ _ _ _ _ Hprefix) as (Hself & _).
    rewrite (for_tool_calls_app _ _ _ _ _ _ _ _ _ _ Hresolved Hprefix).
    rewrite for_tool_calls_step.
    rewrite <- Hself in HA.
    rewrite (process_tool_call_raises A c messages1 s1 sA e w2 HA Hline Hcall).
    now rewrite Hself.
  - intros messages s response w1 e s2 evs Hchat Hprint Hbatch.
    now rewrite (model_turn_unfold _ _ _ _ Hchat Hprint), Hbatch.
  - intros k fuel messages s evs messages' s' e s2 evs' Hturns Hturn.
    rewrite (tool_turns_run _ _ _ _ _ _ Hturns (S fuel)).
    now rewrite dispatch_loop_step, Hturn.
  - intros fuel s line w0 e s1 evs Hinput Hnonempty Hnotquit Hquery Hkind Hprint.
    rewrite (chat_round_query _ _ _ _ Hinput Hnonempty Hnotquit), Hquery, Hkind.
    now rewrite (console_print_ok _ _ Hprint).
  - intros B rest c messages h s HB Hline Hmissing.
    rewrite for_tool_calls_step.
    now rewrite (process_tool_call_unresolved B c messages s HB Hline Hmissing).
Qed.

(** X8.  In a model turn the tools are invoked strictly in the order of
    the response, each on the session the registry holds for its name and
    with the arguments of its call, and nothing else is invoked: the
    invocations are a prefix of the routing of the calls.  When the turn
    returns they are the whole routing, that is every call before the
    first name the registry does not hold. *)
Theorem tool_calls_routed_in_order
    messages (s : state W) response w1 r s' evs :
  ollama_chat (available_tools (self s)) messages (world s) = (Ok response, w1) ->
  model_turn messages s = (r, s', evs) ->
  exists rest,
    routed (sessions (self s)) (or_empty (tool_calls (response_message response)))
      = tool_invocations evs ++ rest
    /\ (forall m, r = Return m -> rest = []).
Proof. apply model_turn_routes. Qed.

(** X9.  An error of the model backend ends the query at once: it leaves
    [process_query] as it is, nothing is printed and no tool is
    invoked. *)
Theorem model_error_ends_query fuel query (s : state W) e w :
  ollama_chat (available_tools (self s)) [user_turn query] (world s) = (Err e, w) ->
  process_query (S fuel) query s =
    (Raised e, {| self := self s; world := w |},
     [EvChat (available_tools (self s)) [user_turn query]]).
Proof.
  intros Hchat. unfold process_query. fold (user_turn query).
  now rewrite dispatch_loop_step, (model_turn_chat_error _ _ _ _ Hchat).
Qed.

(** X10.  A response without content ([None]) that asks for at least one
    tool call makes the turn raise the [TypeError] of [str.join]: the
    content is printed, then the turn ends before any tool is looked up or
    invoked. *)
Theorem absent_content_with_tool_calls_raises
    messages (s : state W) response w1 tool rest :
  ollama_chat (available_tools (self s)) messages (world s) = (Ok response, w1) ->
  msg_content (response_message response) = None ->
  tool_calls (response_message response) = Some (tool :: rest) ->
  model_turn messages s =
    (Raised (Exception "sequence item 0: expected str instance, NoneType found"),
     {| self := self s; world := w1 |},
     [EvChat (available_tools (self s)) messages; EvPrint (PContent None)]).
Proof.
  intros Hchat Hcontent Hcalls.
  rewrite (model_turn_unfold _ _ _ _ Hchat) by now rewrite Hcontent.
  rewrite Hcontent, Hcalls. reflexivity.
Qed.

Lemma collect_text_texts texts :
  forall acc, collect_text (map TextItem texts) acc = Ok (acc ++ texts).
Proof.
  induction texts as [|t texts IH]; intros acc; simpl.
  - now rewrite app_nil_r.
  - rewrite IH. now rewrite <- app_assoc.
Qed.

Lemma collect_text_other texts cls more :
  forall acc,
    collect_text (map TextItem texts ++ OtherItem cls :: more) acc =
    Err (Exception ("'" +++ cls +++ "' object has no attribute 'text'")).
Proof.
  induction texts as [|t texts IH]; intros acc; simpl; [reflexivity|].
  apply IH.
Qed.

(** X11.  A tool result whose items are all text is appended as one tool
    turn holding the texts concatenated in order, without separator, when
    the console prints the two lines of the call. *)
Theorem tool_output_is_concatenated
    (A : tool_call) c messages h (s : state W) session texts w :
  Dict.get (sessions (self s)) (name (function A)) = Some session ->
  session_call_tool session (name (function A)) (fn_arguments (function A))
    (world s) = (Ok (map TextItem texts), w) ->
  console_error (PToolCall (function A)) = None ->
  console_error (PToolOutput texts) = None ->
  for_tool_calls [A] [Some c] messages h s =
    (Return (messages ++ [assistant_turn c; tool_turn (String.concat "" texts)],
             true),
     {| self := self s; world := w |},
     [EvPrint (PToolCall (function A)); invocation session A;
      EvPrint (PToolOutput texts)]).
Proof.
  intros HA Hcall Hline Hprint.
  rewrite for_tool_calls_step.
  rewrite (process_tool_call_resolved A c messages s session
             (map TextItem texts) w texts HA Hline Hcall
             (collect_text_texts texts []) Hprint).
  reflexivity.
Qed.

(** X12.  A tool result with an item that has no [text] (an image, a
    blob) makes the batch raise the [AttributeError] of that item, once
    the call has been announced on the console: no tool turn is appended
    for the call and the calls after it are not reached. *)
Theorem non_text_tool_result_raises
    (A : tool_call) rest c messages h (s : state W) session texts cls more w :
  Dict.get (sessions (self s)) (name (function A)) = Some session ->
  console_error (PToolCall (function A)) = None ->
  session_call_tool session (name (function A)) (fn_arguments (function A))
    (world s) = (Ok (map TextItem texts ++ OtherItem cls :: more), w) ->
  for_tool_calls (A :: rest) [Some c] messages h s =
    (Raised (Exception ("'" +++ cls +++ "' object has no attribute 'text'")),
     {| self := self s; world := w |},
     [EvPrint (PToolCall (function A)); invocation session A]).
Proof.
  intros HA Hline Hcall. rewrite for_tool_calls_step.
  unfold process_tool_call, bind, lift_result, get_self, call.
  cbn [str_join join_items ret]. rewrite (console_print_ok _ _ Hline), HA, Hcall.
  now rewrite collect_text_other.
Qed.

(** X13.  [process_query] only reads the object: whatever happens during
    the query, the registry and the tool and prompt lists are afterwards
    what they were, and at every turn the model was offered the whole tool
    list. *)
Theorem process_query_reads_only fuel query (s : state W) :
  self (state_of (process_query fuel query s)) = self s
  /\ Forall (eq (available_tools (self s)))
       (offered_tools (events_of (process_query fuel query s))).
Proof.
  unfold process_query.
  destruct (dispatch_loop fuel _ s) as [[r s'] evs] eqn:Hrun.
  apply dispatch_loop_trace in Hrun. cbn. tauto.
Qed.

(** X14.  The transcript only grows during a query: every transcript the
    model is given starts with the user turn of the query. *)
Theorem every_transcript_starts_with_query fuel query (s : state W) :
  Forall (fun transcript => exists added, transcript = user_turn query :: added)
    (model_invocations (events_of (process_query fuel query s))).
Proof.
  unfold process_query.
  destruct (dispatch_loop fuel _ s) as [[r s'] evs] eqn:Hrun.
  apply dispatch_loop_trace in Hrun. cbn. apply Hrun.
Qed.

(** X15.  The missing-tool abort does not end the query: a model that
    asks at every turn for a tool the registry does not hold, with a
    content and a call the console prints, keeps [process_query] running
    for ever.  Whatever the bound on the number of turns, the loop is
    still running when it is reached, and has invoked the model once per
    turn. *)
Theorem missing_tool_loop_never_ends
    (P : W -> Prop) (bot : MCP_ChatBot) (B : tool_call) (c : string) :
  Dict.get (sessions bot) (name (function B)) = None ->
  console_error (PContent (Some c)) = None ->
  console_error (PToolCall (function B)) = None ->
  console_error (tool_not_found B) = None ->
  (forall messages w, P w ->
     exists response w' rest,
       ollama_chat (available_tools bot) messages w = (Ok response, w')
       /\ msg_content (response_message response) = Some c
       /\ tool_calls (response_message response) = Some (B :: rest)
       /\ P w') ->
  forall fuel messages w, P w ->
    let run := dispatch_loop fuel messages {| self := bot; world := w |} in
    outcome_of run = Diverged
    /\ length (model_invocations (events_of run)) = fuel.
Proof.
  intros HB Hcontent Hline Hmissing Hmodel.
  induction fuel as [|fuel IH]; intros messages w Hw; cbv zeta.
  - cbn. auto.
  - destruct (Hmodel messages w Hw)
      as (response & w' & rest & Hchat & Hsome & Hcalls & Hw').
    rewrite dispatch_loop_step.
    rewrite (model_turn_unfold messages {| self := bot; world := w |}
               response w' Hchat) by now rewrite Hsome.
    rewrite Hsome, Hcalls. cbn [or_empty self]. rewrite for_tool_calls_step.
    rewrite (process_tool_call_unresolved B c messages
               {| self := bot; world := w' |} HB Hline Hmissing).
    specialize (IH (messages ++ [assistant_turn c]) w' Hw'). cbv zeta in IH.
    destruct (dispatch_loop fuel _ _) as [[r s2] evs2].
    unfold outcome_of, events_of in *. cbn [fst snd] in *.
    destruct IH as [-> Hcount]. split; [reflexivity|].
    cbn. now rewrite Hcount.
Qed.

End Errors.

(** ** Registration: [connect_to_server] and [connect_to_servers] *)

Section Registration.

Context {W : Type} {collab : Collaborators W}.

Lemma get_assign_all session keys :
  forall d k,
    Dict.get (assign_all session keys d) k =
    if existsb (String.eqb k) keys then Some session else Dict.get d k.
Proof.
  induction keys as [|k0 keys IH]; intros d k; simpl; [reflexivity|].
  unfold assign_all in *. rewrite IH, dict_get_set.
  rewrite (String.eqb_sym k k0).
  destruct (existsb (String.eqb k) keys), (String.eqb k0 k); reflexivity.
Qed.

Lemma existsb_eqb_in k keys :
  In k keys -> existsb (String.eqb k) keys = true.
Proof.
  intros Hin. apply existsb_exists. exists k. split; [exact Hin|].
  apply String.eqb_refl.
Qed.

Lemma get_assign_all_in session keys d k :
  In k keys -> Dict.get (assign_all session keys d) k = Some session.
Proof.
  intros Hin. rewrite get_assign_all. now rewrite existsb_eqb_in.
Qed.

Lemma assign_all_get_kept session keys :
  forall d k,
    Dict.get d k <> None -> Dict.get (assign_all session keys d) k <> None.
Proof.
  intros d k Hk. rewrite get_assign_all.
  now destruct (existsb (String.eqb k) keys).
Qed.

Lemma assign_all_keys session keys :
  forall d, exists added,
    Dict.keys (assign_all session keys d) = Dict.keys d ++ added.
Proof.
  induction keys as [|k keys IH]; intros d; simpl.
  - exists []. now rewrite app_nil_r.
  - destruct (IH (Dict.set d k session)) as [added Hadded].
    unfold assign_all in *. rewrite Hadded, dict_keys_set.
    destruct (Dict.get d k).
    + now exists added.
    + exists (k :: added). now rewrite <- app_assoc.
Qed.

Lemma sessions_fold_tools session tools :
  forall bot,
    sessions (fold_left (add_tool session) tools bot) =
    assign_all session (map tool_name tools) (sessions bot).
Proof.
  induction tools as [|tool tools IH]; intros bot; simpl; [reflexivity|].
  now rewrite IH.
Qed.

Lemma sessions_fold_prompts session prompts :
  forall bot,
    sessions (fold_left (add_prompt session) prompts bot) =
    assign_all session (map prompt_name prompts) (sessions bot).
Proof.
  induction prompts as [|prompt prompts IH]; intros bot; simpl; [reflexivity|].
  now rewrite IH.
Qed.

Lemma sessions_fold_resources session resources :
  forall bot,
    sessions (fold_left (add_resource session) resources bot) =
    assign_all session (map uri resources) (sessions bot).
Proof.
  induction resources as [|resource resources IH]; intros bot; simpl;
    [reflexivity|].
  now rewrite IH.
Qed.

Lemma sessions_registered session tools prompts resources bot :
  sessions (registered session tools prompts resources bot) =
  assign_all session (exposed_keys tools prompts resources) (sessions bot).
Proof.
  unfold registered, exposed_keys, assign_all.
  rewrite sessions_fold_resources, sessions_fold_prompts, sessions_fold_tools.
  unfold assign_all. now rewrite !fold_left_app.
Qed.

Lemma available_tools_fold_tools session tools :
  forall bot,
    available_tools (fold_left (add_tool session) tools bot) =
    available_tools bot ++ map adapt_tool tools.
Proof.
  induction tools as [|tool tools IH]; intros bot; simpl.
  - now rewrite app_nil_r.
  - rewrite IH. simpl. now rewrite <- app_assoc.
Qed.

Lemma available_tools_fold_prompts session prompts :
  forall bot,
    available_tools (fold_left (add_prompt session) prompts bot) =
    available_tools bot.
Proof.
  induction prompts as [|prompt prompts IH]; intros bot; simpl; [reflexivity|].
  now rewrite IH.
Qed.

Lemma available_tools_fold_resources session resources :
  forall bot,
    available_tools (fold_left (add_resource session) resources bot) =
    available_tools bot.
Proof.
  induction resources as [|resource resources IH]; intros bot; simpl;
    [reflexivity|].
  now rewrite IH.
Qed.

Lemma available_tools_registered session tools prompts resources bot :
  available_tools (registered session tools prompts resources bot) =
  available_tools bot ++ map adapt_tool tools.
Proof.
  unfold registered.
  now rewrite available_tools_fold_resources, available_tools_fold_prompts,
    available_tools_fold_tools.
Qed.

Lemma available_prompts_fold_tools session tools :
  forall bot,
    available_prompts (fold_left (add_tool session) tools bot) =
    available_prompts bot.
Proof.
  induction tools as [|tool tools IH]; intros bot; simpl; [reflexivity|].
  now rewrite IH.
Qed.

Lemma available_prompts_fold_prompts session prompts :
  forall bot,
    available_prompts (fold_left (add_prompt session) prompts bot) =
    available_prompts bot ++ map entry_of prompts.
Proof.
  induction prompts as [|prompt prompts IH]; intros bot; simpl.
  - now rewrite app_nil_r.
  - rewrite IH. simpl. now rewrite <- app_assoc.
Qed.

Lemma available_prompts_fold_resources session resources :
  forall bot,
    available_prompts (fold_left (add_resource session) resources bot) =
    available_prompts bot.
Proof.
  induction resources as [|resource resources IH]; intros bot; simpl;
    [reflexivity|].
  now rewrite IH.
Qed.

Lemma registered_keeps_routable session tools prompts resources bot :
  tools_routable bot ->
  tools_routable (registered session tools prompts resources bot).
Proof.
  intros Hbot schema Hin.
  rewrite available_tools_registered in Hin. rewrite sessions_registered.
  apply in_app_or in Hin. destruct Hin as [Hold | Hnew].
  - apply assign_all_get_kept. now apply Hbot.
  - apply in_map_iff in Hnew. destruct Hnew as (tool & <- & Htool).
    rewrite get_assign_all_in; [discriminate|].
    unfold exposed_keys. apply in_or_app. left.
    simpl. now apply in_map.
Qed.

Lemma for_each_if_any_run {A : Type} (body : MCP_ChatBot -> A -> MCP_ChatBot)
    (response : option (list A)) (s : state W) :
  for_each_if_any body response s =
    (Return tt,
     {| self := fold_left body (or_empty response) (self s); world := world s |},
     []).
Proof.
  destruct s as [bot w]. destruct response as [[|x xs]|]; reflexivity.
Qed.

(** *** The inner [try] block, by the first class that fails *)

Lemma discover_tools_fail session (s : state W) e w1 :
  session_list_tools session (world s) = (Err e, w1) ->
  discover session s =
    (Raised e, {| self := self s; world := w1 |}, [EvListTools session]).
Proof.
  intros Htools. unfold discover, bind, call. now rewrite Htools.
Qed.

Lemma discover_prompts_fail session (s : state W) tools w1 e w2 :
  session_list_tools session (world s) = (Ok tools, w1) ->
  session_list_prompts session w1 = (Err e, w2) ->
  discover session s =
    (Raised e,
     {| self := registered session tools None None (self s); world := w2 |},
     [EvListTools session; EvListPrompts session]).
Proof.
  intros Htools Hprompts. unfold discover, bind, call, modify_self.
  rewrite Htools. cbn [self world]. now rewrite Hprompts.
Qed.

Lemma discover_resources_fail session (s : state W) tools w1 prompts w2 e w3 :
  session_list_tools session (world s) = (Ok tools, w1) ->
  session_list_prompts session w1 = (Ok prompts, w2) ->
  session_list_resources session w2 = (Err e, w3) ->
  discover session s =
    (Raised e,
     {| self := registered session tools prompts None (self s); world := w3 |},
     [EvListTools session; EvListPrompts session; EvListResources session]).
Proof.
  intros Htools Hprompts Hresources. unfold discover, bind, call, modify_self.
  rewrite Htools. cbn [self world]. rewrite Hprompts.
  rewrite for_each_if_any_run. cbn [self world]. now rewrite Hresources.
Qed.

(** Discovery in which the three classes answer. *)
Lemma discover_run session (s : state W) tools w1 prompts w2 resources w3 :
  session_list_tools session (world s) = (Ok tools, w1) ->
  session_list_prompts session w1 = (Ok prompts, w2) ->
  session_list_resources session w2 = (Ok resources, w3) ->
  discover session s =
    (Return tt,
     {| self := registered session tools prompts resources (self s);
        world := w3 |},
     [EvListTools session; EvListPrompts session; EvListResources session]).
Proof.
  intros Htools Hprompts Hresources. unfold discover.
  unfold bind, call, modify_self. rewrite Htools. cbn [self world].
  rewrite Hprompts. rewrite for_each_if_any_run. cbn [self world].
  rewrite Hresources. rewrite for_each_if_any_run. reflexivity.
Qed.

(** Discovery, whatever the session answers: it registers what it
    reached, opens no session, prints nothing, and raises only what a
    discovery call raised. *)
Lemma discover_cases session (s : state W) :
  exists r s' evs,
    discover session s = (r, s', evs)
    /\ r <> Diverged
    /\ opened_servers evs = []
    /\ printed_lines evs = []
    /\ self s' =
         match discovery_answers session (world s) with
         | (tools, prompts, resources) =>
             registered session tools prompts resources (self s)
         end.
Proof.
  unfold discovery_answers.
  destruct (session_list_tools session (world s)) as [[tools|e] w1] eqn:Htools.
  - destruct (session_list_prompts session w1) as [[prompts|e] w2] eqn:Hprompts.
    + destruct (session_list_resources session w2) as [[resources|e] w3]
        eqn:Hresources.
      * rewrite (discover_run _ _ _ _ _ _ _ _ Htools Hprompts Hresources).
        do 3 eexists. split; [reflexivity|]. now repeat split.
      * rewrite (discover_resources_fail _ _ _ _ _ _ _ _
                   Htools Hprompts Hresources).
        do 3 eexists. split; [reflexivity|]. now repeat split.
    + rewrite (discover_prompts_fail _ _ _ _ _ _ Htools Hprompts).
      do 3 eexists. split; [reflexivity|]. now repeat split.
  - rewrite (discover_tools_fail _ _ _ _ Htools).
    do 3 eexists. split; [reflexivity|]. now repeat split.
Qed.

(** *** The two handlers of [connect_to_server] *)

(** The server cannot be connected. *)
Lemma connect_to_server_refused server_name cfg (s : state W) e w :
  open_session server_name cfg (world s) = (Err e, w) ->
  connect_to_server server_name cfg s =
    if is_Exception e then
      match console_error (connection_error_text server_name e) with
      | None =>
          (Return tt, {| self := self s; world := w |},
           [EvOpenSession server_name cfg;
            EvPrint (connection_error_text server_name e)])
      | Some msg =>
          (Raised (Exception msg), {| self := self s; world := w |},
           [EvOpenSession server_name cfg])
      end
    else
      (Raised e, {| self := self s; world := w |},
       [EvOpenSession server_name cfg]).
Proof.
  intros Hopen. unfold connect_to_server.
  unfold try_except at 1. unfold bind at 1. unfold call at 1. rewrite Hopen.
  destruct (is_Exception e); [|reflexivity].
  fold (connection_error_text server_name e).
  destruct (console_print_cases (connection_error_text server_name e)
              {| self := self s; world := w |}) as [[-> ->]|(msg & -> & ->)];
    reflexivity.
Qed.

(** The server is connected: what is done with the outcome of the
    discovery. *)
Lemma connect_to_server_opened server_name cfg (s : state W) session w0 :
  open_session server_name cfg (world s) = (Ok session, w0) ->
  connect_to_server server_name cfg s =
    match discover session {| self := self s; world := w0 |} with
    | (Raised e, s1, evs1) =>
        if is_Exception e then
          match console_error (discovery_error_text e) with
          | None =>
              (Return tt, s1,
               EvOpenSession server_name cfg
               :: evs1 ++ [EvPrint (discovery_error_text e)])
          | Some msg =>
              match
                console_error (connection_error_text server_name (Exception msg))
              with
              | None =>
                  (Return tt, s1,
                   EvOpenSession server_name cfg
                   :: evs1
                   ++ [EvPrint (connection_error_text server_name (Exception msg))])
              | Some msg2 =>
                  (Raised (Exception msg2), s1,
                   EvOpenSession server_name cfg :: evs1)
              end
          end
        else (Raised e, s1, EvOpenSession server_name cfg :: evs1)
    | (r, s1, evs1) => (r, s1, EvOpenSession server_name cfg :: evs1)
    end.
Proof.
  intros Hopen. unfold connect_to_server.
  unfold try_except at 1. unfold bind at 1. unfold call at 1. rewrite Hopen.
  unfold try_except at 1.
  destruct (discover session {| self := self s; world := w0 |})
    as [[[[]|e|] s1] evs1]; try reflexivity.
  destruct (is_Exception e) eqn:Hkind; cbn [app].
  - fold (discovery_error_text e).
    destruct (console_print_cases (discovery_error_text e) s1)
      as [[-> ->]|(msg & -> & ->)].
    + reflexivity.
    + cbn [is_Exception Exception].
      fold (connection_error_text server_name (Exception msg)).
      destruct (console_print_cases
                  (connection_error_text server_name (Exception msg)) s1)
        as [[-> ->]|(msg2 & -> & ->)].
      * cbn. now rewrite app_nil_r.
      * cbn. now rewrite !app_nil_r.
  - now rewrite Hkind.
Qed.

(** Whatever the servers answer, [connect_to_server] tries the one server
    it is given; the fields are either untouched or those registrations of
    one session that discovery reached; and an exception that leaves it is
    not an [Exception] or was raised by the console. *)
Lemma connect_to_server_cases server_name cfg (s : state W) :
  exists r s' evs,
    connect_to_server server_name cfg s = (r, s', evs)
    /\ r <> Diverged
    /\ (forall e, r = Raised e -> is_Exception e = false \/ raised_by_console e)
    /\ opened_servers evs = [server_name]
    /\ (self s' = self s
        \/ exists session tools prompts resources,
             self s' = registered session tools prompts resources (self s)).
Proof.
  destruct (open_session server_name cfg (world s)) as [[session|e] w0] eqn:Hopen.
  - rewrite (connect_to_server_opened _ _ _ _ _ Hopen).
    destruct (discover_cases session {| self := self s; world := w0 |})
      as (r & s1 & evs1 & -> & Hr & Hopened & _ & Hself).
    cbn [self world] in Hself.
    assert (Hfields : self s1 = self s
                      \/ exists session tools prompts resources,
                           self s1 = registered session tools prompts resources (self s)).
    { right. destruct (discovery_answers session w0) as [[tools prompts] resources].
      now exists session, tools, prompts, resources. }
    destruct r as [[]|e|]; [| |contradiction].
    + do 3 eexists. split; [reflexivity|].
      split; [discriminate|]. split; [discriminate|].
      split; [cbn; now rewrite Hopened|exact Hfields].
    + destruct (is_Exception e) eqn:Hkind.
      * destruct (console_error (discovery_error_text e)) as [msg|] eqn:Hline.
        -- destruct (console_error (connection_error_text server_name (Exception msg)))
             as [msg2|] eqn:Hline2.
           ++ do 3 eexists. split; [reflexivity|].
              split; [discriminate|]. split.
              { intros e0 [= <-]. right.
                now exists (connection_error_text server_name (Exception msg)), msg2. }
              split; [cbn; now rewrite Hopened|exact Hfields].
           ++ do 3 eexists. split; [reflexivity|].
              split; [discriminate|]. split; [discriminate|]. split.
              { cbn. now rewrite opened_servers_app, Hopened. }
              exact Hfields.
        -- do 3 eexists. split; [reflexivity|].
           split; [discriminate|]. split; [discriminate|]. split.
           { cbn. now rewrite opened_servers_app, Hopened. }
           exact Hfields.
      * do 3 eexists. split; [reflexivity|].
        split; [discriminate|]. split.
        { intros e0 [= <-]. now left. }
        split; [cbn; now rewrite Hopened|exact Hfields].
  - rewrite (connect_to_server_refused _ _ _ _ _ Hopen).
    destruct (is_Exception e) eqn:Hkind.
    + destruct (console_error (connection_error_text server_name e))
        as [msg|] eqn:Hline.
      * do 3 eexists. split; [reflexivity|].
        split; [discriminate|]. split.
        { intros e0 [= <-]. right.
          now exists (connection_error_text server_name e), msg. }
        split; [reflexivity|now left].
      * do 3 eexists. split; [reflexivity|].
        split; [discriminate|]. split; [discriminate|].
        split; [reflexivity|now left].
    + do 3 eexists. split; [reflexivity|].
      split; [discriminate|]. split.
      { intros e0 [= <-]. now left. }
      split; [reflexivity|now left].
Qed.

(** The registry after the registration of a connected session: the keys
    that discovery reached are assigned to the session, the others are
    untouched, whatever the outcome. *)
Lemma connect_to_server_sessions server_name cfg (s : state W) session w0 :
  open_session server_name cfg (world s) = (Ok session, w0) ->
  sessions (self (state_of (connect_to_server server_name cfg s))) =
  assign_all session (discovered session w0) (sessions (self s)).
Proof.
  intros Hopen. rewrite (connect_to_server_opened _ _ _ _ _ Hopen).
  destruct (discover_cases session {| self := self s; world := w0 |})
    as (r & s1 & evs1 & -> & _ & _ & _ & Hself).
  cbn [self world] in Hself. unfold discovered.
  assert (Hs1 : sessions (self s1) =
                assign_all session
                  (match discovery_answers session w0 with
                   | (tools, prompts, resources) =>
                       exposed_keys tools prompts resources
                   end) (sessions (self s))).
  { rewrite Hself.
    destruct (discovery_answers session w0) as [[tools prompts] resources].
    apply sessions_registered. }
  destruct r as [[]|e|]; try exact Hs1.
  destruct (is_Exception e); [|exact Hs1].
  destruct (console_error (discovery_error_text e)) as [msg|]; [|exact Hs1].
  destruct (console_error (connection_error_text server_name (Exception msg)));
    exact Hs1.
Qed.

Lemma connect_to_server_run server_name cfg (s : state W) session w0
    tools w1 prompts w2 resources w3 :
  open_session server_name cfg (world s) = (Ok session, w0) ->
  session_list_tools session w0 = (Ok tools, w1) ->
  session_list_prompts session w1 = (Ok prompts, w2) ->
  session_list_resources session w2 = (Ok resources, w3) ->
  connect_to_server server_name cfg s =
    (Return tt,
     {| self := registered session tools prompts resources (self s);
        world := w3 |},
     [EvOpenSession server_name cfg; EvListTools session;
      EvListPrompts session; EvListResources session]).
Proof.
  intros Hopen Htools Hprompts Hresources.
  rewrite (connect_to_server_opened _ _ _ _ _ Hopen).
  now rewrite (discover_run session {| self := self s; world := w0 |}
                 tools w1 prompts w2 resources w3 Htools Hprompts Hresources).
Qed.

Lemma connect_to_server_keeps_routable server_name cfg (s : state W) :
  tools_routable (self s) ->
  tools_routable (self (state_of (connect_to_server server_name cfg s))).
Proof.
  intros Hs.
  destruct (connect_to_server_cases server_name cfg s)
    as (r & s' & evs & Hrun & _ & _ & _ &
        [Hsame | (session & tools & prompts & resources & Hreg)]);
    rewrite Hrun; unfold state_of; cbn [fst snd].
  - now rewrite Hsame.
  - rewrite Hreg. now apply registered_keeps_routable.
Qed.

(** The loop over the configured servers tries the servers in the order
    of the configuration, all of them when it returns, and keeps the tools
    routable. *)
Lemma for_servers_cases servers :
  forall s : state W,
  exists r s' evs,
    for_servers servers s = (r, s', evs)
    /\ r <> Diverged
    /\ (forall e, r = Raised e -> is_Exception e = false \/ raised_by_console e)
    /\ (exists rest,
          map fst servers = opened_servers evs ++ rest
          /\ (r = Return tt -> rest = []))
    /\ (tools_routable (self s) -> tools_routable (self s')).
Proof.
  induction servers as [|[server_name cfg] servers IH]; intros s.
  - exists (Return tt), s, []. cbn.
    split; [reflexivity|]. split; [discriminate|]. split; [discriminate|].
    split; [now exists []|auto].
  - cbn [for_servers]. unfold bind.
    pose proof (connect_to_server_keeps_routable server_name cfg s) as Hroutable.
    destruct (connect_to_server_cases server_name cfg s)
      as (r1 & s1 & evs1 & Hrun & Hr1 & Hescapes & Hopened & _).
    rewrite Hrun in *. unfold state_of in Hroutable. cbn [fst snd] in Hroutable.
    destruct r1 as [[]|e|]; [| |contradiction].
    + destruct (IH s1) as (r2 & s2 & evs2 & Hrun2 & Hr2 & Hescapes2
                           & (rest & Hopened2 & Hrest) & Hroutable2).
      rewrite Hrun2. exists r2, s2, (evs1 ++ evs2).
      split; [reflexivity|]. split; [exact Hr2|]. split; [exact Hescapes2|].
      split; [|auto].
      exists rest. split; [|exact Hrest].
      cbn [map fst]. rewrite opened_servers_app, Hopened, Hopened2. reflexivity.
    + exists (Raised e), s1, evs1.
      split; [reflexivity|]. split; [discriminate|]. split; [exact Hescapes|].
      split; [|exact Hroutable].
      exists (map fst servers). split; [|discriminate].
      cbn [map fst]. now rewrite Hopened.
Qed.

(** What [connect_to_servers] does with the outcome of its body. *)
Lemma connect_to_servers_unfold (s : state W) :
  connect_to_servers s =
    match (servers <- call EvLoadConfig load_config ;; for_servers servers) s with
    | (Raised e, s1, evs1) =>
        if is_Exception e then
          match console_error (config_error_text e) with
          | None => (Raised e, s1, evs1 ++ [EvPrint (config_error_text e)])
          | Some msg => (Raised (Exception msg), s1, evs1)
          end
        else (Raised e, s1, evs1)
    | other => other
    end.
Proof.
  unfold connect_to_servers, try_except.
  destruct ((servers <- call EvLoadConfig load_config ;; for_servers servers) s)
    as [[[[]|e|] s1] evs1]; try reflexivity.
  destruct (is_Exception e); [|reflexivity].
  unfold bind. fold (config_error_text e).
  destruct (console_print_cases (config_error_text e) s1)
    as [[-> ->]|(msg & -> & ->)].
  - reflexivity.
  - now rewrite app_nil_r.
Qed.

Lemma configured_servers_run (s : state W) servers w :
  load_config (world s) = (Ok servers, w) ->
  (servers <- call EvLoadConfig load_config ;; for_servers servers) s =
    match for_servers servers {| self := self s; world := w |} with
    | (r, s1, evs1) => (r, s1, EvLoadConfig :: evs1)
    end.
Proof. intros Hload. unfold bind at 1, call. now rewrite Hload. Qed.

(** An exception that leaves [connect_to_servers] is the failure to load
    the configuration, or is not an [Exception], or was raised by the
    console; and [connect_to_servers] comes to an end. *)
Lemma connect_to_servers_escapes (s : state W) :
  outcome_of (connect_to_servers s) <> Diverged
  /\ (forall e,
        outcome_of (connect_to_servers s) = Raised e ->
        fst (load_config (world s)) = Err e
        \/ is_Exception e = false \/ raised_by_console e).
Proof.
  rewrite connect_to_servers_unfold.
  destruct (load_config (world s)) as [[servers|e0] w] eqn:Hload.
  - rewrite (configured_servers_run _ _ _ Hload).
    destruct (for_servers_cases servers {| self := self s; world := w |})
      as (r & s1 & evs1 & -> & Hr & Hescapes & _).
    destruct r as [[]|e|]; [| |contradiction].
    + cbn. split; discriminate.
    + destruct (is_Exception e) eqn:Hkind.
      * destruct (console_error (config_error_text e)) as [msg|] eqn:Hline; cbn.
        -- split; [discriminate|]. intros e1 [= <-]. right. right.
           now exists (config_error_text e), msg.
        -- split; [discriminate|]. intros e1 [= <-]. right.
           now apply Hescapes.
      * cbn. split; [discriminate|]. intros e1 [= <-]. right. now left.
  - assert (Hbody :
              (servers <- call EvLoadConfig load_config ;; for_servers servers) s
              = (Raised e0, {| self := self s; world := w |}, [EvLoadConfig])).
    { unfold bind at 1, call. now rewrite Hload. }
    rewrite Hbody.
    destruct (is_Exception e0) eqn:Hkind.
    + destruct (console_error (config_error_text e0)) as [msg|] eqn:Hline; cbn.
      * split; [discriminate|]. intros e1 [= <-]. right. right.
        now exists (config_error_text e0), msg.
      * split; [discriminate|]. intros e1 [= <-]. now left.
    + cbn. split; [discriminate|]. intros e1 [= <-]. now left.
Qed.

(** C3 (amended).  Two sessions are registered one after the other, and
    the first one registers the key [k] (a tool name, a prompt name or a
    resource URI).  After both registrations [k] is looked up to the
    second session exactly when the discovery of the second session
    reached [k], that is when every capability class before the one that
    holds [k] answered; otherwise [k] stays with the first session.  The
    overwrite is silent: when the three classes of the second session
    answer, nothing is raised and nothing is printed.  The two sessions
    are arbitrary, so the statement covers both orders. *)
Theorem last_registered_wins
    (s : state W) name1 cfg1 name2 cfg2 k session1 w0 s1 evs1 session2 w4 :
  open_session name1 cfg1 (world s) = (Ok session1, w0) ->
  In k (discovered session1 w0) ->
  connect_to_server name1 cfg1 s = (Return tt, s1, evs1) ->
  open_session name2 cfg2 (world s1) = (Ok session2, w4) ->
  let both := (connect_to_server name1 cfg1 ;; connect_to_server name2 cfg2) s in
  Dict.get (sessions (self s1)) k = Some session1
  /\ Dict.get (sessions (self (state_of both))) k =
       (if existsb (String.eqb k) (discovered session2 w4)
        then Some session2 else Some session1)
  /\ (In k (discovered session2 w4) ->
      Dict.get (sessions (self (state_of both))) k = Some session2)
  /\ (forall tools w5 prompts w6 resources w7,
        session_list_tools session2 w4 = (Ok tools, w5) ->
        session_list_prompts session2 w5 = (Ok prompts, w6) ->
        session_list_resources session2 w6 = (Ok resources, w7) ->
        discovered session2 w4 = exposed_keys tools prompts resources
        /\ both =
             (Return tt,
              {| self := registered session2 tools prompts resources (self s1);
                 world := w7 |},
              evs1 ++ [EvOpenSession name2 cfg2; EvListTools session2;
                       EvListPrompts session2; EvListResources session2])).
Proof.
  intros Hopen1 Hin1 Hfirst Hopen2 both.
  assert (Hk1 : Dict.get (sessions (self s1)) k = Some session1).
  { pose proof (connect_to_server_sessions name1 cfg1 s session1 w0 Hopen1) as H.
    rewrite Hfirst in H. unfold state_of in H. cbn [fst snd] in H.
    rewrite H. now apply get_assign_all_in. }
  assert (Hk2 : Dict.get (sessions (self (state_of both))) k =
                (if existsb (String.eqb k) (discovered session2 w4)
                 then Some session2 else Some session1)).
  { pose proof (connect_to_server_sessions name2 cfg2 s1 session2 w4 Hopen2) as H.
    unfold both, bind. rewrite Hfirst.
    destruct (connect_to_server name2 cfg2 s1) as [[r2 s2] evs2].
    unfold state_of in *. cbn [fst snd] in *.
    now rewrite H, get_assign_all, Hk1. }
  split; [exact Hk1|]. split; [exact Hk2|]. split.
  - intros Hin2. rewrite Hk2. now rewrite existsb_eqb_in.
  - intros tools w5 prompts w6 resources w7 Htools Hprompts Hresources. split.
    + unfold discovered, discovery_answers.
      now rewrite Htools, Hprompts, Hresources.
    + unfold both, bind. rewrite Hfirst.
      now rewrite (connect_to_server_run name2 cfg2 s1 session2 w4 tools w5
                     prompts w6 resources w7 Hopen2 Htools Hprompts Hresources).
Qed.

(** C4 (amended).  [connect_to_server] discovers the three capability
    classes in the order tools, prompts, resources under one handler.  A
    failure while discovering one class ends the discovery of the session:
    what the classes before it registered stays registered, and the
    classes after it are not attempted, whatever the failure is.  When the
    failure is an [Exception] whose "Error ..." line the console prints,
    the line is printed and [connect_to_server] returns. *)
Theorem discovery_failure_skips_later_classes
    server_name cfg (s : state W) session w0 :
  open_session server_name cfg (world s) = (Ok session, w0) ->
  let run := connect_to_server server_name cfg s in
  (forall e w1,
     session_list_tools session w0 = (Err e, w1) ->
     self (state_of run) = self s
     /\ filter is_session_operation (events_of run) = [EvListTools session]
     /\ (is_Exception e = true ->
         console_error (discovery_error_text e) = None ->
         run =
           (Return tt, {| self := self s; world := w1 |},
            [EvOpenSession server_name cfg; EvListTools session;
             EvPrint (discovery_error_text e)])))
  /\ (forall tools w1 e w2,
        session_list_tools session w0 = (Ok tools, w1) ->
        session_list_prompts session w1 = (Err e, w2) ->
        self (state_of run) = registered session tools None None (self s)
        /\ filter is_session_operation (events_of run) =
             [EvListTools session; EvListPrompts session]
        /\ (is_Exception e = true ->
            console_error (discovery_error_text e) = None ->
            run =
              (Return tt,
               {| self := registered session tools None None (self s);
                  world := w2 |},
               [EvOpenSession server_name cfg; EvListTools session;
                EvListPrompts session; EvPrint (discovery_error_text e)])))
  /\ (forall tools w1 prompts w2 e w3,
        session_list_tools session w0 = (Ok tools, w1) ->
        session_list_prompts session w1 = (Ok prompts, w2) ->
        session_list_resources session w2 = (Err e, w3) ->
        self (state_of run) = registered session tools prompts None (self s)
        /\ filter is_session_operation (events_of run) =
             [EvListTools session; EvListPrompts session;
              EvListResources session]
        /\ (is_Exception e = true ->
            console_error (discovery_error_text e) = None ->
            run =
              (Return tt,
               {| self := registered session tools prompts None (self s);
                  world := w3 |},
               [EvOpenSession server_name cfg; EvListTools session;
                EvListPrompts session; EvListResources session;
                EvPrint (discovery_error_text e)]))).
Proof.
  intros Hopen run. unfold run.
  rewrite (connect_to_server_opened _ _ _ _ _ Hopen).
  assert (Hhandled : forall e (s1 : state W) evs1,
    filter is_session_operation evs1 = evs1 ->
    let handled :=
      if is_Exception e then
        match console_error (discovery_error_text e) with
        | None =>
            (Return tt, s1,
             EvOpenSession server_name cfg
             :: evs1 ++ [EvPrint (discovery_error_text e)])
        | Some msg =>
            match
              console_error (connection_error_text server_name (Exception msg))
            with
            | None =>
                (Return tt, s1,
                 EvOpenSession server_name cfg
                 :: evs1
                 ++ [EvPrint (connection_error_text server_name (Exception msg))])
            | Some msg2 =>
                (Raised (Exception msg2), s1,
                 EvOpenSession server_name cfg :: evs1)
            end
        end
      else (Raised e, s1, EvOpenSession server_name cfg :: evs1) in
    self (state_of handled) = self s1
    /\ filter is_session_operation (events_of handled) = evs1
    /\ (is_Exception e = true ->
        console_error (discovery_error_text e) = None ->
        handled =
          (Return tt, s1,
           EvOpenSession server_name cfg
           :: evs1 ++ [EvPrint (discovery_error_text e)]))).
  { intros e s1 evs1 Hops. cbv zeta.
    destruct (is_Exception e).
    - destruct (console_error (discovery_error_text e)) as [msg|].
      + destruct (console_error
                    (connection_error_text server_name (Exception msg))).
        * cbn. split; [reflexivity|]. split; [exact Hops|]. discriminate.
        * cbn. rewrite session_operations_app, Hops. cbn.
          rewrite app_nil_r. split; [reflexivity|]. split; [reflexivity|].
          discriminate.
      + cbn. rewrite session_operations_app, Hops. cbn.
        rewrite app_nil_r. auto.
    - cbn. split; [reflexivity|]. split; [exact Hops|]. discriminate. }
  split; [|split].
  - intros e w1 Htools.
    rewrite (discover_tools_fail session {| self := self s; world := w0 |}
               e w1 Htools).
    exact (Hhandled e _ [EvListTools session] eq_refl).
  - intros tools w1 e w2 Htools Hprompts.
    rewrite (discover_prompts_fail session {| self := self s; world := w0 |}
               tools w1 e w2 Htools Hprompts).
    exact (Hhandled e _ [EvListTools session; EvListPrompts session] eq_refl).
  - intros tools w1 prompts w2 e w3 Htools Hprompts Hresources.
    rewrite (discover_resources_fail session {| self := self s; world := w0 |}
               tools w1 prompts w2 e w3 Htools Hprompts Hresources).
    exact (Hhandled e _ [EvListTools session; EvListPrompts session;
                         EvListResources session] eq_refl).
Qed.

(** X1.  A server that cannot be connected is skipped: whatever the
    failure, [connect_to_server] leaves the fields as they were and asks
    no session anything.  When the failure is an [Exception] whose
    "Error connecting to ..." line the console prints, the line is printed
    and [connect_to_server] returns; when the console refuses the line,
    its [MarkupError] leaves [connect_to_server]; a failure that is not an
    [Exception] leaves it as it is. *)
Theorem connection_failure_skips_server server_name cfg (s : state W) e w :
  open_session server_name cfg (world s) = (Err e, w) ->
  let run := connect_to_server server_name cfg s in
  state_of run = {| self := self s; world := w |}
  /\ filter is_session_operation (events_of run) = []
  /\ (is_Exception e = true ->
      console_error (connection_error_text server_name e) = None ->
      run =
        (Return tt, {| self := self s; world := w |},
         [EvOpenSession server_name cfg;
          EvPrint (connection_error_text server_name e)]))
  /\ (is_Exception e = true ->
      forall msg,
        console_error (connection_error_text server_name e) = Some msg ->
        run =
          (Raised (Exception msg), {| self := self s; world := w |},
           [EvOpenSession server_name cfg]))
  /\ (is_Exception e = false ->
      run =
        (Raised e, {| self := self s; world := w |},
         [EvOpenSession server_name cfg])).
Proof.
  intros Hopen run. unfold run.
  rewrite (connect_to_server_refused _ _ _ _ _ Hopen).
  destruct (is_Exception e).
  - destruct (console_error (connection_error_text server_name e)) as [msg|].
    + repeat split; try discriminate. now intros _ msg0 [= <-].
    + repeat split; discriminate.
  - repeat split; discriminate.
Qed.


(** X3.  The registry is never pruned and never reordered by a
    registration: after [connect_to_server], whatever the server answers,
    the keys that were there are still there, in the same order and before
    any new key, and a name that resolved before still resolves. *)
Theorem registration_keeps_keys server_name cfg (s : state W) :
  let bot := self (state_of (connect_to_server server_name cfg s)) in
  (exists added,
     Dict.keys (sessions bot) = Dict.keys (sessions (self s)) ++ added)
  /\ (forall k, Dict.get (sessions (self s)) k <> None ->
                Dict.get (sessions bot) k <> None).
Proof.
  cbv zeta.
  destruct (connect_to_server_cases server_name cfg s)
    as (r & s' & evs & Hrun & _ & _ & _ &
        [Hsame | (session & tools & prompts & resources & Hreg)]);
    rewrite Hrun; unfold state_of; cbn [fst snd].
  - rewrite Hsame. split; [|auto]. exists []. now rewrite app_nil_r.
  - rewrite Hreg, sessions_registered. split.
    + apply assign_all_keys.
    + intros k Hk. now apply assign_all_get_kept.
Qed.

(** X4.  A configuration that cannot be loaded is fatal, and no server
    is tried.  When the failure is an [Exception] whose report the console
    prints (the failures of [open], [json.load] and [.get]), the error is
    printed and raised again by [connect_to_servers].  When the console
    refuses the report, its [MarkupError] is raised instead; a failure
    that is not an [Exception] is not handled and leaves as it is. *)
Theorem configuration_failure_is_raised (s : state W) e w :
  load_config (world s) = (Err e, w) ->
  (is_Exception e = true ->
   console_error (config_error_text e) = None ->
   connect_to_servers s =
     (Raised e, {| self := self s; world := w |},
      [EvLoadConfig;
       EvPrint (PStr ("Error loading server config: " +++ exn_str e))]))
  /\ (is_Exception e = true ->
      forall msg,
        console_error (config_error_text e) = Some msg ->
        connect_to_servers s =
          (Raised (Exception msg), {| self := self s; world := w |},
           [EvLoadConfig]))
  /\ (is_Exception e = false ->
      connect_to_servers s =
        (Raised e, {| self := self s; world := w |}, [EvLoadConfig])).
Proof.
  intros Hload. rewrite connect_to_servers_unfold.
  assert (Hbody :
            (servers <- call EvLoadConfig load_config ;; for_servers servers) s
            = (Raised e, {| self := self s; world := w |}, [EvLoadConfig])).
  { unfold bind at 1, call. now rewrite Hload. }
  rewrite Hbody. fold (config_error_text e).
  split; [|split].
  - intros Hkind Hline. now rewrite Hkind, Hline.
  - intros Hkind msg Hline. now rewrite Hkind, Hline.
  - intros Hkind. now rewrite Hkind.
Qed.


(** X6.  After start-up every tool that is offered to the model can be
    routed: each entry of [available_tools] has its name in the registry,
    whatever the configuration and the servers answered. *)
Theorem offered_tools_are_routable (w : W) :
  tools_routable
    (self (state_of (connect_to_servers {| self := init; world := w |}))).
Proof.
  rewrite connect_to_servers_unfold.
  unfold bind at 1, call. cbn [self world].
  assert (Hinit : tools_routable init) by (intros schema []).
  destruct (load_config w) as [[servers|e] w0].
  - destruct (for_servers_cases servers {| self := init; world := w0 |})
      as (r & s1 & evs1 & -> & _ & _ & _ & Hroutable).
    specialize (Hroutable Hinit).
    destruct r as [[]|e|]; try exact Hroutable.
    destruct (is_Exception e); [|exact Hroutable].
    destruct (console_error (config_error_text e)); exact Hroutable.
  - destruct (is_Exception e); [|exact Hinit].
    destruct (console_error (config_error_text e)); exact Hinit.
Qed.

(** X7.  A session whose three discovery calls answer adds one schema
    per discovered tool and one descriptor per discovered prompt, at the
    end of the lists and in discovery order; a resource adds neither. *)
Theorem discovery_appends_descriptors
    server_name cfg (s : state W) session w0 tools w1 prompts w2 resources w3 :
  open_session server_name cfg (world s) = (Ok session, w0) ->
  session_list_tools session w0 = (Ok tools, w1) ->
  session_list_prompts session w1 = (Ok prompts, w2) ->
  session_list_resources session w2 = (Ok resources, w3) ->
  let bot := self (state_of (connect_to_server server_name cfg s)) in
  available_tools bot = available_tools (self s) ++ map adapt_tool tools
  /\ available_prompts bot =
       available_prompts (self s) ++ map entry_of (or_empty prompts).
Proof.
  intros Hopen Htools Hprompts Hresources. cbv zeta.
  rewrite (connect_to_server_run server_name cfg s session w0 tools w1
             prompts w2 resources w3 Hopen Htools Hprompts Hresources).
  unfold state_of. cbn [fst snd self]. split.
  - apply available_tools_registered.
  - unfold registered.
    now rewrite available_prompts_fold_resources, available_prompts_fold_prompts,
      available_prompts_fold_tools.
Qed.

End Registration.

(** ** The resolver: [get_resource] and [execute_prompt] *)

Section Resolver.

Context {W : Type} {collab : Collaborators W}.

(** The scan stops at the first key with the prefix. *)
Lemma first_papers_session_found before key session after current :
  startswith key "papers://" = true ->
  (forall k v, In (k, v) before -> startswith k "papers://" = false) ->
  first_papers_session (before ++ (key, session) :: after) current = Some session.
Proof.
  intros Hkey Hbefore. induction before as [|[k v] before IH]; simpl.
  - now rewrite Hkey.
  - rewrite (Hbefore k v) by now left.
    apply IH. intros k' v' Hin. apply (Hbefore k' v'). now right.
Qed.

(** Without a key with the prefix the scan changes nothing. *)
Lemma first_papers_session_none items current :
  (forall k v, In (k, v) items -> startswith k "papers://" = false) ->
  first_papers_session items current = current.
Proof.
  intros Hnone. induction items as [|[k v] items IH]; simpl; [reflexivity|].
  rewrite (Hnone k v) by now left.
  apply IH. intros k' v' Hin. apply (Hnone k' v'). now right.
Qed.

(** A URI that is a key of the registry goes to the session of that key,
    without any scan. *)
Lemma get_resource_registered resource_uri (s : state W) session :
  Dict.get (sessions (self s)) resource_uri = Some session ->
  get_resource resource_uri s = read_and_render session resource_uri s.
Proof.
  intros Hkey. unfold get_resource. unfold bind at 1. unfold get_self.
  rewrite Hkey.
  destruct (read_and_render session resource_uri s) as [[r s'] evs].
  reflexivity.
Qed.

(** A URI that resolves to no session: only the "not found" line is
    printed. *)
Lemma get_resource_unresolved resource_uri (s : state W) :
  Dict.get (sessions (self s)) resource_uri = None ->
  (startswith resource_uri "papers://" = false
   \/ forall k v, In (k, v) (Dict.items (sessions (self s))) ->
                  startswith k "papers://" = false) ->
  get_resource resource_uri s =
    console_print (resource_not_found_text resource_uri) s.
Proof.
  intros Habsent Hnone. unfold get_resource. unfold bind at 1. unfold get_self.
  rewrite Habsent. fold (resource_not_found_text resource_uri).
  assert (Hsession :
            (if startswith resource_uri "papers://"
             then first_papers_session (Dict.items (sessions (self s))) None
             else None) = None).
  { destruct Hnone as [-> | Hnone]; [reflexivity|].
    destruct (startswith resource_uri "papers://"); [|reflexivity].
    now apply first_papers_session_none. }
  cbv zeta. rewrite Hsession. cbn [app].
  now destruct (console_print (resource_not_found_text resource_uri) s)
    as [[r s'] evs].
Qed.

(** The first event of a computation that starts with a call, also under
    a handler that prints. *)
Lemma call_first_event {A B : Type} ev (op : W -> result A * W)
    (k : A -> M W B) (s : state W) :
  exists tail, events_of ((x <- call ev op ;; k x) s) = ev :: tail.
Proof.
  unfold bind, call. destruct (op (world s)) as [[x|e] w].
  - destruct (k x {| self := self s; world := w |}) as [[r s2] t2].
    cbn. eauto.
  - cbn. eauto.
Qed.

Lemma reported_first_event (m : M W unit) (line : exn -> printed)
    (s : state W) ev :
  (exists tail, events_of (m s) = ev :: tail) ->
  exists tail,
    events_of (try_except m (fun e => console_print (line e)) s) = ev :: tail.
Proof.
  rewrite reported_unfold. destruct (m s) as [[[[]|e|] s1] evs1]; cbn;
    intros [tail ->]; try (eexists; reflexivity).
  destruct (is_Exception e); [|eexists; reflexivity].
  destruct (console_error (line e)); cbn; eexists; reflexivity.
Qed.

(** The read of [read_and_render] is its first event, whatever follows. *)
Lemma read_and_render_first_event session resource_uri (s : state W) :
  exists tail,
    events_of (read_and_render session resource_uri s) =
    EvReadResource session resource_uri :: tail.
Proof.
  unfold read_and_render. apply reported_first_event. apply call_first_event.
Qed.

(** The result of the read of a session that raises. *)
Lemma read_and_render_error session resource_uri (s : state W) e w :
  session_read_resource session resource_uri (world s) = (Err e, w) ->
  read_and_render session resource_uri s =
    if is_Exception e then
      match console_error (error_text e) with
      | None =>
          (Return tt, {| self := self s; world := w |},
           [EvReadResource session resource_uri; error_line e])
      | Some msg =>
          (Raised (Exception msg), {| self := self s; world := w |},
           [EvReadResource session resource_uri])
      end
    else
      (Raised e, {| self := self s; world := w |},
       [EvReadResource session resource_uri]).
Proof.
  intros Hread. unfold read_and_render. rewrite reported_unfold.
  unfold bind at 1, call. rewrite Hread. reflexivity.
Qed.

(** The body of the [try] of [get_resource] once the read has answered
    with a first item. *)
Lemma read_and_render_item session resource_uri (s : state W) first more w :
  session_read_resource session resource_uri (world s)
    = (Ok (Some (first :: more)), w) ->
  console_error (resource_header resource_uri) = None ->
  console_error (PStr "Content:") = None ->
  read_and_render session resource_uri s =
    let s1 := {| self := self s; world := w |} in
    let shown :=
      [EvReadResource session resource_uri;
       EvPrint (resource_header resource_uri); EvPrint (PStr "Content:")] in
    let handled e :=
      match console_error (error_text e) with
      | None => (Return tt, s1, shown ++ [error_line e])
      | Some msg => (Raised (Exception msg), s1, shown)
      end in
    match text_of first with
    | Ok text =>
        match console_error (PStr text) with
        | None => (Return tt, s1, shown ++ [EvPrint (PStr text)])
        | Some msg => handled (Exception msg)
        end
    | Err e => if is_Exception e then handled e else (Raised e, s1, shown)
    end.
Proof.
  intros Hread Hheader Hcontent. unfold read_and_render. rewrite reported_unfold.
  unfold bind at 1, call. rewrite Hread.
  fold (resource_header resource_uri). unfold bind at 1.
  rewrite (console_print_ok _ _ Hheader). unfold bind at 1.
  rewrite (console_print_ok _ _ Hcontent). unfold bind, lift_result.
  destruct (text_of first) as [text|e]; unfold ret, raise; cbv beta iota;
    cbn [app].
  - destruct (console_print_cases (PStr text) {| self := self s; world := w |})
      as [[-> ->]|(msg & -> & ->)]; reflexivity.
  - reflexivity.
Qed.


Lemma bind_get_self {A : Type} (k : MCP_ChatBot -> M W A) (s : state W) :
  (bot <- get_self ;; k bot) s = k (self s) s.
Proof.
  unfold bind, get_self. cbn [app].
  now destruct (k (self s) s) as [[r s2] t2].
Qed.

(** What [execute_prompt] does with a registered name. *)
Lemma execute_prompt_registered fuel prompt_name args (s : state W) session :
  Dict.get (sessions (self s)) prompt_name = Some session ->
  execute_prompt fuel prompt_name args s =
    try_except
      (result <-
         call (EvGetPrompt session prompt_name args)
              (session_get_prompt session prompt_name args) ;;
       match result with
       | Some (first :: _) =>
           console_print (executing_text prompt_name) ;;
           process_query fuel (extract_text (pm_content first))
       | Some [] | None => ret tt
       end)
      (fun e => console_print (error_text e)) s.
Proof.
  intros Hname. unfold execute_prompt. rewrite bind_get_self.
  now rewrite Hname.
Qed.

(** C7.  [get_resource] on a URI that is not a key of the registry.  When
    the URI starts with "papers://" and some key of the registry starts
    with "papers://", the request goes to the session of the first such
    key in the iteration order of the registry: that session is asked to
    read the requested URI.  When no key of the registry starts with
    "papers://", no session is asked anything; "not found" is printed and
    the method returns when the console accepts the line, and when it
    does not (a URI with a closing tag), the [MarkupError] of the console
    leaves [get_resource] and nothing is reported. *)
Theorem get_resource_prefix_fallback resource_uri (s : state W) :
  Dict.get (sessions (self s)) resource_uri = None ->
  (forall before key session after,
     startswith resource_uri "papers://" = true ->
     Dict.items (sessions (self s)) = before ++ (key, session) :: after ->
     startswith key "papers://" = true ->
     (forall k v, In (k, v) before -> startswith k "papers://" = false) ->
     get_resource resource_uri s = read_and_render session resource_uri s
     /\ exists tail,
          events_of (get_resource resource_uri s) =
          EvReadResource session resource_uri :: tail)
  /\ ((forall k v, In (k, v) (Dict.items (sessions (self s))) ->
                   startswith k "papers://" = false) ->
      filter is_session_operation (events_of (get_resource resource_uri s)) = []
      /\ (console_error (resource_not_found_text resource_uri) = None ->
          get_resource resource_uri s =
            (Return tt, s, [resource_not_found resource_uri]))
      /\ (forall msg,
            console_error (resource_not_found_text resource_uri) = Some msg ->
            get_resource resource_uri s = (Raised (Exception msg), s, []))).
Proof.
  intros Habsent. split.
  - intros before key session after Hprefix Hitems Hkey Hbefore.
    assert (Hrun : get_resource resource_uri s =
                   read_and_render session resource_uri s).
    { unfold get_resource. unfold bind at 1. unfold get_self.
      rewrite Habsent, Hprefix, Hitems.
      rewrite first_papers_session_found by assumption.
      destruct (read_and_render session resource_uri s) as [[r s'] evs].
      reflexivity. }
    split; [exact Hrun|]. rewrite Hrun. apply read_and_render_first_event.
  - intros Hnone.
    rewrite (get_resource_unresolved _ _ Habsent (or_intror Hnone)).
    destruct (console_print_cases (resource_not_found_text resource_uri) s)
      as [[Hline ->]|(msg & Hline & ->)]; rewrite Hline.
    + split; [reflexivity|]. split; [reflexivity|]. discriminate.
    + split; [reflexivity|]. split; [discriminate|]. now intros msg0 [= <-].
Qed.

(** C9.  The fallback of [get_resource] is only for URIs that start with
    the literal "papers://": for a URI that is not a key of the registry
    and does not start with "papers://", the method does nothing but
    print the "not found" line, whatever keys the registry holds, and no
    session is asked anything.  It returns when the console accepts the
    line; when it does not (a URI with a closing tag), the [MarkupError]
    of the console leaves [get_resource] and nothing is reported. *)
Theorem get_resource_no_fallback_outside_papers resource_uri (s : state W) :
  Dict.get (sessions (self s)) resource_uri = None ->
  startswith resource_uri "papers://" = false ->
  get_resource resource_uri s =
    console_print (resource_not_found_text resource_uri) s
  /\ filter is_session_operation (events_of (get_resource resource_uri s)) = []
  /\ (console_error (resource_not_found_text resource_uri) = None ->
      get_resource resource_uri s =
        (Return tt, s, [resource_not_found resource_uri]))
  /\ (forall msg,
        console_error (resource_not_found_text resource_uri) = Some msg ->
        get_resource resource_uri s = (Raised (Exception msg), s, [])).
Proof.
  intros Habsent Hprefix.
  rewrite (get_resource_unresolved _ _ Habsent (or_introl Hprefix)).
  split; [reflexivity|].
  destruct (console_print_cases (resource_not_found_text resource_uri) s)
    as [[Hline ->]|(msg & Hline & ->)]; rewrite Hline.
  - split; [reflexivity|]. split; [reflexivity|]. discriminate.
  - split; [reflexivity|]. split; [discriminate|]. now intros msg0 [= <-].
Qed.

(** C8.  [execute_prompt] on a name of the registry, when the session
    returns at least one message: the text of the first message is the
    string itself for a plain string, the [text] field for one
    text-bearing object, and the texts of the items joined with single
    spaces for a sequence.  When the console prints the "Executing
    prompt" line, that text is the query [process_query] is called with,
    so the model backend is first invoked with the transcript made of
    that one user turn; an [Exception] that leaves the query is handed to
    the handler.  When the console refuses the line (a prompt name with a
    closing tag), the query is not fed: the model is not invoked. *)
Theorem execute_prompt_feeds_query
    fuel prompt_name args (s : state W) session first others w1 :
  Dict.get (sessions (self s)) prompt_name = Some session ->
  session_get_prompt session prompt_name args (world s)
    = (Ok (Some (first :: others)), w1) ->
  let text := extract_text (pm_content first) in
  let s1 := {| self := self s; world := w1 |} in
  (forall str, pm_content first = ContentStr str -> text = str)
  /\ (forall t, pm_content first = ContentText t -> text = t)
  /\ (forall texts, pm_content first = ContentSeq (map ItemText texts) ->
        text = String.concat " " texts)
  /\ (console_error (executing_text prompt_name) = None ->
      execute_prompt fuel prompt_name args s =
        match process_query fuel text s1 with
        | (Raised e, s', evs) =>
            if is_Exception e then
              match console_error (error_text e) with
              | None =>
                  (Return tt, s',
                   (EvGetPrompt session prompt_name args
                    :: executing_line prompt_name :: evs) ++ [error_line e])
              | Some msg =>
                  (Raised (Exception msg), s',
                   EvGetPrompt session prompt_name args
                   :: executing_line prompt_name :: evs)
              end
            else
              (Raised e, s',
               EvGetPrompt session prompt_name args
               :: executing_line prompt_name :: evs)
        | (r, s', evs) =>
            (r, s',
             EvGetPrompt session prompt_name args
             :: executing_line prompt_name :: evs)
        end)
  /\ (exists tail,
        events_of (process_query (S fuel) text s1) =
        EvChat (available_tools (self s)) [user_turn text] :: tail)
  /\ (forall msg,
        console_error (executing_text prompt_name) = Some msg ->
        model_invocations (events_of (execute_prompt fuel prompt_name args s)) = []
        /\ execute_prompt fuel prompt_name args s =
             match console_error (error_text (Exception msg)) with
             | None =>
                 (Return tt, s1,
                  [EvGetPrompt session prompt_name args;
                   error_line (Exception msg)])
             | Some msg2 =>
                 (Raised (Exception msg2), s1,
                  [EvGetPrompt session prompt_name args])
             end).
Proof.
  intros Hname Hprompt text s1.
  split; [|split; [|split; [|split; [|split]]]].
  - intros str Hshape. unfold text. now rewrite Hshape.
  - intros t Hshape. unfold text. now rewrite Hshape.
  - intros texts Hshape. unfold text. rewrite Hshape. simpl.
    rewrite map_map. simpl. now rewrite map_id.
  - intros Hline. rewrite (execute_prompt_registered _ _ _ _ _ Hname).
    rewrite reported_unfold. unfold bind at 1, call. rewrite Hprompt.
    unfold bind at 1. rewrite (console_print_ok _ _ Hline).
    fold text. fold s1. fold (executing_line prompt_name).
    destruct (process_query fuel text s1) as [[[[]|e|] s'] evs]; reflexivity.
  - unfold process_query. fold (user_turn text).
    apply (dispatch_loop_first_event fuel [user_turn text] s1).
  - intros msg Hline.
    assert (Hrun : execute_prompt fuel prompt_name args s =
                   match console_error (error_text (Exception msg)) with
                   | None =>
                       (Return tt, s1,
                        [EvGetPrompt session prompt_name args;
                         error_line (Exception msg)])
                   | Some msg2 =>
                       (Raised (Exception msg2), s1,
                        [EvGetPrompt session prompt_name args])
                   end).
    { rewrite (execute_prompt_registered _ _ _ _ _ Hname).
      rewrite reported_unfold. unfold bind at 1, call. rewrite Hprompt.
      unfold bind at 1. rewrite (console_print_refused _ _ _ Hline).
      reflexivity. }
    split; [|exact Hrun]. rewrite Hrun.
    now destruct (console_error (error_text (Exception msg))).
Qed.

(** C10.  [execute_prompt] on a name of the registry, when the session
    returns no message (a result without messages, or a falsy result):
    the method returns after the retrieval.  The dispatch loop is not
    entered and nothing is printed, neither an error nor "not found". *)
Theorem execute_prompt_without_messages
    fuel prompt_name args (s : state W) session result w1 :
  Dict.get (sessions (self s)) prompt_name = Some session ->
  session_get_prompt session prompt_name args (world s) = (Ok result, w1) ->
  or_empty result = [] ->
  execute_prompt fuel prompt_name args s =
    (Return tt, {| self := self s; world := w1 |},
     [EvGetPrompt session prompt_name args]).
Proof.
  intros Hname Hprompt Hempty.
  rewrite (execute_prompt_registered _ _ _ _ _ Hname).
  rewrite reported_unfold. unfold bind at 1, call. rewrite Hprompt.
  destruct result as [[|first others]|]; try discriminate; reflexivity.
Qed.

(** X16.  [get_resource] on a URI that is a key of the registry reads it
    from the session of that key, whatever other keys there are, and
    renders the text of the first content item only: when the console
    prints them, a header line, "Content:" and that text.  When the
    console refuses the text (a closing tag in it), its [MarkupError] goes
    to the handler, which reports it as an "Error: ..." line or, when that
    line is refused too, lets the second [MarkupError] leave
    [get_resource]. *)
Theorem get_resource_renders_first_item
    resource_uri (s : state W) session text more w :
  Dict.get (sessions (self s)) resource_uri = Some session ->
  session_read_resource session resource_uri (world s)
    = (Ok (Some (TextItem text :: more)), w) ->
  console_error (resource_header resource_uri) = None ->
  console_error (PStr "Content:") = None ->
  let s1 := {| self := self s; world := w |} in
  let shown :=
    [EvReadResource session resource_uri;
     EvPrint (resource_header resource_uri); EvPrint (PStr "Content:")] in
  (console_error (PStr text) = None ->
   get_resource resource_uri s =
     (Return tt, s1, shown ++ [EvPrint (PStr text)]))
  /\ (forall msg,
        console_error (PStr text) = Some msg ->
        get_resource resource_uri s =
          match console_error (error_text (Exception msg)) with
          | None => (Return tt, s1, shown ++ [error_line (Exception msg)])
          | Some msg2 => (Raised (Exception msg2), s1, shown)
          end).
Proof.
  intros Hkey Hread Hheader Hcontent s1 shown.
  rewrite (get_resource_registered _ _ _ Hkey).
  rewrite (read_and_render_item _ _ _ _ _ _ Hread Hheader Hcontent).
  cbn [text_of]. cbv zeta. fold s1. fold shown. split.
  - intros Htext. now rewrite Htext.
  - intros msg Htext. now rewrite Htext.
Qed.


(** X18.  What [get_resource] reports when the read of a registered URI
    gives nothing to render, provided the console prints the lines: an
    [Exception] of the session as an "Error: ..." line; "No content
    available." for an absent or empty content list; and for a first item
    without text, the two header lines and then the [AttributeError] as an
    "Error: ..." line.  An error of the session that is not an
    [Exception] leaves [get_resource]. *)
Theorem resource_read_failures_are_reported
    resource_uri (s : state W) session :
  Dict.get (sessions (self s)) resource_uri = Some session ->
  (forall e w,
     session_read_resource session resource_uri (world s) = (Err e, w) ->
     (is_Exception e = true ->
      console_error (error_text e) = None ->
      get_resource resource_uri s =
        (Return tt, {| self := self s; world := w |},
         [EvReadResource session resource_uri; error_line e]))
     /\ (is_Exception e = false ->
         get_resource resource_uri s =
           (Raised e, {| self := self s; world := w |},
            [EvReadResource session resource_uri])))
  /\ (forall result w,
        session_read_resource session resource_uri (world s) = (Ok result, w) ->
        or_empty result = [] ->
        console_error (PStr "No content available.") = None ->
        get_resource resource_uri s =
          (Return tt, {| self := self s; world := w |},
           [EvReadResource session resource_uri;
            EvPrint (PStr "No content available.")]))
  /\ (forall cls more w,
        session_read_resource session resource_uri (world s)
          = (Ok (Some (OtherItem cls :: more)), w) ->
        console_error (resource_header resource_uri) = None ->
        console_error (PStr "Content:") = None ->
        console_error
          (error_text (Exception ("'" +++ cls +++ "' object has no attribute 'text'")))
          = None ->
        get_resource resource_uri s =
          (Return tt, {| self := self s; world := w |},
           [EvReadResource session resource_uri;
            EvPrint (resource_header resource_uri);
            EvPrint (PStr "Content:");
            error_line
              (Exception ("'" +++ cls +++ "' object has no attribute 'text'"))])).
Proof.
  intros Hkey. rewrite (get_resource_registered _ _ _ Hkey).
  split; [|split].
  - intros e w Hread. rewrite (read_and_render_error _ _ _ _ _ Hread). split.
    + intros Hkind Hline. now rewrite Hkind, Hline.
    + intros Hkind. now rewrite Hkind.
  - intros result w Hread Hempty Hline.
    unfold read_and_render. rewrite reported_unfold.
    unfold bind at 1, call. rewrite Hread.
    destruct result as [[|first rest]|]; try discriminate;
      now rewrite (console_print_ok _ _ Hline).
  - intros cls more w Hread Hheader Hcontent Hline.
    rewrite (read_and_render_item _ _ _ _ _ _ Hread Hheader Hcontent).
    cbn [text_of is_Exception Exception]. cbv zeta. now rewrite Hline.
Qed.

(** X19.  [execute_prompt] on a name the registry does not hold does
    nothing but print the "Prompt ... not found." line: no session is
    asked and the model is not invoked.  It returns when the console
    accepts the line; when it does not (a name with a closing tag), the
    [MarkupError] of the console leaves [execute_prompt]. *)
Theorem execute_prompt_not_found fuel prompt_name args (s : state W) :
  Dict.get (sessions (self s)) prompt_name = None ->
  execute_prompt fuel prompt_name args s =
    console_print (prompt_not_found_text prompt_name) s
  /\ (console_error (prompt_not_found_text prompt_name) = None ->
      execute_prompt fuel prompt_name args s =
        (Return tt, s, [prompt_not_found prompt_name]))
  /\ (forall msg,
        console_error (prompt_not_found_text prompt_name) = Some msg ->
        execute_prompt fuel prompt_name args s = (Raised (Exception msg), s, [])).
Proof.
  intros Hname.
  assert (Hrun : execute_prompt fuel prompt_name args s =
                 console_print (prompt_not_found_text prompt_name) s).
  { unfold execute_prompt. unfold bind at 1. unfold get_self.
    rewrite Hname. fold (prompt_not_found_text prompt_name). cbn [app].
    now destruct (console_print (prompt_not_found_text prompt_name) s)
      as [[r s'] evs]. }
  rewrite Hrun. split; [reflexivity|]. split.
  - intros Hline. now rewrite (console_print_ok _ _ Hline).
  - intros msg Hline. now rewrite (console_print_refused _ _ _ Hline).
Qed.


(** X21.  An error of the prompt retrieval never enters the dispatch
    loop: the model is not invoked.  When the error is an [Exception]
    whose "Error: ..." line the console prints, the line is printed and
    [execute_prompt] returns. *)
Theorem prompt_retrieval_error_is_reported
    fuel prompt_name args (s : state W) session e w :
  Dict.get (sessions (self s)) prompt_name = Some session ->
  session_get_prompt session prompt_name args (world s) = (Err e, w) ->
  model_invocations (events_of (execute_prompt fuel prompt_name args s)) = []
  /\ (is_Exception e = true ->
      console_error (error_text e) = None ->
      execute_prompt fuel prompt_name args s =
        (Return tt, {| self := self s; world := w |},
         [EvGetPrompt session prompt_name args; error_line e])).
Proof.
  intros Hname Hprompt.
  assert (Hrun : execute_prompt fuel prompt_name args s =
                 if is_Exception e then
                   match console_error (error_text e) with
                   | None =>
                       (Return tt, {| self := self s; world := w |},
                        [EvGetPrompt session prompt_name args; error_line e])
                   | Some msg =>
                       (Raised (Exception msg), {| self := self s; world := w |},
                        [EvGetPrompt session prompt_name args])
                   end
                 else
                   (Raised e, {| self := self s; world := w |},
                    [EvGetPrompt session prompt_name args])).
  { rewrite (execute_prompt_registered _ _ _ _ _ Hname).
    rewrite reported_unfold. unfold bind at 1, call. now rewrite Hprompt. }
  rewrite Hrun. split.
  - destruct (is_Exception e); [|reflexivity].
    now destruct (console_error (error_text e)).
  - intros Hkind Hline. now rewrite Hkind, Hline.
Qed.

End Resolver.

(** ** The interactive loop, [list_prompts] and [main] *)

Section Interaction.

Context {W : Type} {collab : Collaborators W} {stack : ExitStack W}.

(** A round whose line is empty once stripped. *)
Lemma chat_round_empty fuel (s : state W) line w :
  input query_prompt (world s) = (Ok line, w) ->
  String.eqb (strip line) "" = true ->
  chat_round fuel s =
    (Return true, {| self := self s; world := w |}, [EvInput query_prompt]).
Proof.
  intros Hinput Hempty. unfold chat_round, try_except, bind at 1, call.
  fold query_prompt. now rewrite Hinput, Hempty.
Qed.

(** A round whose line is "quit" once stripped and lowered. *)
Lemma chat_round_quit fuel (s : state W) line w :
  input query_prompt (world s) = (Ok line, w) ->
  lower (strip line) = "quit" ->
  chat_round fuel s =
    (Return false, {| self := self s; world := w |}, [EvInput query_prompt]).
Proof.
  intros Hinput Hquit. unfold chat_round, try_except, bind at 1, call.
  fold query_prompt. rewrite Hinput.
  destruct (String.eqb_spec (strip line) "") as [Hempty|_].
  - rewrite Hempty in Hquit. discriminate.
  - now rewrite Hquit.
Qed.

(** A round whose [input] raises. *)
Lemma chat_round_input_error fuel (s : state W) e w :
  input query_prompt (world s) = (Err e, w) ->
  chat_round fuel s =
    if is_Exception e then
      match console_error (round_error_text e) with
      | None =>
          (Return true, {| self := self s; world := w |},
           [EvInput query_prompt; EvPrint (round_error_text e)])
      | Some msg =>
          (Raised (Exception msg), {| self := self s; world := w |},
           [EvInput query_prompt])
      end
    else
      (Raised e, {| self := self s; world := w |}, [EvInput query_prompt]).
Proof.
  intros Hinput. unfold chat_round, try_except, bind at 1, call.
  fold query_prompt. rewrite Hinput.
  destruct (is_Exception e); [|reflexivity].
  unfold bind. fold (round_error_text e).
  destruct (console_print_cases (round_error_text e)
              {| self := self s; world := w |}) as [[-> ->]|(msg & -> & ->)];
    reflexivity.
Qed.

(** An exception that leaves a round is not an [Exception], or was
    raised by the console on the handler's line. *)
Lemma chat_round_escapes fuel (s : state W) e :
  outcome_of (chat_round fuel s) = Raised e ->
  is_Exception e = false \/ raised_by_console e.
Proof.
  unfold chat_round.
  apply (caught_escapes _
           (fun e => PStr (newline +++ "Error: " +++ exn_str e)) (ret true)).
  intros s1 e1. cbn. discriminate.
Qed.

Lemma chat_rounds_escape rounds fuel :
  forall (s : state W) e,
    outcome_of (chat_rounds rounds fuel s) = Raised e ->
    is_Exception e = false \/ raised_by_console e.
Proof.
  induction rounds as [|rounds IH]; intros s e; cbn [chat_rounds].
  - cbn. discriminate.
  - unfold bind.
    pose proof (chat_round_escapes fuel s) as Hround.
    destruct (chat_round fuel s) as [[[[|]|e'|] s1] t1].
    + specialize (IH s1 e).
      destruct (chat_rounds rounds fuel s1) as [[r s2] t2]. exact IH.
    + cbn. discriminate.
    + cbn. intros [= <-]. now apply Hround.
    + cbn. discriminate.
Qed.

Lemma chat_loop_escapes_by rounds fuel (s : state W) e :
  outcome_of (chat_loop rounds fuel s) = Raised e ->
  is_Exception e = false \/ raised_by_console e.
Proof.
  unfold chat_loop. unfold bind at 1. fold banner.
  destruct (console_print_cases banner s) as [[_ ->]|(msg & Hline & ->)].
  - unfold bind at 1. fold quit_hint.
    destruct (console_print_cases quit_hint s) as [[_ ->]|(msg & Hline & ->)].
    + pose proof (chat_rounds_escape rounds fuel s e) as Hrounds.
      destruct (chat_rounds rounds fuel s) as [[r s2] t2]. exact Hrounds.
    + cbn. intros [= <-]. right. now exists quit_hint, msg.
  - cbn. intros [= <-]. right. now exists banner, msg.
Qed.

(** The chat loop once its two opening lines are printed. *)
Lemma chat_loop_started rounds fuel (s : state W) :
  console_error banner = None ->
  console_error quit_hint = None ->
  chat_loop rounds fuel s =
    match chat_rounds rounds fuel s with
    | (r, s', evs) => (r, s', EvPrint banner :: EvPrint quit_hint :: evs)
    end.
Proof.
  intros Hbanner Hhint. unfold chat_loop. unfold bind at 1. fold banner.
  rewrite (console_print_ok _ _ Hbanner). unfold bind at 1. fold quit_hint.
  rewrite (console_print_ok _ _ Hhint).
  now destruct (chat_rounds rounds fuel s) as [[r s'] evs].
Qed.

(** X22.  A line that is "quit" once stripped and lowered ends the chat
    loop without any model turn, and it is the only kind of line that ends
    it: a round answers [break] exactly for such a line.  [strip] removes
    the white space of Python, Unicode white space included. *)
Theorem quit_ends_chat_loop rounds fuel (s : state W) line w :
  input query_prompt (world s) = (Ok line, w) ->
  (outcome_of (chat_round fuel s) = Return false
   <-> lower (strip line) = "quit")
  /\ (lower (strip line) = "quit" ->
      chat_round fuel s =
        (Return false, {| self := self s; world := w |}, [EvInput query_prompt]))
  /\ (lower (strip line) = "quit" ->
      console_error banner = None ->
      console_error quit_hint = None ->
      chat_loop (S rounds) fuel s =
        (Return tt, {| self := self s; world := w |},
         [EvPrint (PPanel "Local MCP Client Started!");
          EvPrint (PStr "Type your queries or 'quit' to exit.");
          EvInput query_prompt])).
Proof.
  intros Hinput. split; [split|split].
  - intros Hbreak.
    destruct (String.eqb_spec (lower (strip line)) "quit") as [Hq|Hq];
      [exact Hq|]. exfalso. revert Hbreak.
    destruct (String.eqb (strip line) "") eqn:Hempty.
    + now rewrite (chat_round_empty _ _ _ _ Hinput Hempty).
    + apply String.eqb_neq in Hq.
      rewrite (chat_round_query _ _ _ _ Hinput Hempty Hq).
      destruct (process_query fuel (strip line) _) as [[[[]|e|] s1] evs];
        try (cbn; discriminate).
      destruct (is_Exception e); [|cbn; discriminate].
      destruct (console_print (round_error_text e) s1) as [[[[]|e2|] s2] evs2];
        cbn; discriminate.
  - intros Hq. now rewrite (chat_round_quit _ _ _ _ Hinput Hq).
  - exact (chat_round_quit fuel s line w Hinput).
  - intros Hq Hbanner Hhint. rewrite (chat_loop_started _ _ _ Hbanner Hhint).
    cbn [chat_rounds]. unfold bind.
    now rewrite (chat_round_quit _ _ _ _ Hinput Hq).
Qed.

(** X23.  A line that is empty once stripped (an empty line, or white
    space only, Unicode white space included) is ignored: the round asks
    for the next line, nothing is printed and the model is not invoked. *)
Theorem empty_input_is_ignored fuel (s : state W) line w :
  input query_prompt (world s) = (Ok line, w) ->
  strip line = "" ->
  chat_round fuel s =
    (Return true, {| self := self s; world := w |}, [EvInput query_prompt]).
Proof.
  intros Hinput Hempty. apply (chat_round_empty _ _ _ _ Hinput).
  now rewrite Hempty.
Qed.


(** X25.  When [input] keeps raising an [Exception] whose "Error: ..."
    line the console prints (an [EOFError]: the standard input is at its
    end), the chat loop does not stop: every round prints the error and
    asks again.  Whatever the bound on the rounds, the loop is still
    running when it is reached, has printed one error line per round and
    has never invoked the model.  An exception of [input] that is not an
    [Exception] (Ctrl-C at the prompt) is not handled: it leaves the round
    and the loop, and nothing is printed. *)
Theorem chat_loop_spins_on_input_error (P : W -> Prop) fuel :
  ((forall w, P w ->
      exists e w',
        input query_prompt w = (Err e, w')
        /\ is_Exception e = true
        /\ console_error (round_error_text e) = None
        /\ P w') ->
   forall rounds (s : state W),
     P (world s) ->
     let run := chat_rounds rounds fuel s in
     outcome_of run = Diverged
     /\ length (printed_lines (events_of run)) = rounds
     /\ model_invocations (events_of run) = [])
  /\ (forall rounds (s : state W) e w',
        input query_prompt (world s) = (Err e, w') ->
        is_Exception e = false ->
        chat_rounds (S rounds) fuel s =
          (Raised e, {| self := self s; world := w' |}, [EvInput query_prompt])).
Proof.
  split.
  - intros Hinput. induction rounds as [|rounds IH]; intros s Hs; cbv zeta.
    + cbn. auto.
    + destruct (Hinput (world s) Hs) as (e & w' & Hraise & Hkind & Hline & Hw').
      assert (Hround : chat_round fuel s =
                (Return true, {| self := self s; world := w' |},
                 [EvInput query_prompt; EvPrint (round_error_text e)])).
      { now rewrite (chat_round_input_error _ _ _ _ Hraise), Hkind, Hline. }
      assert (Hstep : chat_rounds (S rounds) fuel s =
                match chat_rounds rounds fuel {| self := self s; world := w' |} with
                | (r, s2, evs2) =>
                    (r, s2,
                     [EvInput query_prompt; EvPrint (round_error_text e)] ++ evs2)
                end).
      { cbn [chat_rounds]. unfold bind. rewrite Hround.
        destruct (chat_rounds rounds fuel _) as [[r s2] evs2]. reflexivity. }
      rewrite Hstep. specialize (IH {| self := self s; world := w' |} Hw').
      cbv zeta in IH.
      destruct (chat_rounds rounds fuel _) as [[r s2] evs2].
      unfold outcome_of, events_of in *. cbn [fst snd] in *.
      destruct IH as (-> & Hlines & Hmodel).
      split; [reflexivity|]. split.
      * simpl. now rewrite Hlines.
      * simpl. exact Hmodel.
  - intros rounds s e w' Hraise Hkind. cbn [chat_rounds]. unfold bind.
    now rewrite (chat_round_input_error _ _ _ _ Hraise), Hkind.
Qed.

(** *** [list_prompts] *)

Lemma printing_app lines1 lines2 :
  printing (lines1 ++ lines2) =
    match printing lines1 with
    | (Return _, evs1) =>
        match printing lines2 with
        | (r, evs2) => (r, evs1 ++ evs2)
        end
    | other => other
    end.
Proof.
  induction lines1 as [|p lines1 IH]; cbn [app printing].
  - now destruct (printing lines2) as [r evs2].
  - destruct (console_error p); [reflexivity|].
    rewrite IH. destruct (printing lines1) as [[[]|e|] evs1]; try reflexivity.
    now destruct (printing lines2) as [r evs2].
Qed.

Lemma printing_all lines :
  all_printed lines -> printing lines = (Return tt, map EvPrint lines).
Proof.
  induction 1 as [|p lines Hp _ IH]; cbn [printing map]; [reflexivity|].
  now rewrite Hp, IH.
Qed.

(** A print followed by a computation that prints the lines [rest]. *)
Lemma print_then (p : printed) (k : M W unit) rest (s : state W) :
  k s = (fst (printing rest), s, snd (printing rest)) ->
  (console_print p ;; k) s =
    (fst (printing (p :: rest)), s, snd (printing (p :: rest))).
Proof.
  intros Hk. unfold bind. cbn [printing].
  destruct (console_print_cases p s) as [[-> ->]|(msg & -> & ->)].
  - rewrite Hk. now destruct (printing rest) as [r evs].
  - reflexivity.
Qed.

(** Two computations in a row that print [lines1] and [lines2]. *)
Lemma printing_then (m k : M W unit) lines1 lines2 (s : state W) :
  m s = (fst (printing lines1), s, snd (printing lines1)) ->
  k s = (fst (printing lines2), s, snd (printing lines2)) ->
  (m ;; k) s =
    (fst (printing (lines1 ++ lines2)), s, snd (printing (lines1 ++ lines2))).
Proof.
  intros Hm Hk. unfold bind. rewrite Hm, printing_app.
  destruct (printing lines1) as [[[]|e|] evs1]; cbn [fst snd]; try reflexivity.
  rewrite Hk. now destruct (printing lines2) as [r evs2].
Qed.

Lemma for_arguments_run args (s : state W) :
  for_arguments args s =
    (fst (printing (argument_lines args)), s,
     snd (printing (argument_lines args))).
Proof.
  induction args as [|arg args IH]; [reflexivity|].
  cbn [for_arguments argument_lines map]. now apply print_then.
Qed.

Lemma for_prompts_run prompts (s : state W) :
  for_prompts prompts s =
    (fst (printing (flat_map prompt_lines prompts)), s,
     snd (printing (flat_map prompt_lines prompts))).
Proof.
  induction prompts as [|prompt prompts IH]; [reflexivity|].
  cbn [for_prompts flat_map].
  assert (Hprompt :
    (console_print
       (PStr ("- " +++ pe_name prompt +++ ": "
              +++ format_optional (pe_description prompt))) ;;
     match pe_arguments prompt with
     | Some (arg :: args) =>
         console_print (PStr "  Arguments:") ;; for_arguments (arg :: args)
     | Some [] | None => ret tt
     end) s =
    (fst (printing (prompt_lines prompt)), s,
     snd (printing (prompt_lines prompt)))).
  { unfold prompt_lines. apply print_then.
    destruct (pe_arguments prompt) as [[|arg args]|]; try reflexivity.
    apply print_then. apply for_arguments_run. }
  assert (Hassoc : forall (a b c : M W unit) (s0 : state W),
            (a ;; b ;; c) s0 = ((a ;; b) ;; c) s0).
  { intros a b c s0. unfold bind.
    destruct (a s0) as [[[[]|e|] s1] t1]; try reflexivity.
    destruct (b s1) as [[[[]|e|] s2] t2]; try reflexivity.
    destruct (c s2) as [[r3 s3] t3]. now rewrite app_assoc. }
  rewrite Hassoc. now apply printing_then.
Qed.

(** X26.  [list_prompts] only prints: it leaves the object and the world
    as they are and asks no session anything.  It prints the lines of the
    listing in order (without prompts one line; otherwise a header and,
    for each prompt, its line, followed by an "Arguments:" line and one
    line per argument when the prompt has arguments) up to the first line
    the console refuses, whose [MarkupError] leaves [list_prompts]; when
    the console prints every line, it returns. *)
Theorem list_prompts_only_prints (s : state W) :
  list_prompts s =
    (fst (printing (prompts_listing (self s))), s,
     snd (printing (prompts_listing (self s))))
  /\ (all_printed (prompts_listing (self s)) ->
      list_prompts s = (Return tt, s, map EvPrint (prompts_listing (self s)))).
Proof.
  assert (Hrun : list_prompts s =
                 (fst (printing (prompts_listing (self s))), s,
                  snd (printing (prompts_listing (self s))))).
  { unfold list_prompts, prompts_listing. unfold bind at 1. unfold get_self.
    cbn [app].
    destruct (available_prompts (self s)) as [|prompt rest].
    - assert (Hone : console_print (PStr "No prompts available.") s =
                (fst (printing [PStr "No prompts available."]), s,
                 snd (printing [PStr "No prompts available."]))).
      { cbn [printing].
        destruct (console_print_cases (PStr "No prompts available.") s)
          as [[-> ->]|(msg & -> & ->)]; reflexivity. }
      rewrite Hone.
      now destruct (printing [PStr "No prompts available."]) as [r evs].
    - pose proof (print_then (PStr (newline +++ "Available prompts:"))
                    (for_prompts (prompt :: rest))
                    (flat_map prompt_lines (prompt :: rest)) s
                    (for_prompts_run (prompt :: rest) s)) as Hall.
      rewrite Hall.
      now destruct (printing (PStr (newline +++ "Available prompts:")
                              :: flat_map prompt_lines (prompt :: rest)))
        as [r evs]. }
  split; [exact Hrun|].
  intros Hall. rewrite Hrun. now rewrite (printing_all _ Hall).
Qed.

(** *** [main] *)

(** X27.  A configuration that cannot be loaded ends [main] with that
    error, after the exit stack has been closed: the chat loop is never
    entered.  This is for a failure that is an [Exception] whose report
    the console prints (the failures of [open], [json.load] and [.get]);
    when the console refuses the report, its [MarkupError] ends [main]
    instead, and a failure that is not an [Exception] ends [main] without
    a report. *)
Theorem main_configuration_failure rounds fuel (w : W) e w1 w2 :
  load_config w = (Err e, w1) ->
  aclose w1 = (Ok tt, w2) ->
  (is_Exception e = true ->
   console_error (config_error_text e) = None ->
   run_main rounds fuel w =
     (Raised e, {| self := init; world := w2 |},
      [EvLoadConfig;
       EvPrint (PStr ("Error loading server config: " +++ exn_str e))]))
  /\ (is_Exception e = true ->
      forall msg,
        console_error (config_error_text e) = Some msg ->
        run_main rounds fuel w =
          (Raised (Exception msg), {| self := init; world := w2 |},
           [EvLoadConfig]))
  /\ (is_Exception e = false ->
      run_main rounds fuel w =
        (Raised e, {| self := init; world := w2 |}, [EvLoadConfig])).
Proof.
  intros Hload Hclose.
  assert (Hstart : connect_to_servers {| self := init; world := w |} =
            if is_Exception e then
              match console_error (config_error_text e) with
              | None =>
                  (Raised e, {| self := init; world := w1 |},
                   [EvLoadConfig; EvPrint (config_error_text e)])
              | Some msg =>
                  (Raised (Exception msg), {| self := init; world := w1 |},
                   [EvLoadConfig])
              end
            else (Raised e, {| self := init; world := w1 |}, [EvLoadConfig])).
  { rewrite connect_to_servers_unfold. unfold bind at 1, call.
    cbn [self world]. now rewrite Hload. }
  assert (Hmain : forall e0 evs,
            connect_to_servers {| self := init; world := w |} =
              (Raised e0, {| self := init; world := w1 |}, evs) ->
            run_main rounds fuel w =
              (Raised e0, {| self := init; world := w2 |}, evs)).
  { intros e0 evs Hraised. unfold run_main, main, try_finally.
    unfold bind at 1. rewrite Hraised.
    unfold cleanup. cbn [world self]. rewrite Hclose. now rewrite app_nil_r. }
  split; [|split].
  - intros Hkind Hline. apply Hmain. now rewrite Hstart, Hkind, Hline.
  - intros Hkind msg Hline. apply Hmain. now rewrite Hstart, Hkind, Hline.
  - intros Hkind. apply Hmain. now rewrite Hstart, Hkind.
Qed.

(** X28.  Every run of [main] that ends has closed the exit stack as its
    last step, whether the start-up and the chat loop returned or raised:
    the final world is the one [aclose] leaves from the world they left. *)
Theorem main_always_cleans_up rounds fuel (w : W) :
  let body :=
    (connect_to_servers ;; chat_loop rounds fuel) {| self := init; world := w |} in
  outcome_of (run_main rounds fuel w) <> Diverged ->
  world (state_of (run_main rounds fuel w)) =
    snd (aclose (world (state_of body))).
Proof.
  cbv zeta. unfold run_main, main, try_finally.
  destruct ((connect_to_servers;; chat_loop rounds fuel) _) as [[[[]|e|] s1] t1];
    unfold cleanup, state_of; cbn [fst snd].
  - intros _. destruct (aclose (world s1)) as [[u|e'] w2]; reflexivity.
  - intros _. destruct (aclose (world s1)) as [[u|e'] w2]; reflexivity.
  - intros Hdiverged. now contradiction Hdiverged.
Qed.

(** X29.  An error that leaves [main] is the error of the final
    [aclose], run from the world the start-up and the chat loop left, or
    it is the error that ended them; and the errors that end them are the
    failure to load the configuration, an exception that is not an
    [Exception] (Ctrl-C at the prompt, a cancellation), and a
    [MarkupError] of the console.  No [Exception] of a server, of the
    model, of a tool or of [input] ends [main]. *)
Theorem main_fatal_errors rounds fuel (w : W) e :
  let body :=
    (connect_to_servers ;; chat_loop rounds fuel) {| self := init; world := w |} in
  outcome_of (run_main rounds fuel w) = Raised e ->
  fst (aclose (world (state_of body))) = Err e
  \/ (outcome_of body = Raised e
      /\ (fst (load_config w) = Err e
          \/ is_Exception e = false \/ raised_by_console e)).
Proof.
  cbv zeta.
  assert (Hbody : forall e0,
            outcome_of ((connect_to_servers ;; chat_loop rounds fuel)
                          {| self := init; world := w |}) = Raised e0 ->
            fst (load_config w) = Err e0
            \/ is_Exception e0 = false \/ raised_by_console e0).
  { intros e0. unfold bind.
    destruct (connect_to_servers_escapes {| self := init; world := w |})
      as [_ Hstart].
    destruct (connect_to_servers {| self := init; world := w |})
      as [[[[]|e1|] s1] t1].
    - pose proof (chat_loop_escapes_by rounds fuel s1 e0) as Hloop.
      destruct (chat_loop rounds fuel s1) as [[r s2] t2].
      intros Hraised. right. now apply Hloop.
    - cbn. intros [= <-]. now apply Hstart.
    - cbn. discriminate. }
  unfold run_main, main, try_finally.
  destruct ((connect_to_servers ;; chat_loop rounds fuel)
              {| self := init; world := w |}) as [[r s1] t1].
  unfold state_of, outcome_of in *. cbn [fst snd] in *.
  unfold cleanup.
  destruct r as [[]|e1|].
  - destruct (aclose (world s1)) as [[u|e'] w2]; cbn; [discriminate|].
    intros [= <-]. now left.
  - destruct (aclose (world s1)) as [[u|e'] w2]; cbn.
    + intros [= <-]. right. split; [reflexivity|]. now apply Hbody.
    + intros [= <-]. now left.
  - cbn. discriminate.
Qed.

End Interaction.

(** * Runs of the scripted worlds *)

Module Runs.

Import Scripted Scenario Worlds.

Example connect_to_servers_lab :
  let run := connect_to_servers {| self := init; world := lab None (Ok []) [] |} in
  outcome_of run = Return tt /\ self (state_of run) = connected.
Proof. split; reflexivity. Qed.

(** The end-to-end run of the specification: "add 2 and 3". *)
Example add_two_and_three :
  let w := lab (Some [add_call]) (Ok [TextItem "5"]) [] in
  process_query 3 "add 2 and 3" {| self := connected; world := w |} =
    (Return tt, {| self := connected; world := w |},
     [EvChat (available_tools connected) [user_turn "add 2 and 3"];
      EvPrint (PContent (Some ""));
      EvPrint (PToolCall (function add_call));
      EvCallTool 1 "add" [("a", JNum 2); ("b", JNum 3)];
      EvPrint (PToolOutput ["5"]);
      EvChat (available_tools connected)
        [user_turn "add 2 and 3"; assistant_turn ""; tool_turn "5"];
      EvPrint (PContent (Some "Done."))]).
Proof. reflexivity. Qed.

(** *** C1: the batch [add; subtract; add] stops at "subtract" *)

Lemma unresolved_tool_aborts_batch_witness :
  (exists more,
     [(1, "add", [("a", JNum 2); ("b", JNum 3)])] =
     tool_invocations (events_of (model_turn [user_turn "compute"] batch_state))
     ++ more)
  /\ model_turn [user_turn "compute"] batch_state =
       (Return ([user_turn "compute"; assistant_turn ""; tool_turn "5";
                 assistant_turn ""], true),
        batch_state,
        [EvChat (available_tools connected) [user_turn "compute"];
         EvPrint (PContent (Some ""));
         EvPrint (PToolCall (function add_call));
         EvCallTool 1 "add" [("a", JNum 2); ("b", JNum 3)];
         EvPrint (PToolOutput ["5"]);
         EvPrint (PToolCall (function missing_call));
         EvPrint (PStr "Tool 'subtract' not found.")]).
Proof.
  destruct
    (unresolved_tool_aborts_batch (collab := collaborators)
       [user_turn "compute"] batch_state
       {| response_message :=
            {| msg_content := Some "";
               tool_calls := Some [add_call; missing_call; later_call] |} |}
       batch_world add_call missing_call [later_call] 1
       eq_refl eq_refl eq_refl eq_refl) as (Hprefix & _ & Hrun).
  split; [exact Hprefix|].
  exact (Hrun "" [TextItem "5"] batch_world ["5"]
           eq_refl eq_refl eq_refl eq_refl eq_refl eq_refl eq_refl eq_refl).
Defined.

(** A response without content that asks for "add" (registered) and then
    for "subtract" (not registered): "add" is not invoked and no tool turn
    is appended, the turn raises the [TypeError] of [str.join]. *)
Lemma absent_content_aborts_before_first_call :
  let run := model_turn [user_turn "compute"] (on contentless_batch) in
  Dict.get (sessions connected) "add" = Some 1
  /\ Dict.get (sessions connected) "subtract" = None
  /\ run =
       (Raised
          (Exception "sequence item 0: expected str instance, NoneType found"),
        on contentless_batch,
        [EvChat (available_tools connected) [user_turn "compute"];
         EvPrint (PContent None)])
  /\ tool_invocations (events_of run) = [].
Proof. cbv zeta. repeat split. Qed.

(** *** C2: a model that only talks is invoked once; a batch that returns
    is followed by the next model turn *)



(** *** C3: both servers expose the same key *)

Lemma last_registered_wins_witness :
  Dict.get
    (sessions (self (state_of
       ((connect_to_server "first" [] ;; connect_to_server "second" []) twin_state))))
    "add" = Some 2
  /\ Dict.get
       (sessions (self (state_of
          ((connect_to_server "second" [] ;; connect_to_server "first" []) twin_state))))
       "add" = Some 1.
Proof.
  split.
  - refine (proj1 (proj2 (proj2
      (last_registered_wins (collab := collaborators)
         twin_state "first" [] "second" [] "add" 1 twin_world
         (state_of (connect_to_server "first" [] twin_state))
         (events_of (connect_to_server "first" [] twin_state))
         2 twin_world eq_refl _ eq_refl eq_refl))) _); simpl; auto.
  - refine (proj1 (proj2 (proj2
      (last_registered_wins (collab := collaborators)
         twin_state "second" [] "first" [] "add" 2 twin_world
         (state_of (connect_to_server "second" [] twin_state))
         (events_of (connect_to_server "second" [] twin_state))
         1 twin_world eq_refl _ eq_refl eq_refl))) _); simpl; auto.
Defined.

(** Both servers expose the resource "notes://shared"; the second one
    has no prompts and its [list_prompts] raises, so its resources are
    never listed: the key stays with the first session. *)
Lemma later_registration_may_not_win :
  let both :=
    (connect_to_server "first" [] ;; connect_to_server "second" [])
      {| self := init; world := tools_only_second |} in
  session_list_resources 1 tools_only_second =
    (Ok (Some [{| uri := "notes://shared" |}]), tools_only_second)
  /\ session_list_resources 2 tools_only_second =
       (Ok (Some [{| uri := "notes://shared" |}]), tools_only_second)
  /\ outcome_of both = Return tt
  /\ opened_servers (events_of both) = ["first"; "second"]
  /\ Dict.get (sessions (self (state_of both))) "notes://shared" = Some 1.
Proof. cbv zeta. repeat split. Qed.

(** *** C4: a server whose tool discovery fails *)

(** The prompts and the resources of the server are never asked for, and
    its prompt "summarize" is not registered. *)
Lemma discovery_failure_blocks_later_classes :
  let run := connect_to_server "flaky" [] flaky_state in
  session_list_prompts 7 flaky_world = (Ok (Some [summarize_prompt]), flaky_world)
  /\ ~ In (EvListPrompts 7) (events_of run)
  /\ ~ In (EvListResources 7) (events_of run)
  /\ Dict.get (sessions (self (state_of run))) "summarize" = None.
Proof.
  cbv zeta. split; [reflexivity|]. split; [|split].
  - simpl. intuition discriminate.
  - simpl. intuition discriminate.
  - reflexivity.
Qed.

Lemma discovery_failure_skips_later_classes_witness :
  connect_to_server "flaky" [] flaky_state =
    (Return tt, flaky_state,
     [EvOpenSession "flaky" []; EvListTools 7;
      EvPrint (PStr "Error tools unavailable")]).
Proof.
  exact (proj2 (proj2 (proj1
           (discovery_failure_skips_later_classes (collab := collaborators)
              "flaky" [] flaky_state 7 flaky_world eq_refl)
           (Exception "tools unavailable") flaky_world eq_refl))
           eq_refl eq_refl).
Defined.

(** *** C5: how often the assistant turn is appended *)

(** Without a tool call no assistant turn is appended; with two tool
    calls two are. *)
Lemma assistant_turn_not_appended_once :
  ~ appends_assistant_once [user_turn "hello"] quiet_state
  /\ ~ appends_assistant_once [user_turn "compute"] two_calls_state.
Proof.
  split; intros Hclaim.
  - specialize (Hclaim [user_turn "hello"] false eq_refl). discriminate.
  - specialize
      (Hclaim [user_turn "compute"; assistant_turn ""; tool_turn "5";
               assistant_turn ""; tool_turn "5"] true eq_refl).
    discriminate.
Qed.

Lemma assistant_turn_per_reached_call_witness :
  exists added,
    [user_turn "compute"; assistant_turn ""; tool_turn "5"; assistant_turn ""]
      = [user_turn "compute"] ++ added
    /\ with_role "assistant" added = [assistant_turn ""; assistant_turn ""].
Proof.
  destruct
    (assistant_turn_per_reached_call (collab := collaborators)
       [user_turn "compute"] batch_state
       {| response_message :=
            {| msg_content := Some "";
               tool_calls := Some [add_call; missing_call; later_call] |} |}
       batch_world ""
       [user_turn "compute"; assistant_turn ""; tool_turn "5"; assistant_turn ""]
       true batch_state
       [EvChat (available_tools connected) [user_turn "compute"];
        EvPrint (PContent (Some ""));
        EvPrint (PToolCall (function add_call));
        EvCallTool 1 "add" [("a", JNum 2); ("b", JNum 3)];
        EvPrint (PToolOutput ["5"]);
        EvPrint (PToolCall (function missing_call));
        not_found_line missing_call]
       eq_refl eq_refl eq_refl) as (added & Hadded & Hassistant & _).
  exists added. split; [exact Hadded | exact Hassistant].
Defined.

(** *** C6: a tool whose invocation raises *)

(** The error is not handled inside the dispatch loop: it leaves
    [process_query], and the model is not invoked again. *)
Lemma tool_error_not_caught_in_dispatch_loop :
  let run := process_query 3 "add 2 and 3" (failing_state []) in
  outcome_of run = Raised (Exception "connection lost")
  /\ outcome_of run <> Return tt
  /\ model_invocations (events_of run) = [[user_turn "add 2 and 3"]].
Proof.
  cbv zeta. split; [reflexivity|]. split; [discriminate | reflexivity].
Qed.

Lemma tool_error_leaves_dispatch_loop_witness :
  (* the second call of a batch raises *)
  for_tool_calls ([add_call] ++ summarize_call :: [later_call]) [Some ""]
    [user_turn "compute"] false (on second_call_fails) =
    (Raised (Exception "unknown tool"), on second_call_fails,
     [EvPrint (PToolCall (function add_call));
      EvCallTool 1 "add" [("a", JNum 2); ("b", JNum 3)];
      EvPrint (PToolOutput ["5"])]
     ++ [EvPrint (PToolCall (function summarize_call));
         EvCallTool 1 "summarize" []])
  (* the second call of the second turn raises *)
  /\ outcome_of (dispatch_loop (1 + 1) [user_turn "compute"]
                   (on (second_turn_fails []))) =
       Raised (Exception "unknown tool")
  (* the chat loop reports the error and goes on *)
  /\ chat_round 1 (failing_state ["  add 2 and 3 "; "quit"]) =
       (Return true, failing_state ["quit"],
        EvInput (newline +++ "Query: ")
        :: [EvChat (available_tools connected) [user_turn "add 2 and 3"];
            EvPrint (PContent (Some ""));
            EvPrint (PToolCall (function add_call));
            EvCallTool 1 "add" [("a", JNum 2); ("b", JNum 3)]]
        ++ [EvPrint (PStr (newline +++ "Error: connection lost"))]).
Proof.
  destruct (tool_error_leaves_dispatch_loop (collab := collaborators))
    as (Hbatch & _ & Hloop & Hround & _).
  split; [|split].
  - exact (Hbatch [add_call] summarize_call [later_call] "" [user_turn "compute"]
             false (on second_call_fails)
             [user_turn "compute"; assistant_turn ""; tool_turn "5"] true
             (on second_call_fails)
             [EvPrint (PToolCall (function add_call));
              EvCallTool 1 "add" [("a", JNum 2); ("b", JNum 3)];
              EvPrint (PToolOutput ["5"])]
             1 (Exception "unknown tool") second_call_fails
             eq_refl eq_refl eq_refl eq_refl eq_refl).
  - assert (Hfirst :
      model_turn [user_turn "compute"] (on (second_turn_fails [])) =
        (Return ([user_turn "compute"; assistant_turn ""; tool_turn "5"], true),
         on (second_turn_fails []),
         [EvChat (available_tools connected) [user_turn "compute"];
          EvPrint (PContent (Some ""));
          EvPrint (PToolCall (function add_call));
          EvCallTool 1 "add" [("a", JNum 2); ("b", JNum 3)];
          EvPrint (PToolOutput ["5"])])) by reflexivity.
    assert (Hsecond :
      model_turn [user_turn "compute"; assistant_turn ""; tool_turn "5"]
        (on (second_turn_fails [])) =
        (Raised (Exception "unknown tool"), on (second_turn_fails []),
         [EvChat (available_tools connected)
            [user_turn "compute"; assistant_turn ""; tool_turn "5"];
          EvPrint (PContent (Some ""));
          EvPrint (PToolCall (function add_call));
          EvCallTool 1 "add" [("a", JNum 2); ("b", JNum 3)];
          EvPrint (PToolOutput ["5"]);
          EvPrint (PToolCall (function summarize_call));
          EvCallTool 1 "summarize" []])) by reflexivity.
    rewrite (Hloop 1 0 _ _ _ _ _ _ _ _
               (tool_turns_S 0 _ _ _ _ _ _ _ _ Hfirst (tool_turns_O _ _))
               Hsecond).
    reflexivity.
  - exact (Hround 1 (failing_state ["  add 2 and 3 "; "quit"]) "  add 2 and 3 "
             (failing_world ["quit"]) (Exception "connection lost")
             (failing_state ["quit"])
             [EvChat (available_tools connected) [user_turn "add 2 and 3"];
              EvPrint (PContent (Some ""));
              EvPrint (PToolCall (function add_call));
              EvCallTool 1 "add" [("a", JNum 2); ("b", JNum 3)]]
             eq_refl eq_refl eq_refl eq_refl eq_refl eq_refl).
Defined.

(** The whole interactive loop goes on after the error, up to "quit". *)
Example chat_loop_survives_tool_error :
  outcome_of (chat_loop 5 3 (failing_state ["add 2 and 3"; ""; " QUIT "])) =
    Return tt.
Proof. reflexivity. Qed.

(** *** C7, C9: resources *)

Lemma get_resource_prefix_fallback_witness :
  (exists tail,
     events_of (get_resource "papers://123" connected_state) =
     EvReadResource 2 "papers://123" :: tail)
  /\ get_resource "papers://123" quiet_state =
       (Return tt, quiet_state, [resource_not_found "papers://123"]).
Proof.
  split.
  - refine (proj2 (proj1
      (get_resource_prefix_fallback (collab := collaborators)
         "papers://123" connected_state eq_refl)
      [("add", 1); ("summarize", 1)] "papers://456" 2 []
      eq_refl eq_refl eq_refl _)).
    intros k v [Hin|[Hin|[]]]; inversion Hin; reflexivity.
  - refine (proj1 (proj2 (proj2
      (get_resource_prefix_fallback (collab := collaborators)
         "papers://123" quiet_state eq_refl) _)) eq_refl).
    intros k v [].
Defined.

(** A URI with a closing tag and no key with the prefix: "not found" is
    not reported, the [MarkupError] of the console leaves
    [get_resource]. *)
Lemma tagged_papers_uri_is_not_reported :
  let run := get_resource "papers://[/x]" quiet_state in
  run =
    (Raised
       (Exception "closing tag '[/x]' at position 19 doesn't match any open tag"),
     quiet_state, [])
  /\ printed_lines (events_of run) = [].
Proof. cbv zeta. split; reflexivity. Qed.

Lemma get_resource_no_fallback_outside_papers_witness :
  get_resource "notes://123" connected_state =
    (Return tt, connected_state, [resource_not_found "notes://123"]).
Proof.
  exact (proj1 (proj2 (proj2
           (get_resource_no_fallback_outside_papers (collab := collaborators)
              "notes://123" connected_state eq_refl eq_refl))) eq_refl).
Defined.

(** A URI outside "papers://" with a closing tag: "not found" is not
    reported, the [MarkupError] of the console leaves [get_resource]. *)
Lemma tagged_uri_is_not_reported :
  let run := get_resource "notes://[/x]" connected_state in
  run =
    (Raised
       (Exception "closing tag '[/x]' at position 18 doesn't match any open tag"),
     connected_state, [])
  /\ printed_lines (events_of run) = [].
Proof. cbv zeta. split; reflexivity. Qed.

(** *** C8, C10: prompts *)

Lemma execute_prompt_feeds_query_witness :
  extract_text (ContentStr "Summarize X") = "Summarize X"
  /\ execute_prompt 1 "summarize" [] connected_state =
       (Return tt, connected_state,
        [EvGetPrompt 1 "summarize" [];
         EvPrint (PStr (newline +++ "Executing prompt 'summarize'..."));
         EvChat (available_tools connected) [user_turn "Summarize X"];
         EvPrint (PContent (Some ""))]).
Proof.
  destruct
    (execute_prompt_feeds_query (collab := collaborators)
       1 "summarize" [] connected_state 1
       {| pm_role := "user"; pm_content := ContentStr "Summarize X" |} []
       (lab None (Ok []) []) eq_refl eq_refl)
    as (Hstr & _ & _ & Hfed & _).
  split; [exact (Hstr "Summarize X" eq_refl) | exact (Hfed eq_refl)].
Defined.

(** A prompt registered under a name with a closing tag: the console
    refuses the "Executing prompt" line and then the handler's
    "Error: ..." line; the text of the prompt is never fed to the
    dispatch loop. *)
Lemma tagged_prompt_is_not_fed :
  let run := execute_prompt 3 "brief[/b]" [] tagged_prompt_state in
  run =
    (Raised
       (Exception "closing tag '[/b]' at position 20 doesn't match any open tag"),
     tagged_prompt_state, [EvGetPrompt 1 "brief[/b]" []])
  /\ model_invocations (events_of run) = [].
Proof. cbv zeta. split; reflexivity. Qed.

Lemma execute_prompt_without_messages_witness :
  execute_prompt 3 "summarize" [] silent_state =
    (Return tt, silent_state, [EvGetPrompt 1 "summarize" []]).
Proof.
  exact (execute_prompt_without_messages (collab := collaborators)
           3 "summarize" [] silent_state 1 (Some []) (world silent_state)
           eq_refl eq_refl eq_refl).
Defined.

End Runs.

(** * More runs of the scripted worlds *)

Module MoreRuns.

Import Scripted Scenario Worlds.

Lemma connection_failure_skips_server_witness :
  connect_to_server "calculator" [] quiet_state =
    (Return tt, quiet_state,
     [EvOpenSession "calculator" [];
      EvPrint (PStr "Error connecting to calculator: no such server")]).
Proof.
  exact (proj1 (proj2 (proj2
           (connection_failure_skips_server (collab := collaborators)
              "calculator" [] quiet_state (Exception "no such server") quiet
              eq_refl))) eq_refl eq_refl).
Defined.


Lemma configuration_failure_is_raised_witness :
  connect_to_servers {| self := init; world := unconfigured |} =
    (Raised (Exception "No such file or directory"),
     {| self := init; world := unconfigured |},
     [EvLoadConfig;
      EvPrint (PStr "Error loading server config: No such file or directory")]).
Proof.
  exact (proj1
           (configuration_failure_is_raised (collab := collaborators)
              {| self := init; world := unconfigured |}
              (Exception "No such file or directory") unconfigured eq_refl)
           eq_refl eq_refl).
Defined.


(** In that run the second server is left out. *)
Example later_servers_left_out :
  let run := connect_to_servers {| self := init; world := tagged_reply |} in
  opened_servers (events_of run) = ["flaky"]
  /\ outcome_of run = Raised (Exception (no_open_tag "[/tools]" 42)).
Proof. cbv zeta. split; reflexivity. Qed.

Lemma discovery_appends_descriptors_witness :
  available_tools
    (self (state_of (connect_to_server "calculator" []
                       {| self := init; world := lab None (Ok []) [] |})))
  = [] ++ map adapt_tool [add_tool_descriptor].
Proof.
  exact (proj1 (discovery_appends_descriptors (collab := collaborators)
                  "calculator" [] {| self := init; world := lab None (Ok []) [] |}
                  1 (lab None (Ok []) []) [add_tool_descriptor] (lab None (Ok []) [])
                  (Some [summarize_prompt]) (lab None (Ok []) [])
                  None (lab None (Ok []) [])
                  eq_refl eq_refl eq_refl eq_refl)).
Defined.

Lemma tool_calls_routed_in_order_witness :
  exists rest,
    routed (sessions connected) [add_call; missing_call; later_call]
      = tool_invocations (events_of (model_turn [user_turn "compute"] batch_state))
        ++ rest
    /\ rest = [].
Proof.
  destruct (tool_calls_routed_in_order (collab := collaborators)
              [user_turn "compute"] batch_state
              {| response_message :=
                   {| msg_content := Some "";
                      tool_calls := Some [add_call; missing_call; later_call] |} |}
              batch_world _ _ _ eq_refl eq_refl) as (rest & Hrouted & Hall).
  exists rest. split; [exact Hrouted | exact (Hall _ eq_refl)].
Defined.

Lemma model_error_ends_query_witness :
  process_query 1 "hello" (on offline) =
    (Raised (Exception "model offline"), on offline,
     [EvChat (available_tools connected) [user_turn "hello"]]).
Proof.
  exact (model_error_ends_query (collab := collaborators)
           0 "hello" (on offline) (Exception "model offline") offline eq_refl).
Defined.

Lemma absent_content_with_tool_calls_raises_witness :
  outcome_of (model_turn [user_turn "add 2 and 3"] (on contentless)) =
    Raised (Exception "sequence item 0: expected str instance, NoneType found")
  /\ tool_invocations
       (events_of (model_turn [user_turn "add 2 and 3"] (on contentless))) = [].
Proof.
  rewrite (absent_content_with_tool_calls_raises (collab := collaborators)
             [user_turn "add 2 and 3"] (on contentless)
             {| response_message :=
                  {| msg_content := None; tool_calls := Some [add_call] |} |}
             contentless add_call [] eq_refl eq_refl eq_refl).
  split; reflexivity.
Defined.

Lemma tool_output_is_concatenated_witness :
  outcome_of
    (for_tool_calls [add_call] [Some ""] [user_turn "q"] false
       (on (lab None (Ok [TextItem "4"; TextItem "2"]) []))) =
    Return ([user_turn "q"; assistant_turn ""; tool_turn "42"], true).
Proof.
  rewrite (tool_output_is_concatenated (collab := collaborators)
             add_call "" [user_turn "q"] false
             (on (lab None (Ok [TextItem "4"; TextItem "2"]) []))
             1 ["4"; "2"] (lab None (Ok [TextItem "4"; TextItem "2"]) [])
             eq_refl eq_refl eq_refl eq_refl).
  reflexivity.
Defined.

Lemma non_text_tool_result_raises_witness :
  outcome_of
    (for_tool_calls [add_call; later_call] [Some ""] [user_turn "q"] false
       (on (lab None (Ok [TextItem "4"; OtherItem "ImageContent"]) []))) =
    Raised (Exception "'ImageContent' object has no attribute 'text'").
Proof.
  rewrite (non_text_tool_result_raises (collab := collaborators)
             add_call [later_call] "" [user_turn "q"] false
             (on (lab None (Ok [TextItem "4"; OtherItem "ImageContent"]) []))
             1 ["4"] "ImageContent" []
             (lab None (Ok [TextItem "4"; OtherItem "ImageContent"]) [])
             eq_refl eq_refl eq_refl).
  reflexivity.
Defined.

Lemma missing_tool_loop_never_ends_witness :
  outcome_of (process_query 50 "subtract 3 from 5" (on stubborn)) = Diverged
  /\ length (model_invocations
               (events_of (process_query 50 "subtract 3 from 5" (on stubborn))))
     = 50.
Proof.
  refine (missing_tool_loop_never_ends (collab := collaborators)
            (fun w => w = stubborn) connected missing_call ""
            eq_refl eq_refl eq_refl eq_refl _
            50 [user_turn "subtract 3 from 5"] stubborn eq_refl).
  intros messages w ->.
  exists {| response_message :=
              {| msg_content := Some ""; tool_calls := Some [missing_call] |} |},
    stubborn, [].
  repeat split.
Defined.

(** A content with a closing tag ends the query at its first turn. *)
Example tagged_content_ends_query :
  process_query 50 "where is it" (on tagged_content) =
    (Raised (Exception (no_open_tag "[/usr/bin]" 4)), on tagged_content,
     [EvChat (available_tools connected) [user_turn "where is it"]]).
Proof. reflexivity. Qed.

Lemma get_resource_renders_first_item_witness :
  get_resource "papers://456" connected_state =
    (Return tt, connected_state,
     [EvReadResource 2 "papers://456";
      EvPrint (PStr (newline +++ "Resource: papers://456"));
      EvPrint (PStr "Content:");
      EvPrint (PStr "A paper.")])
  /\ get_resource "papers://456"
       (on (with_resource (Ok (Some [TextItem "see [/usr/bin]"])))) =
       (Raised (Exception (no_open_tag "[/usr/bin]" 20)),
        on (with_resource (Ok (Some [TextItem "see [/usr/bin]"]))),
        [EvReadResource 2 "papers://456";
         EvPrint (PStr (newline +++ "Resource: papers://456"));
         EvPrint (PStr "Content:")]).
Proof.
  split.
  - exact (proj1
             (get_resource_renders_first_item (collab := collaborators)
                "papers://456" connected_state 2 "A paper." []
                (lab None (Ok []) []) eq_refl eq_refl eq_refl eq_refl)
             eq_refl).
  - exact (proj2
             (get_resource_renders_first_item (collab := collaborators)
                "papers://456"
                (on (with_resource (Ok (Some [TextItem "see [/usr/bin]"]))))
                2 "see [/usr/bin]" []
                (with_resource (Ok (Some [TextItem "see [/usr/bin]"])))
                eq_refl eq_refl eq_refl eq_refl)
             (no_open_tag "[/usr/bin]" 4) eq_refl).
Defined.


Lemma resource_read_failures_are_reported_witness :
  get_resource "papers://456" (on offline) =
    (Return tt, on offline,
     [EvReadResource 2 "papers://456";
      error_line (Exception "read timed out")])
  /\ get_resource "papers://456" silent_state =
       (Return tt, silent_state,
        [EvReadResource 2 "papers://456"; EvPrint (PStr "No content available.")])
  /\ get_resource "papers://456"
       (on (with_resource (Ok (Some [OtherItem "BlobResourceContents"])))) =
       (Return tt, on (with_resource (Ok (Some [OtherItem "BlobResourceContents"]))),
        [EvReadResource 2 "papers://456";
         EvPrint (PStr (newline +++ "Resource: papers://456"));
         EvPrint (PStr "Content:");
         EvPrint
           (PStr "Error: 'BlobResourceContents' object has no attribute 'text'")]).
Proof.
  split; [|split].
  - exact (proj1
             (proj1 (resource_read_failures_are_reported (collab := collaborators)
                       "papers://456" (on offline) 2 eq_refl)
                (Exception "read timed out") offline eq_refl)
             eq_refl eq_refl).
  - exact (proj1 (proj2
             (resource_read_failures_are_reported (collab := collaborators)
                "papers://456" silent_state 2 eq_refl))
             None (world silent_state) eq_refl eq_refl eq_refl).
  - exact (proj2 (proj2
             (resource_read_failures_are_reported (collab := collaborators)
                "papers://456"
                (on (with_resource (Ok (Some [OtherItem "BlobResourceContents"]))))
                2 eq_refl))
             "BlobResourceContents" []
             (with_resource (Ok (Some [OtherItem "BlobResourceContents"])))
             eq_refl eq_refl eq_refl eq_refl).
Defined.

Lemma execute_prompt_not_found_witness :
  execute_prompt 3 "summarize" [] quiet_state =
    (Return tt, quiet_state, [prompt_not_found "summarize"])
  /\ execute_prompt 3 "a[/b]" [] quiet_state =
       (Raised (Exception (no_open_tag "[/b]" 9)), quiet_state, []).
Proof.
  split.
  - exact (proj1 (proj2
             (execute_prompt_not_found (collab := collaborators)
                3 "summarize" [] quiet_state eq_refl)) eq_refl).
  - exact (proj2 (proj2
             (execute_prompt_not_found (collab := collaborators)
                3 "a[/b]" [] quiet_state eq_refl))
             (no_open_tag "[/b]" 9) eq_refl).
Defined.


Lemma prompt_retrieval_error_is_reported_witness :
  execute_prompt 3 "summarize" [] (on offline) =
    (Return tt, on offline,
     [EvGetPrompt 1 "summarize" [];
      error_line (Exception "prompt unavailable")]).
Proof.
  exact (proj2
           (prompt_retrieval_error_is_reported (collab := collaborators)
              3 "summarize" [] (on offline) 1 (Exception "prompt unavailable")
              offline eq_refl eq_refl)
           eq_refl eq_refl).
Defined.

Lemma quit_ends_chat_loop_witness :
  chat_loop 1 3 (failing_state [" QUIT "; "add 2 and 3"]) =
    (Return tt, failing_state ["add 2 and 3"],
     [EvPrint (PPanel "Local MCP Client Started!");
      EvPrint (PStr "Type your queries or 'quit' to exit.");
      EvInput query_prompt])
  /\ chat_round 3 (failing_state [nbsp +++ "quit" +++ emsp; "add 2 and 3"]) =
       (Return false, failing_state ["add 2 and 3"], [EvInput query_prompt]).
Proof.
  split.
  - exact (proj2 (proj2
             (quit_ends_chat_loop (collab := collaborators)
                0 3 (failing_state [" QUIT "; "add 2 and 3"]) " QUIT "
                (failing_world ["add 2 and 3"]) eq_refl))
             eq_refl eq_refl eq_refl).
  - exact (proj1 (proj2
             (quit_ends_chat_loop (collab := collaborators)
                0 3 (failing_state [nbsp +++ "quit" +++ emsp; "add 2 and 3"])
                (nbsp +++ "quit" +++ emsp)
                (failing_world ["add 2 and 3"]) eq_refl))
             eq_refl).
Defined.

Lemma empty_input_is_ignored_witness :
  chat_round 3 (failing_state ["   "; "quit"]) =
    (Return true, failing_state ["quit"], [EvInput query_prompt])
  /\ chat_round 3 (failing_state [nbsp; "quit"]) =
       (Return true, failing_state ["quit"], [EvInput query_prompt]).
Proof.
  split.
  - exact (empty_input_is_ignored (collab := collaborators)
             3 (failing_state ["   "; "quit"]) "   " (failing_world ["quit"])
             eq_refl eq_refl).
  - exact (empty_input_is_ignored (collab := collaborators)
             3 (failing_state [nbsp; "quit"]) nbsp (failing_world ["quit"])
             eq_refl eq_refl).
Defined.


(** The error line of a query whose model content holds a closing tag
    is refused too: the [MarkupError] of the handler leaves the loop. *)
Example chat_loop_ends_on_tagged_content :
  outcome_of (chat_loop 5 3 (on (at_prompt ["where is it"] EOFError tagged_content))) =
    Raised (Exception (no_open_tag "[/usr/bin]" 21)).
Proof. reflexivity. Qed.

Lemma chat_loop_spins_on_input_error_witness :
  (outcome_of (chat_rounds 20 3 connected_state) = Diverged
   /\ length (printed_lines (events_of (chat_rounds 20 3 connected_state))) = 20)
  /\ chat_rounds 20 3 (on (at_prompt [] KeyboardInterrupt offline)) =
       (Raised KeyboardInterrupt, on (at_prompt [] KeyboardInterrupt offline),
        [EvInput query_prompt]).
Proof.
  destruct (chat_loop_spins_on_input_error (collab := collaborators)
              (fun w => stdin w = [] /\ at_end w = EOFError) 3)
    as [Hspins Hleaves].
  split.
  - destruct (Hspins) with (rounds := 20) (s := connected_state)
      as (Hrun & Hlines & _).
    + intros w [Hw Hend]. exists EOFError, w.
      split; [|split; [reflexivity|split; [reflexivity|now split]]].
      cbn. unfold read_line. now rewrite Hw, Hend.
    + split; reflexivity.
    + split; [exact Hrun | exact Hlines].
  - exact (Hleaves 19 (on (at_prompt [] KeyboardInterrupt offline))
             KeyboardInterrupt (at_prompt [] KeyboardInterrupt offline)
             eq_refl eq_refl).
Defined.

Lemma list_prompts_only_prints_witness :
  list_prompts connected_state =
    (Return tt, connected_state,
     [EvPrint (PStr (newline +++ "Available prompts:"));
      EvPrint (PStr "- summarize: Summarize a topic");
      EvPrint (PStr "  Arguments:");
      EvPrint (PStr "    - topic")])
  /\ list_prompts tagged_prompt_state =
       (Raised (Exception (no_open_tag "[/b]" 7)), tagged_prompt_state,
        [EvPrint (PStr (newline +++ "Available prompts:"))]).
Proof.
  split.
  - refine (proj2 (list_prompts_only_prints (collab := collaborators)
                     connected_state) _).
    repeat constructor.
  - exact (proj1 (list_prompts_only_prints (collab := collaborators)
                    tagged_prompt_state)).
Defined.

Lemma main_configuration_failure_witness :
  run_main 5 3 unconfigured =
    (Raised (Exception "No such file or directory"),
     {| self := init; world := unconfigured |},
     [EvLoadConfig;
      EvPrint (PStr "Error loading server config: No such file or directory")]).
Proof.
  exact (proj1
           (main_configuration_failure (collab := collaborators)
              (stack := exit_stack)
              5 3 unconfigured (Exception "No such file or directory")
              unconfigured unconfigured eq_refl eq_refl)
           eq_refl eq_refl).
Defined.

Lemma main_always_cleans_up_witness :
  world (state_of (run_main 5 3 (lab None (Ok []) ["hello"; "quit"]))) =
  snd (aclose
         (world (state_of
            ((connect_to_servers ;; chat_loop 5 3)
               {| self := init; world := lab None (Ok []) ["hello"; "quit"] |})))).
Proof.
  apply (main_always_cleans_up (collab := collaborators) (stack := exit_stack)
           5 3 (lab None (Ok []) ["hello"; "quit"])).
  discriminate.
Defined.

Lemma main_fatal_errors_witness :
  let body :=
    (connect_to_servers ;; chat_loop 5 3) {| self := init; world := unconfigured |} in
  fst (aclose (world (state_of body))) = Err (Exception "No such file or directory")
  \/ (outcome_of body = Raised (Exception "No such file or directory")
      /\ (fst (load_config unconfigured) = Err (Exception "No such file or directory")
          \/ is_Exception (Exception "No such file or directory") = false
          \/ raised_by_console (Exception "No such file or directory"))).
Proof.
  exact (main_fatal_errors (collab := collaborators) (stack := exit_stack)
           5 3 unconfigured (Exception "No such file or directory") eq_refl).
Defined.

(** The whole program on a short session: both servers are connected,
    one query is answered with a tool call, then the user quits. *)
Example main_session :
  let run :=
    run_main 5 3 (lab (Some [add_call]) (Ok [TextItem "5"]) ["add 2 and 3"; "quit"]) in
  outcome_of run = Return tt
  /\ self (state_of run) = connected
  /\ tool_invocations (events_of run) = [(1, "add", [("a", JNum 2); ("b", JNum 3)])]
  /\ length (model_invocations (events_of run)) = 2.
Proof. repeat split. Qed.

(** Ctrl-C at the prompt ends the program, after the exit stack has been
    closed. *)
Example main_interrupted :
  outcome_of (run_main 5 3 (at_prompt ["hello"] KeyboardInterrupt (lab None (Ok []) []))) =
    Raised KeyboardInterrupt.
Proof. reflexivity. Qed.

End MoreRuns.
